(** * Anaconda installer modules: storage orchestration, manual partitioning
      and network initialization tasks.

    A shallow embedding of
      - pyanaconda/modules/storage/partitioning/manual.py
      - pyanaconda/modules/storage/storage.py
      - pyanaconda/modules/network/initialization.py
      - pyanaconda/addons.py
    Python objects live in a store and are named by references; methods that
    read or write [self] are functions in a state-and-exception monad; calls
    into the NetworkManager client and the ifcfg helpers are events of a
    program tree that a backend interprets. *)

From Stdlib Require Import String Ascii ZArith List Bool Lia.
From stdpp Require Import base option list gmap sets fin_maps strings.

Local Open Scope string_scope.
Local Open Scope list_scope.
Set Warnings "-clear-no-such-hyp".

(** ** Python values shared by the three modules *)

(** References to objects of the Python heap (the value of [id(obj)]). *)
Abbreviation Ref := nat (only parsing).

(** The exceptions the modelled code can raise. *)
Inductive Exc : Type :=
| UnavailableStorageError
| InvalidStorageError
| AttributeError
| IndexError
| TaskFailure
| TypeError.

(** Outcome of a call: a returned value or a raised exception. *)
Inductive result (A : Type) : Type :=
| Ok (a : A)
| Raise (e : Exc).
Arguments Ok {A} a.
Arguments Raise {A} e.

(** Truth value of a Python string that may be [None]:
    [None] and the empty string are false. *)
Definition truthy (s : option string) : bool :=
  match s with
  | Some EmptyString => false
  | Some _ => true
  | None => false
  end.

(** Truth value of a plain [str]. *)
Definition nonempty (s : string) : bool :=
  match s with
  | EmptyString => false
  | _ => true
  end.

(** Truth value of a Python list. *)
Definition nonnil {A : Type} (l : list A) : bool :=
  match l with
  | [] => false
  | _ => true
  end.

(** Truth value of an object reference that may be [None]. *)
Definition is_Some_bool {A : Type} (o : option A) : bool :=
  match o with
  | Some _ => true
  | None => false
  end.

(** [x or default] for a string that may be [None]. *)
Definition str_or (s : option string) (d : string) : string :=
  if truthy s then default d s else d.

(** State-and-exception monad: a method of an object whose fields (and the
    store behind them) are the state [S]. *)
Definition M (S A : Type) : Type := S -> S * result A.

Definition ret {S A : Type} (a : A) : M S A := fun s => (s, Ok a).
Definition raise {S A : Type} (e : Exc) : M S A := fun s => (s, Raise e).
Definition bind {S A B : Type} (m : M S A) (f : A -> M S B) : M S B :=
  fun s =>
    match m s with
    | (s', Ok a) => f a s'
    | (s', Raise e) => (s', Raise e)
    end.
Definition gets {S A : Type} (f : S -> A) : M S A := fun s => (s, Ok (f s)).
Definition modify {S : Type} (f : S -> S) : M S unit := fun s => (f s, Ok tt).

Declare Scope py_scope.
Delimit Scope py_scope with py.
Notation "x <- m ;; k" := (bind m (fun x => k))
  (at level 100, m at next level, right associativity) : py_scope.
Notation "m ;;; k" := (bind m (fun _ => k))
  (at level 100, right associativity) : py_scope.

(** ** The storage model (blivet), as far as the modules look into it *)

Module Blivet.

(** [device.format]: its [type], whether it is [mountable], its [mountpoint]. *)
Record DeviceFormat : Type := {
  type : option string;
  mountable : bool;
  mountpoint : option string
}.

(** A device of the tree.  [dev_id] is the identity of the Python object
    (what [is] compares); [disks] holds the names of the device's disks. *)
Record Device : Type := {
  dev_id : nat;
  path : string;
  protected : bool;
  size : Z;
  disks : list string;
  format : DeviceFormat
}.

(** [storage.devicetree]: the leaves in iteration order and the resolver of
    device specifications (an opaque function of the tree). *)
Record DeviceTree : Type := {
  leaves : list Device;
  resolve_device : string -> option Device
}.

(** The storage model: the device tree and the selection constraints that
    [StorageModule.reset_with_task] sets. *)
Record Storage : Type := {
  devicetree : DeviceTree;
  ignored_disks : list string;
  exclusive_disks : list string;
  protected_devices : list string;
  disk_images : list (string * string)
}.

(** [device is other]: identity of device objects. *)
Definition device_is (d : Device) (o : option Device) : bool :=
  match o with
  | Some d' => Nat.eqb (dev_id d) (dev_id d')
  | None => false
  end.

End Blivet.

(** ** manual.py: the manual partitioning module *)

Module Manual.
Import Blivet.

(** Modelled from the spec: the data record [MountPointRequest]
    (pyanaconda.modules.common.structures.partitioning), with the six
    attributes the spec lists. *)
Record MountPointRequest : Type := {
  mount_point : string;
  device_spec : string;
  reformat : bool;
  format_type : string;
  format_options : string;
  mount_options : string
}.

(** Modelled from the spec: [MountPointRequest()] starts with empty strings
    and [reformat = False] (a synthesized request for an unformatted device has
    an empty mount point). *)
Definition new_request : MountPointRequest :=
  {| mount_point := ""; device_spec := ""; reformat := false;
     format_type := ""; format_options := ""; mount_options := "" |}.

#[export] Instance MountPointRequest_inhabited : Inhabited MountPointRequest :=
  populate new_request.

(** Assignments to the attributes of a request. *)
Definition set_mount_point (v : string) (r : MountPointRequest) : MountPointRequest :=
  {| mount_point := v; device_spec := device_spec r; reformat := reformat r;
     format_type := format_type r; format_options := format_options r;
     mount_options := mount_options r |}.
Definition set_device_spec (v : string) (r : MountPointRequest) : MountPointRequest :=
  {| mount_point := mount_point r; device_spec := v; reformat := reformat r;
     format_type := format_type r; format_options := format_options r;
     mount_options := mount_options r |}.
Definition set_reformat (v : bool) (r : MountPointRequest) : MountPointRequest :=
  {| mount_point := mount_point r; device_spec := device_spec r; reformat := v;
     format_type := format_type r; format_options := format_options r;
     mount_options := mount_options r |}.
Definition set_format_type (v : string) (r : MountPointRequest) : MountPointRequest :=
  {| mount_point := mount_point r; device_spec := device_spec r; reformat := reformat r;
     format_type := v; format_options := format_options r;
     mount_options := mount_options r |}.

(** One [mount] line of the kickstart data ([data.MountData()]). *)
Record MountData : Type := {
  md_mount_point : string;
  md_device : string;
  md_reformat : bool;
  md_format : string;
  md_mkfs_opts : string;
  md_mount_opts : string
}.

(** [data.mount]: the command object with its [seen] flag. *)
Record MountCommand : Type := {
  seen : bool;
  mount_points : list MountData
}.

(** The kickstart handler, as far as this module reads and writes it. *)
Record KickstartData : Type := {
  mount : MountCommand
}.

(** The signals of the module. *)
Inductive Signal : Type :=
| enabled_changed
| requests_changed.

(** The module object together with the store of request objects.
    [_requests] is a list of references: the same request object can be held
    by the module and by a caller.  [emitted] records signal emissions,
    oldest first.  [_storage] is what the [storage] property of the base class
    hands out ([None]: no storage model yet). *)
Record State : Type := {
  _enabled : bool;
  _requests : list Ref;
  _selected_disks : list string;
  _storage : option Storage;
  heap : gmap nat MountPointRequest;
  emitted : list Signal
}.

Definition with_enabled (b : bool) (s : State) : State :=
  {| _enabled := b; _requests := _requests s;
     _selected_disks := _selected_disks s; _storage := _storage s;
     heap := heap s; emitted := emitted s |}.

Definition with_requests (l : list Ref) (s : State) : State :=
  {| _enabled := _enabled s; _requests := l;
     _selected_disks := _selected_disks s; _storage := _storage s;
     heap := heap s; emitted := emitted s |}.

Definition with_heap (h : gmap nat MountPointRequest) (s : State) : State :=
  {| _enabled := _enabled s; _requests := _requests s;
     _selected_disks := _selected_disks s; _storage := _storage s;
     heap := h; emitted := emitted s |}.

Definition emit (sig : Signal) (s : State) : State :=
  {| _enabled := _enabled s; _requests := _requests s;
     _selected_disks := _selected_disks s; _storage := _storage s;
     heap := heap s; emitted := emitted s ++ [sig] |}.

(** The object a reference denotes.  Every reference the code holds was
    allocated; the total lookup answers [new_request] elsewhere. *)
Definition deref (s : State) (r : Ref) : MountPointRequest := heap s !!! r.

(** Allocation of a new request object: a reference not in the store. *)
Definition alloc (v : MountPointRequest) : M State Ref :=
  fun s =>
    let r := fresh (dom (heap s)) in
    (with_heap (<[r := v]> (heap s)) s, Ok r).

(** [set_enabled]: store the flag, emit [enabled_changed]. *)
Definition set_enabled (enabled : bool) : M State unit :=
  (modify (with_enabled enabled) ;;;
   modify (emit enabled_changed))%py.

(** [set_requests]: store the list, emit [requests_changed]. *)
Definition set_requests (requests : list Ref) : M State unit :=
  (modify (with_requests requests) ;;;
   modify (emit requests_changed))%py.

(** The request built from one [mount_data] in [process_kickstart]. *)
Definition request_of_mount_data (mount_data : MountData) : MountPointRequest :=
  {| mount_point := md_mount_point mount_data;
     device_spec := md_device mount_data;
     reformat := md_reformat mount_data;
     format_type := md_format mount_data;
     format_options := md_mkfs_opts mount_data;
     mount_options := md_mount_opts mount_data |}.

(** The loop of [process_kickstart]: one new request object per mount point,
    appended in order. *)
Fixpoint process_mount_points (l : list MountData) (requests : list Ref)
  : M State (list Ref) :=
  match l with
  | [] => ret requests
  | mount_data :: rest =>
      (request <- alloc (request_of_mount_data mount_data) ;;
       process_mount_points rest (requests ++ [request]))%py
  end.

(** [process_kickstart(data)]. *)
Definition process_kickstart (data : KickstartData) : M State unit :=
  if negb (seen (mount data)) then
    (set_requests [] ;;;
     set_enabled false)%py
  else
    (requests <- process_mount_points (mount_points (mount data)) [] ;;
     set_requests requests ;;;
     set_enabled true)%py.

(** The mount data built from one request in [setup_kickstart]. *)
Definition mount_data_of_request (request : MountPointRequest) : MountData :=
  {| md_mount_point := mount_point request;
     md_device := device_spec request;
     md_reformat := reformat request;
     md_format := format_type request;
     md_mkfs_opts := format_options request;
     md_mount_opts := mount_options request |}.

(** [setup_kickstart(data)]: the handler is an object the method writes to;
    the function returns its new contents.  Only [mount.mount_points] is
    assigned, [mount.seen] keeps the value the handler came with. *)
Definition setup_kickstart (s : State) (data : KickstartData) : KickstartData :=
  if negb (_enabled s) then data
  else
    let data_list := map (fun r => mount_data_of_request (deref s r)) (_requests s) in
    {| mount := {| seen := seen (mount data); mount_points := data_list |} |}.

(** Iteration order of a Python [set] of objects: some enumeration of its
    elements without repetition; which one is not specified. *)
Class SetOrder : Type := {
  set_iter : gset nat -> list nat;
  set_iter_perm : forall X : gset nat, set_iter X ≡ₚ elements X
}.

(** Modelled from the spec: the [storage] property of the partitioning base
    class (not in this file), a read accessor that raises the
    unavailable-resource error when the module has no storage model yet. *)
Definition storage : M State Storage :=
  fun s =>
    match _storage s with
    | Some st => (s, Ok st)
    | None => (s, Raise UnavailableStorageError)
    end.

(** The test of [_iterate_usable_devices] on one leaf. *)
Definition usable (selected_disks : list string) (device : Device) : bool :=
  if protected device || Z.eqb (size device) 0 then false
  else if nonnil selected_disks
          && negb (forallb (fun name => existsb (String.eqb name) selected_disks)
                           (disks device))
  then false
  else true.

(** [_iterate_usable_devices()]: the devices the generator yields, in order. *)
Definition _iterate_usable_devices : M State (list Device) :=
  (selected_disks <- gets _selected_disks ;;
   st <- storage ;;
   ret (filter (fun d => usable selected_disks d = true) (leaves (devicetree st))))%py.

(** The search of [_find_request_for_device] through an enumeration. *)
Definition find_in (s : State) (tree : DeviceTree) (device : Device)
  (l : list Ref) : option Ref :=
  List.find (fun r => device_is device (resolve_device tree (device_spec (deref s r)))) l.

Section Gather.
Context `{SetOrder}.

(** [_find_request_for_device(device, requests)], [requests] being a set. *)
Definition _find_request_for_device (device : Device) (requests : gset nat)
  : M State (option Ref) :=
  (st <- storage ;;
   s <- gets id ;;
   ret (find_in s (devicetree st) device (set_iter requests)))%py.

(** [_create_request_for_device(device)]: the contents of the new request. *)
Definition created_request (device : Device) : MountPointRequest :=
  let request := new_request in
  let request := set_device_spec (path device) request in
  let request := set_format_type (str_or (type (format device)) "") request in
  let request := set_reformat false request in
  if mountable (format device) && truthy (mountpoint (format device)) then
    set_mount_point (default "" (mountpoint (format device))) request
  else request.

Definition _create_request_for_device (device : Device) : M State Ref :=
  alloc (created_request device).

(** The loop of [gather_requests]. *)
Fixpoint gather_loop (devices : list Device) (available_requests : gset nat)
  (requests : list Ref) : M State (list Ref) :=
  match devices with
  | [] => ret requests
  | device :: rest =>
      (found <- _find_request_for_device device available_requests ;;
       match found with
       | Some request =>
           gather_loop rest (available_requests ∖ {[request]}) (requests ++ [request])
       | None =>
           request <- _create_request_for_device device ;;
           gather_loop rest available_requests (requests ++ [request])
       end)%py
  end.

(** [gather_requests()]. *)
Definition gather_requests : M State (list Ref) :=
  (self_requests <- gets _requests ;;
   let available_requests : gset nat := list_to_set self_requests in
   devices <- _iterate_usable_devices ;;
   gather_loop devices available_requests [])%py.

End Gather.

(** *** Vocabulary of the statements about [gather_requests] *)

(** The request object [r] of state [s] resolves to the device [d]. *)
Definition resolves_to (s : State) (tree : DeviceTree) (r : Ref) (d : Device) : Prop :=
  device_is d (resolve_device tree (device_spec (deref s r))) = true.

(** The usable devices of a storage model, in leaf order. *)
Definition usable_devices (s : State) (st : Storage) : list Device :=
  filter (fun d => usable (_selected_disks s) d = true) (leaves (devicetree st)).

(** What a call may change: nothing of the module, and no object that was
    in the store; the store may have grown. *)
Definition frame (s s' : State) : Prop :=
  _enabled s' = _enabled s /\ _requests s' = _requests s /\
  _selected_disks s' = _selected_disks s /\ _storage s' = _storage s /\
  emitted s' = emitted s /\ heap s ⊆ heap s'.

(** The request returned for a device: a declared one that resolves to it,
    or a new object with the synthesized contents when none is declared. *)
Definition request_for (s s' : State) (tree : DeviceTree) (declared : list Ref)
  (d : Device) (r : Ref) : Prop :=
  (r ∈ declared /\ resolves_to s tree r d /\ deref s' r = deref s r) \/
  (heap s !! r = None /\ heap s' !! r = Some (created_request d) /\
   forall q, q ∈ declared -> ~ resolves_to s tree q d).

(** The device a request object resolves to, by identity. *)
Definition resolved_id (s : State) (tree : DeviceTree) (r : Ref) : option nat :=
  dev_id <$> resolve_device tree (device_spec (deref s r)).

(** The resolver finds every leaf under its own path. *)
Definition paths_resolve (tree : DeviceTree) : Prop :=
  forall d, d ∈ leaves tree -> device_is d (resolve_device tree (path d)) = true.

(** A usable device, as the specification words it: not protected, of
    non-zero size and, when any disks are selected, with all its disks among
    the selected ones. *)
Definition spec_usable (selected_disks : list string) (d : Device) : Prop :=
  protected d = false /\ size d <> 0%Z /\
  (selected_disks <> [] -> forall name, In name (disks d) -> In name selected_disks).

(** A request synthesized for a device, attribute by attribute: the path
    of the device, no reformat, the type of its format (empty when it has
    none), the mount point of its format when the format is mountable (empty
    otherwise), and no options. *)
Definition synthesized_for (d : Device) (request : MountPointRequest) : Prop :=
  device_spec request = path d /\
  reformat request = false /\
  format_type request = default "" (type (format d)) /\
  mount_point request
  = (if mountable (format d) then default "" (mountpoint (format d)) else "") /\
  format_options request = "" /\
  mount_options request = "".

(** The request returned for a device, in these words: a declared one that
    resolves to it, or a new object synthesized for it when no declared one
    resolves to it. *)
Definition returned_for (s s' : State) (tree : DeviceTree) (declared : list Ref)
  (d : Device) (r : Ref) : Prop :=
  (r ∈ declared /\ resolves_to s tree r d /\ deref s' r = deref s r) \/
  (heap s !! r = None /\
   (exists request, heap s' !! r = Some request /\ synthesized_for d request) /\
   forall q, q ∈ declared -> ~ resolves_to s tree q d).

(** No two requests of a list resolve to the same device. *)
Definition distinct_devices (s : State) (tree : DeviceTree) (refs : list Ref) : Prop :=
  forall i j r1 r2 d,
    i <> j -> refs !! i = Some r1 -> refs !! j = Some r2 ->
    resolves_to s tree r1 d -> ~ resolves_to s tree r2 d.

(** The contents of the module's request list. *)
Definition contents (s : State) : list MountPointRequest :=
  map (deref s) (_requests s).

(** A handler that has parsed nothing: no command was seen. *)
Definition fresh_handler : KickstartData :=
  {| mount := {| seen := false; mount_points := [] |} |}.

(** The round trip as the specification words it: process [data], set up
    [handler] from the module, process the result; the module ends as it was
    after the first step, the request list compared up to order. *)
Definition roundtrip_law (handler data : KickstartData) (s0 : State) : Prop :=
  let s1 := fst (process_kickstart data s0) in
  let data' := setup_kickstart s1 handler in
  let s2 := fst (process_kickstart data' s1) in
  _enabled s2 = _enabled s1 /\ contents s2 ≡ₚ contents s1.

(** The scenario of the specification: requests for [sda1] and [sda2],
    usable devices [sda1], [sda2], [sda3], the last without a format. *)
Definition no_format : DeviceFormat :=
  {| type := None; mountable := false; mountpoint := None |}.
Definition partition (n : nat) (p : string) : Device :=
  {| dev_id := n; path := p; protected := false; size := 1024;
     disks := ["sda"]; format := no_format |}.
Definition scenario_resolver (spec : string) : option Device :=
  if String.eqb spec "sda1" then Some (partition 1 "/dev/sda1")
  else if String.eqb spec "/dev/sda1" then Some (partition 1 "/dev/sda1")
  else if String.eqb spec "sda2" then Some (partition 2 "/dev/sda2")
  else if String.eqb spec "/dev/sda2" then Some (partition 2 "/dev/sda2")
  else if String.eqb spec "/dev/sda3" then Some (partition 3 "/dev/sda3")
  else None.
Definition scenario_storage : Storage :=
  {| devicetree :=
       {| leaves := [partition 1 "/dev/sda1"; partition 2 "/dev/sda2";
                     partition 3 "/dev/sda3"];
          resolve_device := scenario_resolver |};
     ignored_disks := []; exclusive_disks := [];
     protected_devices := []; disk_images := [] |}.
Definition declared (mp spec : string) : MountPointRequest :=
  {| mount_point := mp; device_spec := spec; reformat := false;
     format_type := ""; format_options := ""; mount_options := "" |}.
Definition scenario : State :=
  {| _enabled := true; _requests := [7; 4]; _selected_disks := [];
     _storage := Some scenario_storage;
     heap := <[7 := declared "/" "sda1"]> (<[4 := declared "/home" "sda2"]> ∅);
     emitted := [] |}.

(** Two subvolumes of one volume: two leaves under one path, which the
    tree resolves to the first; no request is declared. *)
Definition subvolume (n : nat) : Device :=
  {| dev_id := n; path := "/dev/sda1"; protected := false; size := 1024;
     disks := ["sda"];
     format := {| type := Some "btrfs"; mountable := true; mountpoint := None |} |}.
Definition subvolumes_storage : Storage :=
  {| devicetree :=
       {| leaves := [subvolume 1; subvolume 2];
          resolve_device := fun spec =>
            if String.eqb spec "/dev/sda1" then Some (subvolume 1) else None |};
     ignored_disks := []; exclusive_disks := [];
     protected_devices := []; disk_images := [] |}.
Definition subvolumes : State :=
  {| _enabled := true; _requests := []; _selected_disks := [];
     _storage := Some subvolumes_storage; heap := ∅; emitted := [] |}.

(** A module as [__init__] leaves it, and kickstart data with one mount. *)
Definition initial : State :=
  {| _enabled := false; _requests := []; _selected_disks := [];
     _storage := None; heap := ∅; emitted := [] |}.
Definition one_mount : KickstartData :=
  {| mount := {| seen := true;
                 mount_points :=
                   [ {| md_mount_point := "/"; md_device := "sda1";
                        md_reformat := true; md_format := "xfs";
                        md_mkfs_opts := ""; md_mount_opts := "" |} ] |} |}.

(** The enumeration stdpp gives is one possible order. *)
#[export] Instance elements_order : SetOrder :=
  {| set_iter := elements; set_iter_perm := fun X => reflexivity _ |}.

(** C1's last part, as the specification words it: [gather_requests] never
    returns two requests that resolve to the same device. *)
Definition never_two_requests_for_a_device (s : State) (st : Storage) : Prop :=
  forall s' refs,
    gather_requests s = (s', Ok refs) -> distinct_devices s' (devicetree st) refs.

End Manual.

(** ** storage.py: the storage module *)

Module StorageModule.
Import Blivet.

(** The partitioning methods of [create_partitioning]. *)
Inductive PartitioningMethod : Type :=
| AUTOMATIC | MANUAL | CUSTOM | INTERACTIVE | BLIVET.

(** The sub-modules whose [on_storage_reset] is connected to
    [storage_changed]. *)
Inductive Subscriber : Type :=
| device_tree_module
| disk_init_module
| disk_selection_module
| snapshot_module
| bootloader_module
| partitioning_module (method : PartitioningMethod).

(** [self._disk_selection_module], as far as [reset_with_task] reads it. *)
Record DiskSelection : Type := {
  ds_ignored_disks : list string;
  ds_exclusive_disks : list string;
  ds_protected_devices : list string;
  ds_disk_images : list (string * string)
}.

(** The module object and the store of storage models.  [_storage] is the
    reference to the canonical model ([None] until the first read).
    [storage_changed] lists the connected callbacks in connection order;
    [delivered] records every callback invocation with the model it received,
    oldest first.  A subscriber's state is the last model delivered to it. *)
Record State : Type := {
  _storage : option Ref;
  objects : gmap nat Storage;
  storage_changed : list Subscriber;
  delivered : list (Subscriber * Ref);
  _disk_selection_module : DiskSelection
}.

(** A storage model with nothing in it (the contents of no object the code
    holds; the total lookup answers it for an address never allocated). *)
Definition empty_storage : Storage :=
  {| devicetree := {| leaves := []; resolve_device := fun _ => None |};
     ignored_disks := []; exclusive_disks := [];
     protected_devices := []; disk_images := [] |}.

#[export] Instance Storage_inhabited : Inhabited Storage := populate empty_storage.

(** What the module calls outside this file: [create_storage()] (the contents
    of a new model), [StorageResetTask.run] (what it leaves in its model, and
    whether it succeeded) and the check of [StorageValidateTask.run]. *)
Class Collaborators : Type := {
  create_storage : Storage;
  StorageResetTask_run : Storage -> Storage * bool;
  StorageValidateTask_valid : Storage -> bool
}.

Definition with_storage (r : option Ref) (s : State) : State :=
  {| _storage := r; objects := objects s; storage_changed := storage_changed s;
     delivered := delivered s; _disk_selection_module := _disk_selection_module s |}.

Definition with_objects (o : gmap nat Storage) (s : State) : State :=
  {| _storage := _storage s; objects := o; storage_changed := storage_changed s;
     delivered := delivered s; _disk_selection_module := _disk_selection_module s |}.

(** Modelled from the spec: [Signal.emit] calls the connected callbacks
    synchronously, in connection order, before it returns. *)
Definition emit_storage_changed (r : Ref) (s : State) : State :=
  {| _storage := _storage s; objects := objects s;
     storage_changed := storage_changed s;
     delivered := delivered s ++ map (fun sub => (sub, r)) (storage_changed s);
     _disk_selection_module := _disk_selection_module s |}.

(** A new object of the store. *)
Definition alloc (v : Storage) : M State Ref :=
  fun s =>
    let r := fresh (dom (objects s)) in
    (with_objects (<[r := v]> (objects s)) s, Ok r).

(** [storage.copy()]: a new object with the same contents. *)
Definition copy (r : Ref) : M State Ref :=
  (v <- gets (fun s => objects s !!! r) ;;
   alloc v)%py.

(** [set_storage(storage)]. *)
Definition set_storage (storage : Ref) : M State unit :=
  (modify (with_storage (Some storage)) ;;;
   modify (emit_storage_changed storage))%py.

(** The [storage] property: create the model on the first read, then return
    [self._storage]. *)
Definition storage `{Collaborators} : M State (option Ref) :=
  (current <- gets _storage ;;
   match current with
   | None => (created <- alloc create_storage ;; set_storage created)
   | Some _ => ret tt
   end ;;;
   gets _storage)%py.

(** A method call on what a property returned: [None] has no attributes. *)
Definition attribute_of {A : Type} (o : option A) : M State A :=
  match o with
  | Some a => ret a
  | None => raise AttributeError
  end.

(** A callback connected to a task's [succeeded_signal]:
    [lambda: self.set_storage(storage)]. *)
Inductive Callback : Type :=
| call_set_storage (storage : Ref).

(** A [StorageResetTask]: the model it works on and the callbacks connected
    to its [succeeded_signal]. *)
Record Task : Type := {
  task_storage : Ref;
  succeeded_signal : list Callback
}.

(** The four assignments of [reset_with_task] on the copy. *)
Definition set_up (ds : DiskSelection) (v : Storage) : Storage :=
  {| devicetree := devicetree v;
     ignored_disks := ds_ignored_disks ds;
     exclusive_disks := ds_exclusive_disks ds;
     protected_devices := ds_protected_devices ds;
     disk_images := ds_disk_images ds |}.

(** [reset_with_task()]. *)
Definition reset_with_task `{Collaborators} : M State Task :=
  (current <- storage ;;
   canonical <- attribute_of current ;;
   storage <- copy canonical ;;
   ds <- gets _disk_selection_module ;;
   modify (fun s => with_objects (<[storage := set_up ds (objects s !!! storage)]> (objects s)) s) ;;;
   ret {| task_storage := storage;
          succeeded_signal := [call_set_storage storage] |})%py.

Definition invoke (c : Callback) : M State unit :=
  match c with
  | call_set_storage storage => set_storage storage
  end.

Fixpoint invoke_all (l : list Callback) : M State unit :=
  match l with
  | [] => ret tt
  | c :: rest => (invoke c ;;; invoke_all rest)%py
  end.

(** Modelled from the spec: the life of a task (class [Task], not in this
    file): [run()] works on the task's model; [succeeded_signal] is emitted
    only when it succeeded; a failure is raised to the caller.  The model of
    a failed run is left as the run left it. *)
Definition run_task `{Collaborators} (task : Task) : M State unit :=
  (before <- gets (fun s => objects s !!! task_storage task) ;;
   let (after, succeeded) := StorageResetTask_run before in
   modify (fun s => with_objects (<[task_storage task := after]> (objects s)) s) ;;;
   if succeeded then invoke_all (succeeded_signal task)
   else raise TaskFailure)%py.

(** A partitioning module, as [apply_partitioning] sees it: its scratch
    model. *)
Record Partitioning : Type := {
  scratch : option Ref
}.

(** Modelled from the spec: the [storage] property of a partitioning module
    is a read accessor that raises the unavailable-resource error when the
    module has no model. *)
Definition module_storage (module : Partitioning) : M State Ref :=
  match scratch module with
  | Some r => ret r
  | None => raise UnavailableStorageError
  end.

(** [StorageValidateTask(storage).run()]: raises [InvalidStorageError] when
    the partitioning is not valid. *)
Definition StorageValidateTask_run `{Collaborators} (storage : Ref) : M State unit :=
  (v <- gets (fun s => objects s !!! storage) ;;
   if StorageValidateTask_valid v then ret tt else raise InvalidStorageError)%py.

(** [apply_partitioning(module)]. *)
Definition apply_partitioning `{Collaborators} (module : Partitioning) : M State unit :=
  (storage <- module_storage module ;;
   StorageValidateTask_run storage ;;;
   copied <- copy storage ;;
   set_storage copied)%py.

(** *** Vocabulary of the statements *)

(** The callbacks as [__init__] connects them: the partitioning modules
    first (inside [create_partitioning]), then the five sub-modules. *)
Definition connected : list Subscriber :=
  [ partitioning_module AUTOMATIC; partitioning_module MANUAL;
    partitioning_module CUSTOM; partitioning_module INTERACTIVE;
    partitioning_module BLIVET;
    device_tree_module; disk_init_module; disk_selection_module;
    snapshot_module; bootloader_module ].

(** The module as [__init__] leaves it. *)
Definition initial (ds : DiskSelection) : State :=
  {| _storage := None; objects := ∅; storage_changed := connected;
     delivered := []; _disk_selection_module := ds |}.

(** One emission of [storage_changed] with the model [r]. *)
Definition emission (s : State) (r : Ref) : list (Subscriber * Ref) :=
  map (fun sub => (sub, r)) (storage_changed s).

(** Reset, as the specification words it: [reset_with_task] leaves the
    canonical model and the subscribers alone, and so does a run of the task
    that fails. *)
Definition reset_is_atomic `{Collaborators} (s : State) : Prop :=
  forall s1 task,
    reset_with_task s = (s1, Ok task) ->
    (_storage s1 = _storage s /\ delivered s1 = delivered s) /\
    (forall s2 e, run_task task s1 = (s2, Raise e) ->
       _storage s2 = _storage s /\ delivered s2 = delivered s).

(** Collaborators whose reset always fails, and whose check accepts any
    model. *)
Definition failing_reset : Collaborators :=
  {| create_storage := empty_storage;
     StorageResetTask_run := fun v => (v, false);
     StorageValidateTask_valid := fun _ => true |}.

(** Collaborators whose reset finds one disk, and whose check accepts the
    models with an exclusive disk. *)
Definition working : Collaborators :=
  {| create_storage := empty_storage;
     StorageResetTask_run :=
       fun v => ({| devicetree := devicetree v; ignored_disks := ignored_disks v;
                    exclusive_disks := "sda" :: exclusive_disks v;
                    protected_devices := protected_devices v;
                    disk_images := disk_images v |}, true);
     StorageValidateTask_valid := fun v => nonnil (exclusive_disks v) |}.

Definition no_selection : DiskSelection :=
  {| ds_ignored_disks := []; ds_exclusive_disks := [];
     ds_protected_devices := []; ds_disk_images := [] |}.

(** A module that holds a canonical model at address 0. *)
Definition running : State :=
  {| _storage := Some 0; objects := {[ 0 := empty_storage ]};
     storage_changed := connected; delivered := [];
     _disk_selection_module :=
       {| ds_ignored_disks := ["sdb"]; ds_exclusive_disks := [];
          ds_protected_devices := ["sdc1"]; ds_disk_images := [] |} |}.

(** A module with a valid scratch model at address 1 (for [working]). *)
Definition partitioned : State :=
  {| _storage := Some 0;
     objects := <[1 := set_up {| ds_ignored_disks := []; ds_exclusive_disks := ["sda"];
                                 ds_protected_devices := []; ds_disk_images := [] |}
                         empty_storage]> {[ 0 := empty_storage ]};
     storage_changed := connected; delivered := [];
     _disk_selection_module := no_selection |}.

End StorageModule.

(** ** storage.py: what the subscribers of [storage_changed] hold *)

Module StorageViews.
Import Blivet StorageModule.

#[export] Instance PartitioningMethod_eq_dec : EqDecision PartitioningMethod.
Proof. solve_decision. Defined.

#[export] Instance Subscriber_eq_dec : EqDecision Subscriber.
Proof. solve_decision. Defined.

(** The model a connected callback received last ([None]: it never
    received one). *)
Definition view (s : State) (sub : Subscriber) : option Ref :=
  last (omap (fun d : Subscriber * Ref => if decide (d.1 = sub) then Some d.2 else None)
             (delivered s)).

(** Every connected callback received the canonical model last; none
    received any while there is no canonical model. *)
Definition in_sync (s : State) : Prop :=
  forall sub, sub ∈ storage_changed s -> view s sub = _storage s.

End StorageViews.

(** ** initialization.py: the network initialization tasks *)

Module Network.

(** *** NetworkManager objects, as the tasks read them *)

(** A connection: the identity of the object, its uuid, the [id] and
    [interface-name] of its connection setting, the [master] of that setting,
    and its wired setting if it has one (holding the [mac-address]
    property). *)
Record Connection : Type := {
  con_oid : nat;
  get_uuid : string;
  connection_id : string;
  get_interface_name : option string;
  get_master : option string;
  get_setting_wired : option (option string)
}.

Record ActiveConnection : Type := {
  get_connection : Connection
}.

(** A device: the identity of the object, its interface name and its type
    (a value of [NM.DeviceType]). *)
Record Device : Type := {
  dev_oid : nat;
  get_iface : string;
  get_device_type : nat
}.

(** An ifcfg file: the uuid it holds (a string) and whether kickstart
    created it. *)
Record IfcfgFile : Type := {
  uuid : string;
  is_from_kickstart : bool
}.

(** A [network] directive of the kickstart data, as far as the tasks read
    it (the helpers receive the whole record). *)
Record NetworkData : Type := {
  device : string;
  essid : string;
  activate : bool;
  onboot : bool;
  vlanid : string;
  bondslaves : string;
  teamslaves : list (string * string);
  bridgeslaves : string
}.

(** *** Calls into the backend *)

(** The calls a task makes outside its own code, with the type of what
    each returns: methods of the NetworkManager client and of its objects
    that query or change the system, and the helpers of
    [pyanaconda.modules.network.nm_client] and [.ifcfg].  The client itself is
    not an argument: a call exists only where the task holds one. *)
Inductive Call : Type -> Type :=
| get_devices : Call (list Device)
| get_device_by_iface (iface : option string) : Call (option Device)
| get_connection_by_uuid (uuid : string) : Call (option Connection)
| activate_connection_async (connection : option Connection)
    (device : option Device) : Call unit
| get_available_connections (device : Device) : Call (list Connection)
| get_active_connection (device : Device) : Call (option ActiveConnection)
| commit_changes (connection : Connection) : Call unit
| get_device_name_from_network_data (network_data : NetworkData)
    (supported_devices : list string) (bootif : option string)
    : Call (option string)
| ensure_active_connection_for_device (uuid : string) (device_name : string)
    (only_replace : bool) : Call bool
| update_connection_from_ksdata (connection : option Connection)
    (network_data : NetworkData) (device_name : string) : Call unit
| add_connection_from_ksdata (network_data : NetworkData) (device_name : string)
    (activate : bool) (ifname_option_values : list string) : Call unit
| update_iface_setting_values (iface : option string)
    (autoconnect : bool) : Call Z
| bound_hwaddr_of_device (iface : string)
    (ifname_option_values : list string) : Call (option string)
| get_ifcfg_file_of_device (iface : string) : Call (option IfcfgFile)
| find_ifcfg_uuid_of_device (iface : option string) : Call (option string)
| update_onboot_value (uuid : string) (onboot : bool) : Call bool
| update_slaves_onboot_value (master : option string) (onboot : bool)
    (uuid : option string) : Call (list (option string)).

(** A run of task code: it returns, raises, or makes a call and goes on
    with the answer. *)
Inductive Prog (R : Type) : Type :=
| Return (r : R)
| Throw (e : Exc)
| Do {X : Type} (c : Call X) (k : X -> Prog R).
Arguments Return {R} r.
Arguments Throw {R} e.
Arguments Do {R X} c k.

Fixpoint then_ {A B : Type} (p : Prog A) (f : A -> Prog B) : Prog B :=
  match p with
  | Return a => f a
  | Throw e => Throw e
  | Do c k => Do c (fun x => then_ (k x) f)
  end.

Definition call {X : Type} (c : Call X) : Prog X := Do c Return.

Declare Scope prog_scope.
Delimit Scope prog_scope with prog.
Notation "x <- m ;; k" := (then_ m (fun x => k))
  (at level 100, m at next level, right associativity) : prog_scope.
Notation "m ;;; k" := (then_ m (fun _ => k))
  (at level 100, right associativity) : prog_scope.

(** A [for] loop over a list that carries the list being built; a body that
    returns its argument is a [continue]. *)
Fixpoint for_each {A S : Type} (l : list A) (body : A -> S -> Prog S) (acc : S)
  : Prog S :=
  match l with
  | [] => Return acc
  | x :: rest => (acc' <- body x acc ;; for_each rest body acc')%prog
  end.

(** A backend answers every call and moves to a new state of the world. *)
Definition Backend (W : Type) : Type := forall X : Type, Call X -> W -> W * X.

(** A call that was made, with its answer. *)
Record Entry : Type := entry {
  entry_type : Type;
  entry_call : Call entry_type;
  entry_answer : entry_type
}.
Arguments entry {entry_type} entry_call entry_answer.

(** Running a program against a backend: the final world, the calls made
    in order, and the outcome. *)
Fixpoint exec {W R : Type} (h : Backend W) (p : Prog R) (w : W)
  : W * list Entry * result R :=
  match p with
  | Return r => (w, [], Ok r)
  | Throw e => (w, [], Raise e)
  | Do c k =>
      let (w1, x) := h _ c w in
      let '(w2, t, r) := exec h (k x) w1 in
      (w2, entry c x :: t, r)
  end.

(** *** The configuration and the decorator *)

(** [conf.system]. *)
Record Conf : Type := {
  can_configure_network : bool
}.

(** The handle of a NetworkManager client. *)
Inductive NMClient : Type := NM_Client.

(** [guard_by_system_configuration(return_value)(function)].  In Python
    [return_value] is one list object per decorated method, handed out by
    every guarded call; nothing in this file writes to it, so it is the value
    it was created with. *)
Definition guard_by_system_configuration {R : Type} (conf : Conf) (return_value : R)
  (function : Prog R) : Prog R :=
  if negb (can_configure_network conf) then Return return_value
  else function.

(** *** ApplyKickstartTask *)

Record ApplyKickstartTask : Type := {
  ak_nm_client : option NMClient;
  ak_network_data : list NetworkData;
  ak_supported_devices : list string;
  ak_bootif : option string;
  ak_ifname_option_values : list string
}.

(** The body of the loop of [ApplyKickstartTask.run]. *)
Definition apply_kickstart_to (task : ApplyKickstartTask) (network_data : NetworkData)
  (applied_devices : list string) : Prog (list string) :=
  if nonempty (essid network_data) then Return applied_devices
  else
    (found <- call (get_device_name_from_network_data network_data
                      (ak_supported_devices task) (ak_bootif task)) ;;
     if negb (truthy found) then Return applied_devices
     else
       let device_name := default "" found in
       ifcfg_file <- call (get_ifcfg_file_of_device device_name) ;;
       match ifcfg_file with
       | Some file =>
           if is_from_kickstart file then
             if activate network_data then
               active <- call (ensure_active_connection_for_device
                                 (uuid file) device_name false) ;;
               if active then Return (applied_devices ++ [device_name])
               else Return applied_devices
             else Return applied_devices
           else
             let applied_devices := applied_devices ++ [device_name] in
             let con_uuid := uuid file in
             connection <- call (get_connection_by_uuid con_uuid) ;;
             call (update_connection_from_ksdata connection network_data device_name) ;;;
             if activate network_data then
               device <- call (get_device_by_iface (Some device_name)) ;;
               call (activate_connection_async connection device) ;;;
               Return applied_devices
             else Return applied_devices
       | None =>
           let applied_devices := applied_devices ++ [device_name] in
           call (add_connection_from_ksdata network_data device_name
                   (activate network_data) (ak_ifname_option_values task)) ;;;
           Return applied_devices
       end)%prog.

(** [ApplyKickstartTask.run]. *)
Definition ApplyKickstartTask_run (conf : Conf) (task : ApplyKickstartTask)
  : Prog (list string) :=
  guard_by_system_configuration conf []
    (let applied_devices := [] in
     if negb (nonnil (ak_network_data task)) then Return applied_devices
     else if negb (is_Some_bool (ak_nm_client task)) then Return applied_devices
     else for_each (ak_network_data task) (apply_kickstart_to task) applied_devices).

(** *** ConsolidateInitramfsConnectionsTask *)

Record ConsolidateInitramfsConnectionsTask : Type := {
  ci_nm_client : option NMClient
}.

(** What [con_for_iface] holds: a connection object, or the [str] taken
    from an ifcfg file. *)
Inductive ConOrStr : Type :=
| a_connection (con : Connection)
| a_str (s : string).

(** [con_for_iface.get_uuid()]: a [str] has no such method. *)
Definition call_get_uuid (con_for_iface : ConOrStr) : Prog string :=
  match con_for_iface with
  | a_connection con => Return (get_uuid con)
  | a_str _ => Throw AttributeError
  end.

(** [con.get_interface_name() == iface]. *)
Definition bound_to (iface : string) (con : Connection) : bool :=
  match get_interface_name con with
  | Some name => String.eqb name iface
  | None => false
  end.

(** [_select_persistent_connection_for_iface(iface, cons)]. *)
Definition _select_persistent_connection_for_iface (iface : string)
  (cons : list Connection) : option Connection :=
  List.find (bound_to iface) cons.

(** [any(con.get_setting_connection().get_master() for con in cons)]. *)
Definition any_master (cons : list Connection) : bool :=
  existsb (fun con => truthy (get_master con)) cons.

(** The end of the loop body: ensure the connection, record the device. *)
Definition ensure_and_record (con_for_iface : ConOrStr) (iface : string)
  (consolidated_devices : list string) : Prog (list string) :=
  (con_uuid <- call_get_uuid con_for_iface ;;
   call (ensure_active_connection_for_device con_uuid iface true) ;;;
   Return (consolidated_devices ++ [iface]))%prog.

(** The body of the loop of [ConsolidateInitramfsConnectionsTask.run]. *)
Definition consolidate (device : Device) (consolidated_devices : list string)
  : Prog (list string) :=
  (cons <- call (get_available_connections device) ;;
   let number_of_connections := length cons in
   let iface := get_iface device in
   if Nat.ltb number_of_connections 2 then Return consolidated_devices
   else if any_master cons then Return consolidated_devices
   else
     ifcfg_file <- call (get_ifcfg_file_of_device iface) ;;
     match ifcfg_file with
     | None =>
         match _select_persistent_connection_for_iface iface cons with
         | None => Return consolidated_devices
         | Some con => ensure_and_record (a_connection con) iface consolidated_devices
         end
     | Some file =>
         if is_from_kickstart file then Return consolidated_devices
         else ensure_and_record (a_str (uuid file)) iface consolidated_devices
     end)%prog.

(** [ConsolidateInitramfsConnectionsTask.run]. *)
Definition ConsolidateInitramfsConnectionsTask_run (conf : Conf)
  (task : ConsolidateInitramfsConnectionsTask) : Prog (list string) :=
  guard_by_system_configuration conf []
    (let consolidated_devices := [] in
     if negb (is_Some_bool (ci_nm_client task)) then Return consolidated_devices
     else
       (devices <- call get_devices ;;
        for_each devices consolidate consolidated_devices)%prog).

(** *** SetRealOnbootValuesFromKickstartTask *)

Record SetRealOnbootValuesFromKickstartTask : Type := {
  so_nm_client : option NMClient;
  so_network_data : list NetworkData;
  so_supported_devices : list string;
  so_bootif : option string;
  so_ifname_option_values : list string
}.

(** [network_data.vlanid and (network_data.bondslaves or
    network_data.teamslaves)]. *)
Definition vlan_over_bond_or_team (network_data : NetworkData) : bool :=
  nonempty (vlanid network_data)
  && (nonempty (bondslaves network_data) || nonnil (teamslaves network_data)).

(** [devices_to_update] and [master] of one directive, given the device name
    that was found for it ([None] when there is none: the code only logs a
    warning and goes on). *)
Definition devices_to_update (network_data : NetworkData) (device_name : option string)
  : list (option string) * option string :=
  let devices_to_update := [device_name] in
  let master := device_name in
  if vlan_over_bond_or_team network_data then
    let master := Some (device network_data) in
    (devices_to_update ++ [master], master)
  else (devices_to_update, master).

(** [find_ifcfg_uuid_of_device(...) or ""], then [update_onboot_value]. *)
Definition update_ifcfg_onboot (network_data : NetworkData) (devname : option string)
  : Prog bool :=
  (found <- call (find_ifcfg_uuid_of_device devname) ;;
   let uuid := str_or found "" in
   call (update_onboot_value uuid (onboot network_data)))%prog.

(** The body of the loop over [devices_to_update]. *)
Definition update_onboot (network_data : NetworkData) (devname : option string)
  (updated_devices : list (option string)) : Prog (list (option string)) :=
  if onboot network_data then
    (updated <- update_ifcfg_onboot network_data devname ;;
     if negb updated then Return updated_devices
     else Return (updated_devices ++ [devname]))%prog
  else
    (n_cons <- call (update_iface_setting_values devname (onboot network_data)) ;;
     if negb (Z.eqb n_cons 1) then
       if Z.ltb 1 n_cons then
         updated <- update_ifcfg_onboot network_data devname ;;
         if negb updated then Return updated_devices
         else Return (updated_devices ++ [devname])
       else Return (updated_devices ++ [devname])
     else Return (updated_devices ++ [devname]))%prog.

(** The part of the loop body that handles the slaves. *)
Definition update_slaves (network_data : NetworkData) (master : option string)
  (updated_devices : list (option string)) : Prog (list (option string)) :=
  if nonempty (bondslaves network_data) || nonnil (teamslaves network_data)
     || nonempty (bridgeslaves network_data)
  then
    (device <- call (get_device_by_iface master) ;;
     uuid <- match device with
             | Some device =>
                 cons <- call (get_available_connections device) ;;
                 let n_cons := length cons in
                 match cons with
                 | [con] => Return (Some (get_uuid con))
                 | _ => Return None
                 end
             | None => Return None
             end ;;
     updated_slaves <- call (update_slaves_onboot_value master (onboot network_data) uuid) ;;
     Return (updated_devices ++ updated_slaves))%prog
  else Return updated_devices.

(** The body of the loop of [SetRealOnbootValuesFromKickstartTask.run]. *)
Definition set_real_onboot (task : SetRealOnbootValuesFromKickstartTask)
  (network_data : NetworkData) (updated_devices : list (option string))
  : Prog (list (option string)) :=
  (device_name <- call (get_device_name_from_network_data network_data
                          (so_supported_devices task) (so_bootif task)) ;;
   let (devices, master) := devices_to_update network_data device_name in
   updated_devices <- for_each devices (update_onboot network_data) updated_devices ;;
   update_slaves network_data master updated_devices)%prog.

(** [SetRealOnbootValuesFromKickstartTask.run]. *)
Definition SetRealOnbootValuesFromKickstartTask_run (conf : Conf)
  (task : SetRealOnbootValuesFromKickstartTask) : Prog (list (option string)) :=
  guard_by_system_configuration conf []
    (let updated_devices := [] in
     if negb (is_Some_bool (so_nm_client task)) then Return updated_devices
     else if negb (nonnil (so_network_data task)) then Return updated_devices
     else for_each (so_network_data task) (set_real_onboot task) updated_devices).

(** *** DumpMissingIfcfgFilesTask *)

Record DumpMissingIfcfgFilesTask : Type := {
  dm_nm_client : option NMClient;
  dm_default_network_data : NetworkData;
  dm_ifname_option_values : list string
}.

(** [con in cons], on connection objects. *)
Definition con_in (con : Connection) (cons : list Connection) : bool :=
  existsb (fun c => Nat.eqb (con_oid c) (con_oid con)) cons.

(** [_select_persistent_connection_for_device(device, cons)]. *)
Definition _select_persistent_connection_for_device (device : Device)
  (cons : list Connection) : Prog (option Connection) :=
  let iface := get_iface device in
  (ac <- call (get_active_connection device) ;;
   match ac with
   | Some ac =>
       let con := get_connection ac in
       if bound_to iface con && con_in con cons then Return (Some con)
       else Return (List.find (bound_to iface) cons)
   | None => Return (List.find (bound_to iface) cons)
   end)%prog.

Definition set_connection_setting (iface : string) (con : Connection) : Connection :=
  {| con_oid := con_oid con; get_uuid := get_uuid con;
     connection_id := iface; get_interface_name := Some iface;
     get_master := get_master con; get_setting_wired := get_setting_wired con |}.

Definition set_mac_address (mac : option string) (con : Connection) : Connection :=
  {| con_oid := con_oid con; get_uuid := get_uuid con;
     connection_id := connection_id con; get_interface_name := get_interface_name con;
     get_master := get_master con; get_setting_wired := Some mac |}.

(** [_update_connection(con, iface)]: the connection object after the
    method.  A connection without a wired setting makes [s_wired] [None], and
    setting a property on it raises. *)
Definition _update_connection (task : DumpMissingIfcfgFilesTask) (con : Connection)
  (iface : string) : Prog Connection :=
  let con := set_connection_setting iface con in
  match get_setting_wired con with
  | None => Throw AttributeError
  | Some _ =>
      let con := set_mac_address None con in
      (bound_mac <- call (bound_hwaddr_of_device iface (dm_ifname_option_values task)) ;;
       if truthy bound_mac then Return (set_mac_address bound_mac con)
       else Return con)%prog
  end.

(** Update a connection, commit it, record the device. *)
Definition dump_connection (task : DumpMissingIfcfgFilesTask) (con : Connection)
  (iface : string) (new_ifcfgs : list string) : Prog (list string) :=
  (con <- _update_connection task con iface ;;
   call (commit_changes con) ;;;
   Return (new_ifcfgs ++ [iface]))%prog.

(** The body of the loop of [DumpMissingIfcfgFilesTask.run]. *)
Definition dump_missing (supported_wired_device_types : list nat)
  (task : DumpMissingIfcfgFilesTask) (device : Device) (new_ifcfgs : list string)
  : Prog (list string) :=
  if negb (existsb (Nat.eqb (get_device_type device)) supported_wired_device_types)
  then Return new_ifcfgs
  else
    let iface := get_iface device in
    (ifcfg_file <- call (get_ifcfg_file_of_device iface) ;;
     if is_Some_bool ifcfg_file then Return new_ifcfgs
     else
       cons <- call (get_available_connections device) ;;
       let n_cons := length cons in
       let device_is_slave := any_master cons in
       if Nat.eqb n_cons 0 then
         call (add_connection_from_ksdata (dm_default_network_data task) iface false
                 (dm_ifname_option_values task)) ;;;
         Return (new_ifcfgs ++ [iface])
       else if Nat.eqb n_cons 1 then
         if device_is_slave then Return new_ifcfgs
         else
           match cons with
           | con :: _ => dump_connection task con iface new_ifcfgs
           | [] => Throw IndexError
           end
       else if Nat.ltb 1 n_cons then
         if negb device_is_slave then
           selected <- _select_persistent_connection_for_device device cons ;;
           match selected with
           | None => Return new_ifcfgs
           | Some con => dump_connection task con iface new_ifcfgs
           end
         else Return (new_ifcfgs ++ [iface])
       else Return (new_ifcfgs ++ [iface]))%prog.

(** [DumpMissingIfcfgFilesTask.run].  [supported_wired_device_types] is a
    constant of [device_configuration]; it is an argument here. *)
Definition DumpMissingIfcfgFilesTask_run (conf : Conf)
  (supported_wired_device_types : list nat) (task : DumpMissingIfcfgFilesTask)
  : Prog (list string) :=
  guard_by_system_configuration conf []
    (let new_ifcfgs := [] in
     if negb (is_Some_bool (dm_nm_client task)) then Return new_ifcfgs
     else
       (devices <- call get_devices ;;
        for_each devices (dump_missing supported_wired_device_types task) new_ifcfgs)%prog).

(** *** Vocabulary of the statements *)

(** The guard of every task: network configuration is disabled, or the task
    holds no client. *)
Definition unavailable (conf : Conf) (nm_client : option NMClient) : Prop :=
  can_configure_network conf = false \/ nm_client = None.

(** The backend gives the same answer to a call in every state of the
    world. *)
Definition answers {W X : Type} (h : Backend W) (c : Call X) (x : X) : Prop :=
  forall w, snd (h X c w) = x.

(** The [ensure_active_connection_for_device] calls of a run. *)
Definition ensured (e : Entry) : option (string * string * bool) :=
  match entry_call e with
  | ensure_active_connection_for_device u i r => Some (u, i, r)
  | _ => None
  end.

(** The interface names for which a run wrote a persistent record: it
    added a connection from the default data, or committed a connection (the
    name is then the [interface-name] the connection was committed with). *)
Definition persisted (e : Entry) : option (option string) :=
  match entry_call e with
  | add_connection_from_ksdata _ i _ _ => Some (Some i)
  | commit_changes con => Some (get_interface_name con)
  | _ => None
  end.

(** The loop of the consolidation task takes up a device: it has two
    available connections or more and none has a master. *)
Definition eligible (cons : list Connection) : bool :=
  negb (Nat.ltb (length cons) 2) && negb (any_master cons).

(** The device is consolidated: it is eligible, has no ifcfg file, and one
    of its connections is bound to its interface name. *)
Definition consolidated (cons_of : Device -> list Connection)
  (ifcfg_of : string -> option IfcfgFile) (d : Device) : bool :=
  eligible (cons_of d)
  && negb (is_Some_bool (ifcfg_of (get_iface d)))
  && is_Some_bool (_select_persistent_connection_for_iface (get_iface d) (cons_of d)).

(** The call that consolidates a device: the first connection bound to its
    interface name, the interface name, [only_replace=True]. *)
Definition ensure_of (cons_of : Device -> list Connection) (d : Device)
  : string * string * bool :=
  (from_option get_uuid "" (_select_persistent_connection_for_iface (get_iface d) (cons_of d)),
   get_iface d, true).

(** A subordinate connection: it names a master. *)
Definition subordinate (con : Connection) : bool :=
  match get_master con with
  | Some master => negb (String.eqb master "")
  | None => false
  end.

(** The connection is bound to the interface name. *)
Definition bound (iface : string) (con : Connection) : Prop :=
  get_interface_name con = Some iface.

#[export] Instance bound_dec (iface : string) (con : Connection)
  : Decision (bound iface con) :=
  decide (get_interface_name con = Some iface).

(** [con] is the first connection of [cons] that is bound to [iface]. *)
Definition first_bound (iface : string) (cons : list Connection) (con : Connection)
  : Prop :=
  exists before after,
    cons = before ++ con :: after /\ bound iface con /\
    Forall (fun c => ~ bound iface c) before.

(** The devices that are consolidated, in the words of the claim: two
    available connections or more, none of them subordinate, no ifcfg file,
    and a connection bound to the name of the device. *)
Definition spec_consolidated (cons_of : Device -> list Connection)
  (ifcfg_of : string -> option IfcfgFile) (d : Device) : bool :=
  Nat.leb 2 (length (cons_of d))
  && forallb (fun con => negb (subordinate con)) (cons_of d)
  && match ifcfg_of (get_iface d) with None => true | Some _ => false end
  && existsb (fun con => bool_decide (bound (get_iface d) con)) (cons_of d).

(** The consolidation, as the specification words it: every device with
    two or more available connections, none of them subordinate, is in the
    returned list. *)
Definition consolidates_every_eligible_device {W : Type} (h : Backend W) (w : W)
  (conf : Conf) (task : ConsolidateInitramfsConnectionsTask) : Prop :=
  let '(_, t, r) := exec h (ConsolidateInitramfsConnectionsTask_run conf task) w in
  forall device cons,
    In (entry (get_available_connections device) cons) t ->
    2 <= length cons -> any_master cons = false ->
    exists l, r = Ok l /\ In (get_iface device) l.

(** The update of a device was attempted for a directive: through the
    ifcfg file when the directive enables onboot, through the connection
    settings otherwise. *)
Definition attempted (network_data : NetworkData) (devname : option string)
  (t : list Entry) : Prop :=
  if onboot network_data then
    exists found, In (entry (find_ifcfg_uuid_of_device devname) found) t
  else
    exists n, In (entry (update_iface_setting_values devname false) n) t.

(** The calls that update the onboot value of one device for a directive,
    and whether the device counts as updated.  With [onboot=yes] the uuid of
    the ifcfg file of the device is looked up and the ONBOOT value of that
    file is written ([""] stands for a uuid that was not found); the device is
    updated when the write says so.  With [onboot=no] the autoconnect setting
    of the connections of the device is written; when that reached more than
    one connection the ifcfg file is written as above, otherwise the device is
    updated. *)
Definition onboot_update (network_data : NetworkData) (devname : option string)
  (calls : list Entry) (updated : bool) : Prop :=
  if onboot network_data then
    exists found,
      calls = [entry (find_ifcfg_uuid_of_device devname) found;
               entry (update_onboot_value (default "" found) true) updated]
  else
    exists n_cons,
      if (1 <? n_cons)%Z then
        exists found,
          calls = [entry (update_iface_setting_values devname false) n_cons;
                   entry (find_ifcfg_uuid_of_device devname) found;
                   entry (update_onboot_value (default "" found) false) updated]
      else
        calls = [entry (update_iface_setting_values devname false) n_cons] /\
        updated = true.

(** Every [update_onboot_value] of the backend reports success. *)
Definition updates_succeed {W : Type} (h : Backend W) : Prop :=
  forall w u b, snd (h _ (update_onboot_value u b) w) = true.

(** *** Backends and tasks of the examples *)

Definition enabled : Conf := {| can_configure_network := true |}.
Definition disabled : Conf := {| can_configure_network := false |}.

Definition ethernet : nat := 1.

Definition eth0 : Device := {| dev_oid := 1; get_iface := "eth0"; get_device_type := ethernet |}.

Definition unbound (n : nat) (u : string) (master : option string) : Connection :=
  {| con_oid := n; get_uuid := u; connection_id := "Wired connection";
     get_interface_name := None; get_master := master;
     get_setting_wired := Some None |}.

(** A backend without state: [eth0] is the only device, it has no ifcfg
    file and the connections [cons]; nothing else is found, and every update
    succeeds. *)
Definition one_device (cons : list Connection) : Backend unit :=
  fun X c w =>
    match c in Call X return unit * X with
    | get_devices => (w, [eth0])
    | get_device_by_iface _ => (w, None)
    | get_connection_by_uuid _ => (w, None)
    | activate_connection_async _ _ => (w, tt)
    | get_available_connections _ => (w, cons)
    | get_active_connection _ => (w, None)
    | commit_changes _ => (w, tt)
    | get_device_name_from_network_data nd _ _ => (w, Some (device nd ++ ".222")%string)
    | ensure_active_connection_for_device _ _ _ => (w, true)
    | update_connection_from_ksdata _ _ _ => (w, tt)
    | add_connection_from_ksdata _ _ _ _ => (w, tt)
    | update_iface_setting_values _ _ => (w, 1%Z)
    | bound_hwaddr_of_device _ _ => (w, None)
    | get_ifcfg_file_of_device _ => (w, None)
    | find_ifcfg_uuid_of_device _ => (w, None)
    | update_onboot_value _ _ => (w, true)
    | update_slaves_onboot_value _ _ _ => (w, [])
    end.

(** A backend with three devices: [eth0] has two connections of its own,
    the second bound to it; [eth1] has two unbound ones; [eth2] has one. *)
Definition three_devices : Backend unit :=
  fun X c w =>
    match c in Call X return unit * X with
    | get_devices =>
        (w, [eth0; {| dev_oid := 2; get_iface := "eth1"; get_device_type := ethernet |};
                   {| dev_oid := 3; get_iface := "eth2"; get_device_type := ethernet |}])
    | get_available_connections d =>
        (w, if String.eqb (get_iface d) "eth0" then
              [unbound 1 "uuid-1" None;
               {| con_oid := 2; get_uuid := "uuid-2"; connection_id := "eth0";
                  get_interface_name := Some "eth0"; get_master := None;
                  get_setting_wired := Some None |}]
            else if String.eqb (get_iface d) "eth1" then
              [unbound 3 "uuid-3" None; unbound 4 "uuid-4" None]
            else [unbound 5 "uuid-5" None])
    | c => one_device [] _ c w
    end.

(** A backend like [one_device], where [eth0] has an ifcfg file that was
    not made by kickstart. *)
Definition with_initramfs_ifcfg (cons : list Connection) : Backend unit :=
  fun X c w =>
    match c in Call X return unit * X with
    | get_ifcfg_file_of_device _ =>
        (w, Some {| uuid := "uuid-0"; is_from_kickstart := false |})
    | c => one_device cons _ c w
    end.

(** The directive of the specification's scenario:
    [network --onboot yes --device bond0 --bondslaves ens9,ens10 --vlanid 222]. *)
Definition bond0_vlan222 : NetworkData :=
  {| device := "bond0"; essid := ""; activate := false; onboot := true;
     vlanid := "222"; bondslaves := "ens9,ens10"; teamslaves := [];
     bridgeslaves := "" |}.

Definition default_network_data : NetworkData :=
  {| device := ""; essid := ""; activate := false; onboot := false;
     vlanid := ""; bondslaves := ""; teamslaves := []; bridgeslaves := "" |}.

End Network.

(** ** initialization.py: what a run did, read off its calls *)

Module NetworkTraces.
Import Network.

(** The call activates a connection: it ensures or activates one, or adds
    one with [activate=True]. *)
Definition activates (e : Entry) : bool :=
  match entry_call e with
  | ensure_active_connection_for_device _ _ _ => true
  | activate_connection_async _ _ => true
  | add_connection_from_ksdata _ _ activate _ => activate
  | _ => false
  end.

(** The call writes the [autoconnect] setting of connections. *)
Definition sets_autoconnect (e : Entry) : bool :=
  match entry_call e with
  | update_iface_setting_values _ _ => true
  | _ => false
  end.

(** The interface and the [only_replace] flag of an ensure call. *)
Definition ensured_iface (e : Entry) : option (string * bool) :=
  match entry_call e with
  | ensure_active_connection_for_device _ i r => Some (i, r)
  | _ => None
  end.

(** What a call that writes a persistent record wrote, judged against the
    returned list [l]: an added connection is the default one, not activated,
    for a returned device; a committed connection has its [id] and its
    [interface-name] set to the name of a returned device. *)
Definition recorded_in (task : DumpMissingIfcfgFilesTask) (l : list string) (e : Entry)
  : Prop :=
  match entry_call e with
  | add_connection_from_ksdata nd i activate values =>
      nd = dm_default_network_data task /\ activate = false /\
      values = dm_ifname_option_values task /\ In i l
  | commit_changes con =>
      get_interface_name con = Some (connection_id con) /\ In (connection_id con) l
  | _ => True
  end.

(** The slaves a call reported, if the call is [update_slaves_onboot_value]. *)
Definition reported_slaves (e : Entry) : list (option string) :=
  match e with
  | entry (update_slaves_onboot_value _ _ _) slaves => slaves
  | entry _ _ => []
  end.

(** The directive is for a wireless device. *)
Definition wireless (nd : NetworkData) : bool := nonempty (essid nd).

End NetworkTraces.

(** ** addons.py: addon data, the registry and the kickstart section *)

Module Addons.

Definition PLACEHOLDER_NAME : string := "ADDON_placeholder".

(** The line feed of the format strings. *)
Definition nl : string := String (Ascii.ascii_of_nat 10) EmptyString.

(** *** AddonData *)

(** An object of the class [AddonData] itself: its attributes. *)
Record AddonData : Type := {
  name : string;
  content : string;
  header_args : string
}.

(** [AddonData.__init__(name)]. *)
Definition AddonData_init (name : string) : AddonData :=
  {| name := name; content := ""; header_args := "" |}.

(** [AddonData.__str__]. *)
Definition AddonData_str (a : AddonData) : string :=
  ("%addon " ++ name a ++ " " ++ header_args a ++ nl ++ content a ++ "%end" ++ nl)%string.

(** [AddonData.handle_header(lineno, args)]. *)
Definition AddonData_handle_header (lineno : nat) (args : list string) (a : AddonData)
  : AddonData :=
  if nonnil args then
    {| name := name a; content := content a;
       header_args := (header_args a ++ String.concat " " args)%string |}
  else a.

(** [AddonData.handle_line(line)]. *)
Definition AddonData_handle_line (line : string) (a : AddonData) : AddonData :=
  {| name := name a; content := (content a ++ line)%string;
     header_args := header_args a |}.

(** [AddonData.finalize()]: [pass]. *)
Definition AddonData_finalize (a : AddonData) : AddonData := a.

(** The other classes of the objects of a registry: the subclasses of
    [AddonData] that the addons define, which override its methods.  A method
    is the one of the object's class; it can change the object and it can
    raise.  Every object has a [name] (the registry reads it without a
    test). *)
Class AddonClasses : Type := {
  Custom : Type;
  custom_name : Custom -> string;
  custom_str : Custom -> string;
  custom_handle_header : nat -> list string -> M Custom unit;
  custom_handle_line : string -> M Custom unit;
  custom_finalize : M Custom unit;
  custom_has_setup : Custom -> bool;
  custom_has_execute : Custom -> bool
}.

Section Objects.
Context `{AddonClasses}.

(** An addon object: an [AddonData], or an object of another class. *)
Inductive Addon : Type :=
| plain (a : AddonData)
| custom (c : Custom).

(** [addon.name]. *)
Definition addon_name (addon : Addon) : string :=
  match addon with
  | plain a => name a
  | custom c => custom_name c
  end.

(** [str(addon)]. *)
Definition addon_str (addon : Addon) : string :=
  match addon with
  | plain a => AddonData_str a
  | custom c => custom_str c
  end.

(** [addon.handle_header(lineno, args)]: the method of the object's class. *)
Definition handle_header (lineno : nat) (args : list string) : M Addon unit :=
  fun addon =>
    match addon with
    | plain a => (plain (AddonData_handle_header lineno args a), Ok tt)
    | custom c =>
        let (c', r) := custom_handle_header lineno args c in (custom c', r)
    end.

(** [addon.handle_line(line)]. *)
Definition handle_line (line : string) : M Addon unit :=
  fun addon =>
    match addon with
    | plain a => (plain (AddonData_handle_line line a), Ok tt)
    | custom c => let (c', r) := custom_handle_line line c in (custom c', r)
    end.

(** [addon.finalize()]. *)
Definition addon_finalize : M Addon unit :=
  fun addon =>
    match addon with
    | plain a => (plain (AddonData_finalize a), Ok tt)
    | custom c => let (c', r) := custom_finalize c in (custom c', r)
    end.

(** [hasattr(v, "setup")] and [hasattr(v, "execute")]: [AddonData] defines
    both methods. *)
Definition has_setup (addon : Addon) : bool :=
  match addon with
  | plain _ => true
  | custom c => custom_has_setup c
  end.

Definition has_execute (addon : Addon) : bool :=
  match addon with
  | plain _ => true
  | custom c => custom_has_execute c
  end.

(** *** The registry and the section *)

(** The [__dict__] of the registry: a Python dict, in insertion order.
    Every key holds an object of its own. *)
Abbreviation dict := (list (string * Addon)) (only parsing).

(** [key in d] and [d[key]]. *)
Definition lookup_key (key : string) (d : dict) : option Addon :=
  snd <$> List.find (fun kv => String.eqb (fst kv) key) d.

(** [d[key] = value]: in place for a key of the dict, at the end for a new
    one. *)
Fixpoint store_key (key : string) (value : Addon) (d : dict) : dict :=
  match d with
  | [] => [(key, value)]
  | (k, v) :: rest =>
      if String.eqb k key then (k, value) :: rest
      else (k, v) :: store_key key value rest
  end.

(** What the class of the registry (and [object]) makes of an attribute
    name: nothing, a method or another plain class attribute, or a data
    descriptor such as [__dict__] and [__class__]. *)
Inductive AttrKind : Type :=
| no_class_attribute
| class_attribute
| data_descriptor.

(** What [getattr] can return: an addon of the dict, or an object of the
    class that is no addon. *)
Inductive Attr : Type :=
| an_addon (a : Addon)
| not_an_addon.

Section Registry.
Variable kind_of : string -> AttrKind.

(** [getattr(registry, name)]: data descriptors of the class first, then the
    instance dict, then the other class attributes. *)
Definition getattr (d : dict) (key : string) : result Attr :=
  match kind_of key with
  | data_descriptor => Ok not_an_addon
  | kind =>
      match lookup_key key d with
      | Some a => Ok (an_addon a)
      | None =>
          match kind with
          | class_attribute => Ok not_an_addon
          | _ => Raise AttributeError
          end
      end
  end.

(** [hasattr(registry, name)]. *)
Definition hasattr (d : dict) (key : string) : bool :=
  match getattr d key with
  | Ok _ => true
  | Raise _ => false
  end.

(** The kickstart section: its handler ([None] when there is none; of the
    handler only [handler.addons], the registry, is used) and the id of the
    addon it is in. *)
Record AddonSection : Type := {
  handler : option dict;
  addon_id : option string
}.

(** [self.handler.addons]: no handler, no attribute. *)
Definition handler_addons : M AddonSection dict :=
  fun s =>
    match handler s with
    | Some d => (s, Ok d)
    | None => (s, Raise AttributeError)
    end.

Definition set_addons (d : dict) (s : AddonSection) : AddonSection :=
  {| handler := Some d; addon_id := addon_id s |}.

Definition set_addon_id (id : string) (s : AddonSection) : AddonSection :=
  {| handler := handler s; addon_id := Some id |}.

(** [addon = getattr(self.handler.addons, key)] and a call of a method on
    [addon].  The method works on the object the registry holds: what it
    did to the object stays, also when it raises.  An object of the class of
    the registry has none of the methods of an addon. *)
Definition on_addon (key : string) (method : M Addon unit) : M AddonSection unit :=
  (d <- handler_addons ;;
   match getattr d key with
   | Ok (an_addon a) =>
       let (a', r) := method a in
       fun s => (set_addons (store_key key a' d) s, r)
   | Ok not_an_addon => raise AttributeError
   | Raise e => raise e
   end)%py.

(** [AddonSection.handleLine(line)]. *)
Definition handleLine (line : string) : M AddonSection unit :=
  (h <- gets handler ;;
   if negb (is_Some_bool h) then ret tt
   else
     id <- gets addon_id ;;
     if negb (truthy id) then ret tt
     else on_addon (default "" id) (handle_line line))%py.

(** [AddonSection.handleHeader(lineno, args)]. *)
Definition handleHeader (lineno : nat) (args : list string) : M AddonSection unit :=
  match nth_error args 1 with
  | None => raise IndexError
  | Some id =>
      (modify (set_addon_id id) ;;;
       (if nonempty id then
          d <- handler_addons ;;
          if negb (hasattr d id) then
            modify (set_addons (store_key id (plain (AddonData_init PLACEHOLDER_NAME)) d))
          else ret tt
        else ret tt) ;;;
       on_addon id (handle_header lineno (skipn 2 args)))%py
  end.

(** [AddonSection.finalize()]; [getattr] with [None] for a name is a
    [TypeError]. *)
Definition finalize : M AddonSection unit :=
  (d <- handler_addons ;;
   id <- gets addon_id ;;
   match id with
   | None => raise TypeError
   | Some id => on_addon id addon_finalize
   end)%py.

(** [handleLine] for the lines of the body of a section, in order; the
    first line that raises ends the section. *)
Fixpoint handleLines (lines : list string) : M AddonSection unit :=
  match lines with
  | [] => ret tt
  | line :: rest => (handleLine line ;;; handleLines rest)%py
  end.

(** The calls the kickstart parser makes for one [%addon] section: the
    header, the lines of the body, the end of the section. *)
Definition handle_section (lineno : nat) (args : list string) (lines : list string)
  : M AddonSection unit :=
  (handleHeader lineno args ;;; handleLines lines ;;; finalize)%py.

End Registry.

(** What the registry calls outside: the progress message and the method
    of the addon. *)
Inductive RegistryCall : Type :=
| progress_message (message : string)
| addon_setup (name : string)
| addon_execute (name : string).

(** [AddonRegistry.__str__]. *)
Definition AddonRegistry_str (d : dict) : string :=
  fold_left (fun acc id_addon => (acc ++ addon_str (snd id_addon))%string) d "".

(** The first loop of [AddonRegistry.setup], which fills the new dict. *)
Definition setup_dict (items : dict) : dict :=
  fold_left (fun d kv =>
               if negb (String.eqb (addon_name (snd kv)) PLACEHOLDER_NAME)
               then store_key (fst kv) (snd kv) d
               else d)
            items [].

(** [AddonRegistry.setup(storage, ksdata, payload)]: the new [__dict__] and
    the calls made, in order. *)
Definition AddonRegistry_setup (d : dict) : dict * list RegistryCall :=
  let d := setup_dict d in
  (d,
   flat_map (fun kv =>
               if has_setup (snd kv) then
                 [progress_message ("Setting up " ++ addon_name (snd kv) ++ " addon")%string;
                  addon_setup (addon_name (snd kv))]
               else []) d).

(** [AddonRegistry.execute(storage, ksdata, users, payload)]: the calls
    made, in order. *)
Definition AddonRegistry_execute (d : dict) : list RegistryCall :=
  flat_map (fun kv =>
              if has_execute (snd kv) then
                [progress_message ("Executing " ++ addon_name (snd kv) ++ " addon")%string;
                 addon_execute (addon_name (snd kv))]
              else []) d.

(** *** Vocabulary of the statements about the section and the registry *)

(** A Python dict has every key once. *)
Definition is_dict (d : dict) : Prop := NoDup (map fst d).

(** The addons of a registry that are no placeholders, in their order. *)
Definition without_placeholders (d : dict) : dict :=
  List.filter (fun kv => negb (String.eqb (addon_name (snd kv)) PLACEHOLDER_NAME)) d.

(** The methods a section calls on its addon, on the object alone: the
    header with the arguments after the id, the lines in order, the end; the
    first call that raises is the last. *)
Fixpoint lines_on_addon (lines : list string) : M Addon unit :=
  match lines with
  | [] => ret tt
  | line :: rest => (handle_line line ;;; lines_on_addon rest)%py
  end.

Definition section_on_addon (lineno : nat) (args lines : list string) : M Addon unit :=
  (handle_header lineno (skipn 2 args) ;;; lines_on_addon lines ;;; addon_finalize)%py.

End Objects.

(** *** collect_addon_paths *)

(** The file system, as [collect_addon_paths] asks it: [os.listdir] ([None]
    for an [OSError]) and [os.path.isdir]. *)
Record FileSystem : Type := {
  listdir : string -> option (list string);
  isdir : string -> bool
}.

Definition starts_with_slash (s : string) : bool :=
  match s with
  | String c _ => Ascii.eqb c "/"%char
  | EmptyString => false
  end.

Fixpoint ends_with_slash (s : string) : bool :=
  match s with
  | EmptyString => false
  | String c EmptyString => Ascii.eqb c "/"%char
  | String _ rest => ends_with_slash rest
  end.

(** [os.path.join(a, *p)] of [posixpath]. *)
Definition path_join (a : string) (p : list string) : string :=
  fold_left (fun path b =>
               if starts_with_slash b then b
               else if negb (nonempty path) || ends_with_slash path
                    then (path ++ b)%string
               else (path ++ "/" ++ b)%string) p a.

(** The returned dict, with its three keys. *)
Record ModulePaths : Type := {
  spokes : list (string * string);
  ks : list (string * string);
  categories : list (string * string)
}.

(** The body of the inner loop, for one addon directory. *)
Definition collect_addon (fs : FileSystem) (ui_subdir path addon_id : string)
  (module_paths : ModulePaths) : ModulePaths :=
  let addon_ks_path := path_join path [addon_id; "ks"] in
  let module_paths :=
    if isdir fs addon_ks_path then
      {| spokes := spokes module_paths;
         ks := ks module_paths ++ [((addon_id ++ ".ks.%s")%string, addon_ks_path)];
         categories := categories module_paths |}
    else module_paths in
  let addon_spoke_path := path_join path [addon_id; ui_subdir; "spokes"] in
  let module_paths :=
    if isdir fs addon_spoke_path then
      {| spokes := spokes module_paths
                   ++ [((addon_id ++ "." ++ ui_subdir ++ ".spokes.%s")%string,
                        addon_spoke_path)];
         ks := ks module_paths;
         categories := categories module_paths |}
    else module_paths in
  let addon_category_path := path_join path [addon_id; "categories"] in
  if isdir fs addon_category_path then
    {| spokes := spokes module_paths;
       ks := ks module_paths;
       categories := categories module_paths
                     ++ [((addon_id ++ ".categories.%s")%string, addon_category_path)] |}
  else module_paths.

(** The outer loop, from the dict built so far. *)
Definition collect_from (fs : FileSystem) (ui_subdir : string)
  (toplevel_addon_paths : list string) (module_paths : ModulePaths) : ModulePaths :=
  fold_left (fun module_paths path =>
               let directories := default [] (listdir fs path) in
               fold_left (fun module_paths addon_id =>
                            collect_addon fs ui_subdir path addon_id module_paths)
                         directories module_paths)
            toplevel_addon_paths module_paths.

(** [collect_addon_paths(toplevel_addon_paths, ui_subdir)]. *)
Definition collect_addon_paths (fs : FileSystem) (toplevel_addon_paths : list string)
  (ui_subdir : string) : ModulePaths :=
  collect_from fs ui_subdir toplevel_addon_paths
    {| spokes := []; ks := []; categories := [] |}.

(** *** Vocabulary and examples *)

(** The entries of two results, key by key. *)
Definition merge (a b : ModulePaths) : ModulePaths :=
  {| spokes := spokes a ++ spokes b; ks := ks a ++ ks b;
     categories := categories a ++ categories b |}.

(** All the registered directories of a result. *)
Definition registered (m : ModulePaths) : list string :=
  map snd (spokes m) ++ map snd (ks m) ++ map snd (categories m).

(** The entries for the subdirectory [sub] of every addon of the paths, in
    the order of the paths and of their listings. *)
Definition entries_of (fs : FileSystem) (fmt : string -> string) (sub : list string)
  (toplevel_addon_paths : list string) : list (string * string) :=
  flat_map (fun path =>
              flat_map (fun addon_id =>
                          let dir := path_join path (addon_id :: sub) in
                          if isdir fs dir then [(fmt addon_id, dir)] else [])
                       (default [] (listdir fs path)))
           toplevel_addon_paths.

(** What three scans of the paths and their listings give, one for each
    key. *)
Definition scanned (fs : FileSystem) (ui_subdir : string) (toplevel_addon_paths : list string)
  : ModulePaths :=
  {| spokes := entries_of fs (fun addon_id => addon_id ++ "." ++ ui_subdir ++ ".spokes.%s")%string
                 [ui_subdir; "spokes"] toplevel_addon_paths;
     ks := entries_of fs (fun addon_id => addon_id ++ ".ks.%s")%string ["ks"]
             toplevel_addon_paths;
     categories := entries_of fs (fun addon_id => addon_id ++ ".categories.%s")%string
                     ["categories"] toplevel_addon_paths |}.

(** [e] is the entry for the subdirectory [sub] of an addon that the
    listing of one of the paths names, and the subdirectory exists. *)
Definition found_in (fs : FileSystem) (toplevel_addon_paths : list string)
  (fmt : string -> string) (sub : list string) (e : string * string) : Prop :=
  exists path directories addon_id,
    In path toplevel_addon_paths /\ listdir fs path = Some directories /\
    In addon_id directories /\
    isdir fs (path_join path (addon_id :: sub)) = true /\
    e = (fmt addon_id, path_join path (addon_id :: sub)).

(** The names the body of [AddonRegistry] defines, and the two descriptors
    of every instance. *)
Definition registry_kind (key : string) : AttrKind :=
  if String.eqb key "__dict__" || String.eqb key "__class__" then data_descriptor
  else if existsb (String.eqb key) ["__init__"; "__str__"; "execute"; "setup"]
  then class_attribute
  else no_class_attribute.

(** The class of the examples: an addon that keeps the options of its
    header and the lines of its body apart, refuses an empty line, and
    wants a body when the section ends. *)
Record Strict : Type := {
  strict_options : list string;
  strict_lines : list string
}.

Definition strict : AddonClasses :=
  {| Custom := Strict;
     custom_name := fun _ => "org_fedora_strict";
     custom_str := fun c => ("%addon org_fedora_strict " ++ String.concat " " (strict_options c)
                             ++ nl ++ String.concat "" (strict_lines c) ++ "%end" ++ nl)%string;
     custom_handle_header := fun _ args c =>
       ({| strict_options := strict_options c ++ args; strict_lines := strict_lines c |},
        Ok tt);
     custom_handle_line := fun line c =>
       if nonempty line then
         ({| strict_options := strict_options c; strict_lines := strict_lines c ++ [line] |},
          Ok tt)
       else (c, Raise TypeError);
     custom_finalize := fun c =>
       if nonnil (strict_lines c) then (c, Ok tt) else (c, Raise TypeError);
     custom_has_setup := fun _ => true;
     custom_has_execute := fun _ => true |}.

(** A registry with two registered addons, one of each kind. *)
Definition kdump : @Addon strict :=
  @plain strict {| name := "com_redhat_kdump"; content := ""; header_args := "" |}.
Definition strict_addon : @Addon strict :=
  @custom strict {| strict_options := []; strict_lines := [] |}.

(** The sections of the examples. *)
Definition hello_args : list string := ["%addon"; "org_fedora_hello_world"; "--reverse"].
Definition kdump_args : list string := ["%addon"; "com_redhat_kdump"; "--enable"].
Definition strict_args : list string := ["%addon"; "org_fedora_strict"; "--fast"].
Definition one_addon : @AddonSection strict :=
  {| handler := Some [("com_redhat_kdump", kdump)]; addon_id := None |}.
Definition two_addons : @AddonSection strict :=
  {| handler := Some [("com_redhat_kdump", kdump); ("org_fedora_strict", strict_addon)];
     addon_id := None |}.

End Addons.

(** * Properties *)

(** ** manual.py *)

Module ManualFacts.
Import Blivet Manual.

Lemma frame_refl (s : State) : frame s s.
Proof. unfold frame. repeat split; reflexivity. Qed.

Lemma frame_trans (s1 s2 s3 : State) : frame s1 s2 -> frame s2 s3 -> frame s1 s3.
Proof.
  unfold frame. intros (E1 & R1 & D1 & S1 & G1 & H1) (E2 & R2 & D2 & S2 & G2 & H2).
  repeat split; try congruence. by transitivity (heap s2).
Qed.

Lemma frame_deref (s s' : State) (r : Ref) :
  frame s s' -> is_Some (heap s !! r) -> deref s' r = deref s r.
Proof.
  intros (_ & _ & _ & _ & _ & Hsub) [v Hv]. unfold deref.
  rewrite !lookup_total_alt, Hv.
  by rewrite (lookup_weaken _ _ _ _ Hv Hsub).
Qed.

Lemma storage_available (s : State) (st : Storage) :
  _storage s = Some st -> storage s = (s, Ok st).
Proof. intros E. unfold storage. by rewrite E. Qed.

Lemma alloc_spec (v : MountPointRequest) (s : State) :
  exists s' r,
    alloc v s = (s', Ok r) /\ heap s !! r = None /\
    heap s' = <[r := v]> (heap s) /\ frame s s'.
Proof.
  eexists _, _. split; [reflexivity|].
  assert (Hfresh : heap s !! fresh (dom (heap s)) = None).
  { apply not_elem_of_dom. apply is_fresh. }
  split; [exact Hfresh|]. split; [reflexivity|].
  unfold frame; cbn. repeat split. by apply insert_subseteq.
Qed.

Section WithOrder.
Context `{SetOrder}.

Lemma elem_of_set_iter (X : gset nat) (r : nat) : r ∈ set_iter X <-> r ∈ X.
Proof. rewrite (set_iter_perm X). apply elem_of_elements. Qed.

Lemma find_in_Some (s : State) (tree : DeviceTree) (d : Device) (l : list Ref) (r : Ref) :
  find_in s tree d l = Some r -> r ∈ l /\ resolves_to s tree r d.
Proof.
  unfold find_in, resolves_to. intros Hf. apply find_some in Hf as [Hin Hd].
  split; [by apply list_elem_of_In|exact Hd].
Qed.

Lemma find_in_None (s : State) (tree : DeviceTree) (d : Device) (l : list Ref) :
  find_in s tree d l = None -> forall q, q ∈ l -> ~ resolves_to s tree q d.
Proof.
  unfold find_in, resolves_to. intros Hf q Hq Hres.
  apply list_elem_of_In in Hq.
  pose proof (find_none _ _ Hf q Hq) as Hn. cbn in Hn. congruence.
Qed.

Lemma resolves_to_same_device (s : State) (tree : DeviceTree) (r : Ref) (d d' : Device) :
  resolves_to s tree r d -> resolves_to s tree r d' -> dev_id d = dev_id d'.
Proof.
  unfold resolves_to, device_is.
  destruct (resolve_device tree (device_spec (deref s r))) as [x|]; [|discriminate].
  intros E1%Nat.eqb_eq E2%Nat.eqb_eq. congruence.
Qed.

Lemma resolves_to_frame (s s' : State) (tree : DeviceTree) (r : Ref) (d : Device) :
  deref s' r = deref s r -> resolves_to s' tree r d <-> resolves_to s tree r d.
Proof. unfold resolves_to. by intros ->. Qed.

Lemma Forall2_elem_of_l {A B : Type} (P : A -> B -> Prop) (l : list A) (k : list B) :
  Forall2 P l k -> Forall2 (fun x y => x ∈ l /\ P x y) l k.
Proof.
  induction 1 as [|x y l k Hxy _ IH]; constructor.
  - split; [left|exact Hxy].
  - eapply Forall2_impl; [exact IH|]. intros a b [Ha Hab]. split; [by right|exact Hab].
Qed.

Lemma find_request_spec (s : State) (st : Storage) (d : Device) (avail : gset nat) :
  _storage s = Some st ->
  _find_request_for_device d avail s
  = (s, Ok (find_in s (devicetree st) d (set_iter avail))).
Proof.
  intros E. unfold _find_request_for_device, bind, gets, ret.
  by rewrite (storage_available _ _ E).
Qed.

(** The loop of [gather_requests], from any point of the iteration:
    [avail] is the pool that is left, [acc] what was appended so far. *)
Lemma gather_loop_spec (st : Storage) (devices : list Device) :
  NoDup (map dev_id devices) ->
  forall (avail : gset nat) (acc : list Ref) (s : State),
    _storage s = Some st ->
    (forall r, r ∈ avail -> is_Some (heap s !! r)) ->
    (forall r, r ∈ acc -> is_Some (heap s !! r) /\ r ∉ avail) ->
    NoDup acc ->
    exists s' refs,
      gather_loop devices avail acc s = (s', Ok (acc ++ refs)) /\
      Forall2 (request_for s s' (devicetree st) (elements avail)) devices refs /\
      NoDup (acc ++ refs) /\
      frame s s'.
Proof.
  induction devices as [|d rest IH]; intros Hnd avail acc s Hst Havail Hacc Hnacc.
  - exists s, []. cbn. rewrite app_nil_r. repeat split; auto using frame_refl.
  - cbn [map] in Hnd. apply NoDup_cons in Hnd as [Hd Hnd].
    cbn [gather_loop]. unfold bind at 1. rewrite (find_request_spec _ _ _ _ Hst).
    destruct (find_in s (devicetree st) d (set_iter avail)) as [r|] eqn:Hfind.
    + apply find_in_Some in Hfind as [Hr Hres]. apply elem_of_set_iter in Hr.
      destruct (IH Hnd (avail ∖ {[r]}) (acc ++ [r]) s Hst) as (s' & refs & Hrun & Hall & Hnd' & Hfr).
      * intros q Hq. apply Havail. set_solver.
      * intros q [Hq|Hq%list_elem_of_singleton]%elem_of_app.
        -- destruct (Hacc q Hq). split; [done|set_solver].
        -- subst q. split; [by apply Havail|set_solver].
      * apply NoDup_app. split; [done|]. split; [|apply NoDup_singleton].
        intros q Hq ->%list_elem_of_singleton. by destruct (Hacc r Hq).
      * exists s', (r :: refs). rewrite <- app_assoc in Hrun, Hnd'. cbn in Hrun, Hnd'.
        split; [exact Hrun|]. split; [|split; [exact Hnd'|exact Hfr]].
        constructor.
        -- left. split; [by apply elem_of_elements|]. split; [exact Hres|].
           apply frame_deref; [exact Hfr|by apply Havail].
        -- eapply Forall2_impl; [apply Forall2_elem_of_l, Hall|].
           intros d' r' [Hd' [(Hin & Hres' & Hder)|(Hnone & Hnew & Hno)]].
           ++ left. split; [|done]. apply elem_of_elements. apply elem_of_elements in Hin. set_solver.
           ++ right. split; [done|]. split; [done|].
              intros q Hq%elem_of_elements Hq'. destruct (decide (q = r)) as [->|Hne].
              ** apply Hd. rewrite (resolves_to_same_device _ _ _ _ _ Hres Hq').
                 apply list_elem_of_fmap. by exists d'.
              ** apply (Hno q); [|done]. apply elem_of_elements. set_solver.
    + unfold _create_request_for_device.
      destruct (alloc_spec (created_request d) s) as (s1 & r & Halloc & Hnone & Hheap & Hfr1).
      unfold bind at 1. rewrite Halloc.
      assert (Hst1 : _storage s1 = Some st).
      { destruct Hfr1 as (_ & _ & _ & -> & _). exact Hst. }
      assert (Hgrow : forall q, is_Some (heap s !! q) -> is_Some (heap s1 !! q)).
      { intros q [v Hv]. exists v. destruct Hfr1 as (_ & _ & _ & _ & _ & Hsub).
        by apply (lookup_weaken _ _ _ _ Hv Hsub). }
      destruct (IH Hnd avail (acc ++ [r]) s1 Hst1) as (s' & refs & Hrun & Hall & Hnd' & Hfr).
      * intros q Hq. by apply Hgrow, Havail.
      * intros q [Hq|Hq%list_elem_of_singleton]%elem_of_app.
        -- destruct (Hacc q Hq). split; [by apply Hgrow|done].
        -- subst q. split.
           ++ rewrite Hheap, lookup_insert_eq. by eexists.
           ++ intros Hq. destruct (Havail r Hq) as [v Hv]. congruence.
      * apply NoDup_app. split; [done|]. split; [|apply NoDup_singleton].
        intros q Hq ->%list_elem_of_singleton. destruct (Hacc r Hq) as [[v Hv] _]. congruence.
      * exists s', (r :: refs). rewrite <- app_assoc in Hrun, Hnd'. cbn in Hrun, Hnd'.
        split; [exact Hrun|]. split; [|split; [exact Hnd'|by eapply frame_trans]].
        constructor.
        -- right. split; [exact Hnone|]. split.
           ++ destruct Hfr as (_ & _ & _ & _ & _ & Hsub).
              eapply lookup_weaken; [|exact Hsub]. by rewrite Hheap, lookup_insert_eq.
           ++ intros q Hq%elem_of_elements. eapply find_in_None; [exact Hfind|].
              by apply elem_of_set_iter.
        -- eapply Forall2_impl; [exact Hall|].
           intros d' r' [(Hin & Hres' & Hder)|(Hnone' & Hnew & Hno)].
           ++ left. split; [done|].
              assert (Hd1 : deref s1 r' = deref s r').
              { apply frame_deref; [done|]. by apply Havail, elem_of_elements. }
              split; [by apply (resolves_to_frame _ _ _ _ _ Hd1)|congruence].
           ++ right. split.
              { destruct (heap s !! r') as [v|] eqn:Hv; [|done].
                destruct (Hgrow r') as [v' Hv']; [by eexists|]. congruence. }
              split; [done|]. intros q Hq Hq'. apply (Hno q Hq).
              assert (Hd1 : deref s1 q = deref s q).
              { apply frame_deref; [done|]. by apply Havail, elem_of_elements. }
              by apply (resolves_to_frame _ _ _ _ _ Hd1).
Qed.

Lemma gather_loop_frame (devices : list Device) :
  forall (avail : gset nat) (acc : list Ref) (s : State),
    frame s (fst (gather_loop devices avail acc s)).
Proof.
  induction devices as [|d rest IH]; intros avail acc s; [apply frame_refl|].
  cbn [gather_loop]. unfold bind at 1, _find_request_for_device, bind at 1, storage.
  destruct (_storage s) as [st|]; [|apply frame_refl].
  cbn. destruct (find_in _ _ _ _) as [r|]; [apply IH|].
  unfold _create_request_for_device, bind.
  destruct (alloc_spec (created_request d) s) as (s1 & r & -> & _ & _ & Hfr).
  eapply frame_trans; [exact Hfr|apply IH].
Qed.

Lemma device_spec_created (d : Device) : device_spec (created_request d) = path d.
Proof. unfold created_request. by destruct (_ && _). Qed.

Lemma reformat_created (d : Device) : reformat (created_request d) = false.
Proof. unfold created_request. by destruct (_ && _). Qed.

Lemma request_for_resolved (s s' : State) (tree : DeviceTree) (l : list Ref)
  (d : Device) (r : Ref) :
  device_is d (resolve_device tree (path d)) = true ->
  request_for s s' tree l d r -> resolved_id s' tree r = Some (dev_id d).
Proof.
  intros Hpath [(_ & Hres & Hder)|(_ & Hnew & _)]; unfold resolved_id.
  - rewrite Hder. unfold resolves_to, device_is in Hres.
    destruct (resolve_device tree (device_spec (deref s r))) as [x|]; [|discriminate].
    apply Nat.eqb_eq in Hres. cbn. congruence.
  - unfold deref. rewrite lookup_total_alt, Hnew. cbn. rewrite device_spec_created.
    unfold device_is in Hpath.
    destruct (resolve_device tree (path d)) as [x|]; [|discriminate].
    apply Nat.eqb_eq in Hpath. cbn. congruence.
Qed.

Lemma iterate_usable_devices_spec (s : State) (st : Storage) :
  _storage s = Some st ->
  _iterate_usable_devices s = (s, Ok (usable_devices s st)).
Proof.
  intros E. unfold _iterate_usable_devices, bind, gets, ret.
  by rewrite (storage_available _ _ E).
Qed.

(** The test of the loop says what the specification says. *)
Lemma usable_spec (selected_disks : list string) (d : Device) :
  usable selected_disks d = true <-> spec_usable selected_disks d.
Proof.
  unfold usable, spec_usable.
  destruct (protected d); cbn [orb]; [by split; [|intros [? _]]|].
  destruct (Z.eqb_spec (size d) 0) as [Hz|Hz]; [by split; [|intros (_ & ? & _)]|].
  destruct selected_disks as [|x l]; cbn [nonnil andb].
  { split; [|done]. intros _. split; [done|]. split; [done|]. by intros []. }
  set (sel := x :: l).
  destruct (forallb (fun name => existsb (String.eqb name) sel) (disks d)) eqn:Hall; cbn.
  - split; [|done]. intros _. split; [done|]. split; [done|]. intros _ name Hname.
    rewrite forallb_forall in Hall. specialize (Hall name Hname).
    apply existsb_exists in Hall as (y & Hy & Heq). apply String.eqb_eq in Heq. by subst.
  - split; [done|]. intros (_ & _ & Hin). exfalso.
    assert (Htrue : forallb (fun name => existsb (String.eqb name) sel) (disks d) = true).
    { apply forallb_forall. intros name Hname. apply existsb_exists.
      exists name. split; [by apply Hin|]. apply String.eqb_refl. }
    congruence.
Qed.

(** The new request has the contents the specification gives it. *)
Lemma created_request_synthesized (d : Device) : synthesized_for d (created_request d).
Proof.
  unfold synthesized_for, created_request, str_or.
  destruct (format d) as [ty mo mp]. cbn [type mountable mountpoint].
  destruct mo, mp as [[|c mp]|], ty as [[|c' ty]|]; cbn; repeat split.
Qed.

(** [gather_requests] over the devices the loop takes and the requests it
    makes. *)
Lemma gather_requests_over_usable_devices (s : State) (st : Storage) :
  _storage s = Some st ->
  (forall r, r ∈ _requests s -> is_Some (heap s !! r)) ->
  NoDup (map dev_id (leaves (devicetree st))) ->
  exists s' refs,
    gather_requests s = (s', Ok refs) /\
    Forall2 (request_for s s' (devicetree st) (_requests s)) (usable_devices s st) refs /\
    NoDup refs /\
    (paths_resolve (devicetree st) ->
     NoDup (map (resolved_id s' (devicetree st)) refs)).
Proof.
  intros Hst Halloc Hnd.
  assert (Hndu : NoDup (map dev_id (usable_devices s st))).
  { apply (sublist_NoDup _ (map dev_id (leaves (devicetree st)))); [exact Hnd|].
    apply (fmap_sublist dev_id), sublist_filter. }
  destruct (gather_loop_spec st (usable_devices s st) Hndu
              (list_to_set (_requests s)) [] s Hst)
    as (s' & refs & Hrun & Hall & Hnd' & Hfr).
  { intros r Hr. apply Halloc. by apply elem_of_list_to_set in Hr. }
  { intros r Hr. by apply elem_of_nil in Hr. }
  { constructor. }
  cbn [app] in Hrun, Hnd'.
  assert (Hall' : Forall2 (request_for s s' (devicetree st) (_requests s))
                    (usable_devices s st) refs).
  { eapply Forall2_impl; [exact Hall|].
    intros d r [(Hin & Hres & Hder)|(Hnone & Hnew & Hno)].
    - left. split; [|done]. by apply elem_of_elements, elem_of_list_to_set in Hin.
    - right. split; [done|]. split; [done|]. intros q Hq. apply Hno.
      by apply elem_of_elements, elem_of_list_to_set. }
  exists s', refs. split.
  { unfold gather_requests, bind at 1, gets. unfold bind at 1.
    by rewrite (iterate_usable_devices_spec _ _ Hst). }
  split; [exact Hall'|]. split; [exact Hnd'|].
  intros Hpaths.
  assert (Hmap : map (resolved_id s' (devicetree st)) refs
                 = map (fun d => Some (dev_id d)) (usable_devices s st)).
  { apply Forall2_elem_of_l in Hall'. clear -Hall' Hpaths.
    induction Hall' as [|d r l k [Hd Hdr] _ IH]; [done|]. cbn. f_equal; [|exact IH].
    eapply request_for_resolved; [|exact Hdr]. apply Hpaths.
    unfold usable_devices in Hd. by apply list_elem_of_filter in Hd as [_ Hd]. }
  rewrite Hmap, <- (map_map dev_id Some).
  apply (NoDup_fmap_2 Some), Hndu.
Qed.

(** C1, as the code has it: with a storage model whose leaves are distinct
    objects, [gather_requests] returns one request per usable device, in leaf
    order: the devices are the leaves that are not protected, have a non-zero
    size and, when any disks are selected, have all their disks among them.
    The request of a device is a declared one that resolves to it, or, when no
    declared request resolves to it, a new object with the path of the device,
    no reformat, the type and (when mountable) the mount point of its format.
    No reference is returned twice, and when the tree resolves the path of
    each leaf to that leaf no two returned requests resolve to the same
    device. *)
Theorem gather_requests_one_per_usable_device (s : State) (st : Storage) :
  _storage s = Some st ->
  (forall r, r ∈ _requests s -> is_Some (heap s !! r)) ->
  NoDup (map dev_id (leaves (devicetree st))) ->
  exists s' refs devices,
    gather_requests s = (s', Ok refs) /\
    devices `sublist_of` leaves (devicetree st) /\
    (forall d, d ∈ leaves (devicetree st) ->
       (d ∈ devices <-> spec_usable (_selected_disks s) d)) /\
    Forall2 (returned_for s s' (devicetree st) (_requests s)) devices refs /\
    NoDup refs /\
    (paths_resolve (devicetree st) -> distinct_devices s' (devicetree st) refs).
Proof.
  intros Hst Halloc Hnd.
  destruct (gather_requests_over_usable_devices s st Hst Halloc Hnd)
    as (s' & refs & Hrun & Hall & Hndr & Hres).
  exists s', refs, (usable_devices s st).
  split; [exact Hrun|]. split; [apply sublist_filter|]. split.
  { intros d Hd. unfold usable_devices. rewrite list_elem_of_filter, usable_spec. tauto. }
  split.
  { eapply Forall2_impl; [exact Hall|].
    intros d r [Hdecl|(Hnone & Hnew & Hno)]; [by left|]. right.
    split; [done|]. split; [|done].
    exists (created_request d). split; [done|]. apply created_request_synthesized. }
  split; [exact Hndr|].
  intros Hpaths. pose proof (Hres Hpaths) as Hnd'.
  intros i j r1 r2 d Hij H1 H2 Hr1 Hr2. apply Hij.
  assert (Hid : forall r, resolves_to s' (devicetree st) r d ->
                          resolved_id s' (devicetree st) r = Some (dev_id d)).
  { intros r. unfold resolves_to, resolved_id, device_is.
    destruct (resolve_device _ _) as [d'|]; [|done]. cbn.
    intros Heq. apply Nat.eqb_eq in Heq. by rewrite Heq. }
  apply (NoDup_lookup _ i j (Some (dev_id d)) Hnd').
  - by rewrite list_lookup_fmap, H1, <- (Hid r1 Hr1).
  - by rewrite list_lookup_fmap, H2, <- (Hid r2 Hr2).
Qed.

(** C9: [gather_requests] leaves the module as it was: the same list of
    request references, the same enabled flag, no signal emitted, and every
    object that was in the store keeps its contents (the call only adds the
    objects it creates). *)
Theorem gather_requests_leaves_module_unchanged (s : State) :
  let s' := fst (gather_requests s) in
  _requests s' = _requests s /\ _enabled s' = _enabled s /\
  emitted s' = emitted s /\
  (forall r v, heap s !! r = Some v -> heap s' !! r = Some v).
Proof.
  cbv zeta.
  assert (Hfr : frame s (fst (gather_requests s))).
  { unfold gather_requests, bind at 1, gets. unfold bind at 1.
    unfold _iterate_usable_devices, bind at 1, gets. unfold bind at 1, storage.
    destruct (_storage s) as [st|]; [|apply frame_refl].
    cbn. apply gather_loop_frame. }
  destruct Hfr as (He & Hr & _ & _ & Hem & Hsub).
  repeat split; try done. intros r v Hv. by apply (lookup_weaken _ _ _ _ Hv Hsub).
Qed.

End WithOrder.

(** The scenario of the specification, evaluated: the two declared requests
    in device order, then a new request for [sda3]. *)
Example gather_requests_scenario :
  let out := gather_requests scenario in
  snd out = Ok [7; 4; 8] /\
  deref (fst out) 8
  = {| mount_point := ""; device_spec := "/dev/sda3"; reformat := false;
       format_type := ""; format_options := ""; mount_options := "" |}.
Proof. vm_compute. split; reflexivity. Qed.

Lemma gather_requests_scenario_witness :
  exists s' refs devices,
    gather_requests scenario = (s', Ok refs) /\
    devices `sublist_of` leaves (devicetree scenario_storage) /\
    (forall d, d ∈ leaves (devicetree scenario_storage) ->
       (d ∈ devices <-> spec_usable (_selected_disks scenario) d)) /\
    Forall2 (returned_for scenario s' (devicetree scenario_storage) (_requests scenario))
      devices refs /\
    NoDup refs /\
    (paths_resolve (devicetree scenario_storage) ->
     distinct_devices s' (devicetree scenario_storage) refs).
Proof.
  apply (gather_requests_one_per_usable_device scenario scenario_storage).
  - reflexivity.
  - intros r Hr. apply list_elem_of_In in Hr. cbn in Hr.
    destruct Hr as [<-|[<-|[]]]; eexists; vm_compute; reflexivity.
  - apply (bool_decide_unpack _). vm_compute. exact I.
Defined.

(** C1, as the specification words it, fails for a storage model with two
    leaves under one path (two subvolumes of a volume): both get a new
    request with that path, and both requests resolve to the device the tree
    finds under it. *)
Lemma gather_requests_counterexample :
  ~ never_two_requests_for_a_device subvolumes subvolumes_storage.
Proof.
  intros Hnever.
  destruct (gather_requests subvolumes) as [s' [refs|e]] eqn:Hrun;
    vm_compute in Hrun; [|discriminate].
  injection Hrun as <- <-.
  eapply (Hnever _ _ ltac:(vm_compute; reflexivity) 0 1 _ _ (subvolume 1));
    [done|reflexivity|reflexivity|vm_compute; reflexivity|vm_compute; reflexivity].
Qed.

(** *** Kickstart round trip *)

Lemma request_of_mount_data_of_request (r : MountPointRequest) :
  request_of_mount_data (mount_data_of_request r) = r.
Proof. by destruct r. Qed.

Lemma mount_data_of_request_of_mount_data (m : MountData) :
  mount_data_of_request (request_of_mount_data m) = m.
Proof. by destruct m. Qed.

(** The loop of [process_kickstart] appends one new object per mount point,
    holding the fields of that mount point. *)
Lemma process_mount_points_spec (l : list MountData) :
  forall (acc : list Ref) (s : State),
    (forall r, r ∈ acc -> is_Some (heap s !! r)) ->
    exists s' refs,
      process_mount_points l acc s = (s', Ok refs) /\
      map (deref s') refs = map (deref s) acc ++ map request_of_mount_data l /\
      frame s s'.
Proof.
  induction l as [|m rest IH]; intros acc s Hacc.
  - exists s, acc. cbn. rewrite app_nil_r. auto using frame_refl.
  - cbn [process_mount_points]. unfold bind at 1.
    destruct (alloc_spec (request_of_mount_data m) s) as (s1 & r & -> & Hnone & Hheap & Hfr1).
    destruct (IH (acc ++ [r]) s1) as (s' & refs & Hrun & Hmap & Hfr).
    { intros q [Hq|Hq%list_elem_of_singleton]%elem_of_app.
      - destruct (Hacc q Hq) as [v Hv]. exists v.
        destruct Hfr1 as (_ & _ & _ & _ & _ & Hsub). by apply (lookup_weaken _ _ _ _ Hv Hsub).
      - subst q. rewrite Hheap, lookup_insert_eq. by eexists. }
    exists s', refs. split; [exact Hrun|]. split; [|by eapply frame_trans].
    rewrite Hmap, map_app. cbn [map]. rewrite <- app_assoc. cbn [app]. f_equal.
    + apply map_ext_in. intros q Hq%list_elem_of_In. by apply frame_deref, Hacc.
    + f_equal. unfold deref. by rewrite Hheap, lookup_total_insert_eq.
Qed.

(** What [process_kickstart] leaves in the module. *)
Lemma process_kickstart_spec (data : KickstartData) (s : State) :
  let s' := fst (process_kickstart data s) in
  _enabled s' = seen (mount data) /\
  contents s'
  = if seen (mount data) then map request_of_mount_data (mount_points (mount data))
    else [].
Proof.
  cbv zeta. unfold process_kickstart. destruct (seen (mount data)); cbn [negb].
  - destruct (process_mount_points_spec (mount_points (mount data)) [] s)
      as (s' & refs & Hrun & Hmap & _).
    { intros r Hr. by apply elem_of_nil in Hr. }
    unfold bind. rewrite Hrun. cbn. split; [reflexivity|].
    unfold contents. cbn. exact Hmap.
  - cbn. split; reflexivity.
Qed.

(** C5, as the code has it: the round trip gives back the enabled flag and
    the request list (same contents, same order) when the handler that
    [setup_kickstart] filled carries a [seen] flag equal to the module's enabled
    flag; [setup_kickstart] itself never sets that flag.  The module that
    processes the regenerated data may be any module. *)
Theorem kickstart_roundtrip_when_seen_matches
  (data handler : KickstartData) (s0 s0' : State) :
  let s1 := fst (process_kickstart data s0) in
  let data' := setup_kickstart s1 handler in
  let s2 := fst (process_kickstart data' s0') in
  seen (mount handler) = _enabled s1 ->
  _enabled s2 = _enabled s1 /\ contents s2 = contents s1.
Proof.
  cbv zeta. intros Hseen.
  destruct (process_kickstart_spec data s0) as [He1 Hc1]. cbv zeta in He1, Hc1.
  set (s1 := fst (process_kickstart data s0)) in *.
  destruct (process_kickstart_spec (setup_kickstart s1 handler) s0') as [He2 Hc2].
  cbv zeta in He2, Hc2. rewrite He2, Hc2. clear He2 Hc2.
  unfold setup_kickstart. destruct (_enabled s1) eqn:Hen; cbn [negb].
  - cbn. rewrite Hseen. split; [reflexivity|].
    unfold contents. rewrite map_map. apply map_ext. intros r.
    apply request_of_mount_data_of_request.
  - rewrite Hseen. split; [reflexivity|].
    rewrite Hc1. rewrite <- He1. reflexivity.
Qed.

Lemma kickstart_roundtrip_witness :
  let handler := {| mount := {| seen := true; mount_points := [] |} |} in
  let s1 := fst (process_kickstart one_mount initial) in
  let s2 := fst (process_kickstart (setup_kickstart s1 handler) initial) in
  _enabled s2 = _enabled s1 /\ contents s2 = contents s1.
Proof.
  exact (kickstart_roundtrip_when_seen_matches one_mount
           {| mount := {| seen := true; mount_points := [] |} |}
           initial initial eq_refl).
Defined.

(** C5, as the specification words it, fails: a handler that has parsed
    nothing has [seen = False], [setup_kickstart] leaves it so, and processing
    the regenerated data disables the module that one mount had enabled. *)
Lemma kickstart_roundtrip_counterexample :
  ~ roundtrip_law fresh_handler one_mount initial.
Proof.
  unfold roundtrip_law; cbv zeta. intros [Henabled _].
  vm_compute in Henabled. discriminate.
Qed.

(** Whatever [seen] flag a new handler starts with, some data breaks the
    round trip: the flag is not written, so it cannot follow the module. *)
Lemma kickstart_roundtrip_needs_seen (handler : KickstartData) :
  exists data, ~ roundtrip_law handler data initial.
Proof.
  destruct handler as [[b l]]. destruct b.
  - exists fresh_handler. unfold roundtrip_law; cbv zeta. intros [Henabled _].
    rewrite (proj1 (process_kickstart_spec _ _)) in Henabled.
    vm_compute in Henabled. discriminate.
  - exists one_mount. unfold roundtrip_law; cbv zeta. intros [Henabled _].
    vm_compute in Henabled. discriminate.
Qed.

End ManualFacts.

(** ** storage.py *)

Module StorageFacts.
Import Blivet StorageModule.

Section WithCollaborators.
Context `{Collaborators}.

Lemma alloc_new (v : Storage) (s : State) :
  let r := fresh (dom (objects s)) in
  alloc v s = (with_objects (<[r := v]> (objects s)) s, Ok r) /\
  objects s !! r = None.
Proof.
  cbv zeta. split; [reflexivity|]. apply not_elem_of_dom, is_fresh.
Qed.

(** The [storage] property when a canonical model exists. *)
Lemma storage_read_existing (s : State) (r : Ref) :
  _storage s = Some r -> storage s = (s, Ok (Some r)).
Proof.
  intros E. unfold storage, bind, gets, ret. rewrite E. cbn. by rewrite E.
Qed.

(** C10: a read of the [storage] property with no canonical model creates
    one (a new object holding what [create_storage()] built), makes it the
    canonical model and delivers [storage_changed] with it to every connected
    callback, in connection order, before it returns; with a canonical model
    it returns that model and changes nothing. *)
Theorem storage_property_creates_on_first_read (s : State) :
  match _storage s with
  | None =>
      exists r s',
        storage s = (s', Ok (Some r)) /\
        objects s !! r = None /\
        _storage s' = Some r /\
        objects s' = <[r := create_storage]> (objects s) /\
        delivered s' = delivered s ++ emission s r /\
        storage_changed s' = storage_changed s /\
        _disk_selection_module s' = _disk_selection_module s
  | Some r => storage s = (s, Ok (Some r))
  end.
Proof.
  destruct (_storage s) as [r|] eqn:E.
  - by apply storage_read_existing.
  - exists (fresh (dom (objects s))). eexists. split.
    + unfold storage, bind, gets. rewrite E. cbn. reflexivity.
    + cbn. split; [apply not_elem_of_dom, is_fresh|]. repeat split.
Qed.

Lemma apply_partitioning_unfold (module : Partitioning) (s : State) :
  apply_partitioning module s
  = match scratch module with
    | None => (s, Raise UnavailableStorageError)
    | Some r =>
        if StorageValidateTask_valid (objects s !!! r) then
          let r' := fresh (dom (objects s)) in
          (emit_storage_changed r'
             (with_storage (Some r')
                (with_objects (<[r' := objects s !!! r]> (objects s)) s)), Ok tt)
        else (s, Raise InvalidStorageError)
    end.
Proof.
  unfold apply_partitioning, module_storage, StorageValidateTask_run, bind, gets, ret, raise.
  destruct (scratch module) as [r|]; [|reflexivity].
  destruct (StorageValidateTask_valid (objects s !!! r)); reflexivity.
Qed.

(** C4: [apply_partitioning] raises [InvalidStorageError] exactly when the
    module has a scratch model and its validation fails; whenever it raises,
    the state is as before (the canonical model unchanged, nothing delivered);
    when the validation succeeds, the canonical model is a new object with the
    contents of the scratch model, and [storage_changed] is delivered with
    it. *)
Theorem apply_partitioning_validates_then_promotes (module : Partitioning) (s : State) :
  let out := apply_partitioning module s in
  (snd out = Raise InvalidStorageError <->
   exists r, scratch module = Some r /\
             StorageValidateTask_valid (objects s !!! r) = false) /\
  (forall e, snd out = Raise e -> fst out = s) /\
  (forall r, scratch module = Some r ->
     StorageValidateTask_valid (objects s !!! r) = true ->
     exists r',
       snd out = Ok tt /\
       objects s !! r' = None /\
       _storage (fst out) = Some r' /\
       objects (fst out) = <[r' := objects s !!! r]> (objects s) /\
       delivered (fst out) = delivered s ++ emission s r').
Proof.
  cbv zeta. rewrite apply_partitioning_unfold.
  destruct (scratch module) as [r|].
  - destruct (StorageValidateTask_valid (objects s !!! r)) eqn:Hv.
    + cbn. split; [|split].
      * split; [discriminate|]. intros (q & [= <-] & Hq). congruence.
      * discriminate.
      * intros q [= <-] _. exists (fresh (dom (objects s))).
        split; [reflexivity|]. split; [apply not_elem_of_dom, is_fresh|]. repeat split.
    + cbn. split; [|split].
      * split; [|reflexivity]. intros _. by exists r.
      * reflexivity.
      * intros q [= <-] Hq. congruence.
  - cbn. split; [|split].
    + split; [discriminate|]. intros (q & Hq & _). discriminate.
    + reflexivity.
    + discriminate.
Qed.

(** [reset_with_task] on a module that has a canonical model, and the run
    of the task it returns. *)
Lemma reset_with_task_of_a_canonical_model (s : State) (r0 : Ref) :
  _storage s = Some r0 ->
  exists s1 task,
    reset_with_task s = (s1, Ok task) /\
    _storage s1 = Some r0 /\ delivered s1 = delivered s /\
    (forall r v, objects s !! r = Some v -> objects s1 !! r = Some v) /\
    objects s !! task_storage task = None /\
    objects s1 !! task_storage task
    = Some (set_up (_disk_selection_module s) (objects s !!! r0)) /\
    succeeded_signal task = [call_set_storage (task_storage task)] /\
    exists s2,
      (forall r v, objects s !! r = Some v -> objects s2 !! r = Some v) /\
      let run := StorageResetTask_run (set_up (_disk_selection_module s) (objects s !!! r0)) in
      objects s2 !! task_storage task = Some (fst run) /\
      if snd run then
        run_task task s1 = (s2, Ok tt) /\
        _storage s2 = Some (task_storage task) /\
        delivered s2 = delivered s ++ emission s (task_storage task)
      else
        run_task task s1 = (s2, Raise TaskFailure) /\
        _storage s2 = Some r0 /\
        delivered s2 = delivered s.
Proof.
  intros E.
  pose proof (storage_read_existing s r0 E) as Hread.
  set (r := fresh (dom (objects s))).
  assert (Hnone : objects s !! r = None) by apply not_elem_of_dom, is_fresh.
  set (v := set_up (_disk_selection_module s) (objects s !!! r0)).
  set (o1 := <[r := v]> (<[r := objects s !!! r0]> (objects s))).
  exists (with_objects o1 s), {| task_storage := r; succeeded_signal := [call_set_storage r] |}.
  assert (Ho1 : o1 !! r = Some v) by apply lookup_insert_eq.
  assert (Hkeep : forall q w, objects s !! q = Some w -> o1 !! q = Some w).
  { intros q w Hq. unfold o1. assert (r <> q) by congruence.
    by rewrite !lookup_insert_ne. }
  split.
  { unfold reset_with_task, bind at 1. rewrite Hread. cbn.
    unfold bind, gets, ret, modify, copy, alloc, bind, gets. cbn.
    fold r. rewrite lookup_total_insert_eq. reflexivity. }
  cbn [task_storage succeeded_signal].
  split; [exact E|]. split; [reflexivity|]. split; [exact Hkeep|].
  split; [exact Hnone|]. split; [exact Ho1|]. split; [reflexivity|].
  destruct (StorageResetTask_run v) as [after succeeded] eqn:Hrun.
  set (o2 := <[r := after]> o1).
  assert (Hkeep2 : forall q w, objects s !! q = Some w -> o2 !! q = Some w).
  { intros q w Hq. unfold o2. rewrite lookup_insert_ne; [by apply Hkeep|]. congruence. }
  assert (Hbefore : objects (with_objects o1 s) !!! r = v).
  { cbn. by rewrite lookup_total_alt, Ho1. }
  destruct succeeded.
  - exists (emit_storage_changed r (with_storage (Some r) (with_objects o2 (with_objects o1 s)))).
    split; [exact Hkeep2|]. cbn [fst snd].
    split; [cbn; apply lookup_insert_eq|].
    split; [|split; reflexivity].
    unfold run_task, bind at 1, gets. cbn [task_storage]. rewrite Hbefore, Hrun.
    reflexivity.
  - exists (with_objects o2 (with_objects o1 s)).
    split; [exact Hkeep2|]. cbn [fst snd].
    split; [cbn; apply lookup_insert_eq|].
    split; [|split; [exact E|reflexivity]].
    unfold run_task, bind at 1, gets. cbn [task_storage]. rewrite Hbefore, Hrun.
    reflexivity.
Qed.

(** C3, as the code has it.  [reset_with_task] first reads [self.storage]:
    a module that has a canonical model is left as it is; a module that has
    none gets a new one, which is delivered with [storage_changed], whatever
    the task does later.  From there on nothing is delivered and neither the
    canonical reference nor an object of the store is changed: the task works
    on a new object, which has the device tree of the canonical model and the
    ignored, exclusive and protected disks and the disk images of the disk
    selection module.  A run of the task that succeeds makes that object the
    canonical model and delivers [storage_changed] with it; a run that fails
    raises, and leaves the canonical reference, the canonical object and the
    deliveries as they were. *)
Theorem reset_with_task_swaps_on_success (s : State) :
  exists s0 r0,
    match _storage s with
    | Some r => s0 = s /\ r0 = r
    | None =>
        objects s !! r0 = None /\
        _storage s0 = Some r0 /\
        objects s0 = <[r0 := create_storage]> (objects s) /\
        delivered s0 = delivered s ++ emission s r0 /\
        storage_changed s0 = storage_changed s /\
        _disk_selection_module s0 = _disk_selection_module s
    end /\
    exists s1 task copied,
      reset_with_task s = (s1, Ok task) /\
      _storage s1 = Some r0 /\ delivered s1 = delivered s0 /\
      (forall r v, objects s0 !! r = Some v -> objects s1 !! r = Some v) /\
      objects s0 !! task_storage task = None /\
      objects s1 !! task_storage task = Some copied /\
      devicetree copied = devicetree (objects s0 !!! r0) /\
      ignored_disks copied = ds_ignored_disks (_disk_selection_module s) /\
      exclusive_disks copied = ds_exclusive_disks (_disk_selection_module s) /\
      protected_devices copied = ds_protected_devices (_disk_selection_module s) /\
      disk_images copied = ds_disk_images (_disk_selection_module s) /\
      succeeded_signal task = [call_set_storage (task_storage task)] /\
      exists s2,
        (forall r v, objects s0 !! r = Some v -> objects s2 !! r = Some v) /\
        let run := StorageResetTask_run copied in
        objects s2 !! task_storage task = Some (fst run) /\
        if snd run then
          run_task task s1 = (s2, Ok tt) /\
          _storage s2 = Some (task_storage task) /\
          delivered s2 = delivered s0 ++ emission s (task_storage task)
        else
          run_task task s1 = (s2, Raise TaskFailure) /\
          _storage s2 = Some r0 /\
          delivered s2 = delivered s0.
Proof.
  assert (Hfrom : forall s0 r0,
            _storage s0 = Some r0 ->
            reset_with_task s = reset_with_task s0 ->
            _disk_selection_module s0 = _disk_selection_module s ->
            storage_changed s0 = storage_changed s ->
            exists s1 task copied,
              reset_with_task s = (s1, Ok task) /\
              _storage s1 = Some r0 /\ delivered s1 = delivered s0 /\
              (forall r v, objects s0 !! r = Some v -> objects s1 !! r = Some v) /\
              objects s0 !! task_storage task = None /\
              objects s1 !! task_storage task = Some copied /\
              devicetree copied = devicetree (objects s0 !!! r0) /\
              ignored_disks copied = ds_ignored_disks (_disk_selection_module s) /\
              exclusive_disks copied = ds_exclusive_disks (_disk_selection_module s) /\
              protected_devices copied = ds_protected_devices (_disk_selection_module s) /\
              disk_images copied = ds_disk_images (_disk_selection_module s) /\
              succeeded_signal task = [call_set_storage (task_storage task)] /\
              exists s2,
                (forall r v, objects s0 !! r = Some v -> objects s2 !! r = Some v) /\
                let run := StorageResetTask_run copied in
                objects s2 !! task_storage task = Some (fst run) /\
                if snd run then
                  run_task task s1 = (s2, Ok tt) /\
                  _storage s2 = Some (task_storage task) /\
                  delivered s2 = delivered s0 ++ emission s (task_storage task)
                else
                  run_task task s1 = (s2, Raise TaskFailure) /\
                  _storage s2 = Some r0 /\
                  delivered s2 = delivered s0).
  { intros s0 r0 E Hsame Hds Hsc.
    destruct (reset_with_task_of_a_canonical_model s0 r0 E)
      as (s1 & task & Hrun & H1 & H2 & H3 & H4 & H5 & H6 & s2 & H7 & H8).
    exists s1, task, (set_up (_disk_selection_module s0) (objects s0 !!! r0)).
    rewrite Hsame, <- Hds. unfold emission in *. rewrite <- Hsc.
    repeat (split; [done|]). exists s2. split; [exact H7|]. exact H8. }
  destruct (_storage s) as [r|] eqn:E.
  - exists s, r. split; [done|]. by apply Hfrom.
  - set (r0 := fresh (dom (objects s))).
    set (s0 := emit_storage_changed r0
                 (with_storage (Some r0) (with_objects (<[r0 := create_storage]> (objects s)) s))).
    assert (Hread : storage s = (s0, Ok (Some r0))).
    { unfold storage, bind, gets. rewrite E. reflexivity. }
    exists s0, r0. split.
    { split; [apply not_elem_of_dom, is_fresh|]. repeat split. }
    apply Hfrom; try done.
    unfold reset_with_task, bind at 1. rewrite Hread.
    symmetry. unfold bind at 1.
    by rewrite (storage_read_existing s0 r0 eq_refl).
Qed.

End WithCollaborators.

Lemma reset_with_task_witness :
  exists s0 r0,
    (objects (initial no_selection) !! r0 = None /\
     _storage s0 = Some r0 /\
     objects s0 = <[r0 := @create_storage working]> (objects (initial no_selection)) /\
     delivered s0 = delivered (initial no_selection) ++ emission (initial no_selection) r0 /\
     storage_changed s0 = storage_changed (initial no_selection) /\
     _disk_selection_module s0 = _disk_selection_module (initial no_selection)) /\
    exists s1 task copied,
      @reset_with_task working (initial no_selection) = (s1, Ok task) /\
      _storage s1 = Some r0 /\ delivered s1 = delivered s0 /\
      (forall r v, objects s0 !! r = Some v -> objects s1 !! r = Some v) /\
      objects s0 !! task_storage task = None /\
      objects s1 !! task_storage task = Some copied /\
      devicetree copied = devicetree (objects s0 !!! r0) /\
      ignored_disks copied = ds_ignored_disks (_disk_selection_module (initial no_selection)) /\
      exclusive_disks copied
      = ds_exclusive_disks (_disk_selection_module (initial no_selection)) /\
      protected_devices copied
      = ds_protected_devices (_disk_selection_module (initial no_selection)) /\
      disk_images copied = ds_disk_images (_disk_selection_module (initial no_selection)) /\
      succeeded_signal task = [call_set_storage (task_storage task)] /\
      exists s2,
        (forall r v, objects s0 !! r = Some v -> objects s2 !! r = Some v) /\
        let run := @StorageResetTask_run working copied in
        objects s2 !! task_storage task = Some (fst run) /\
        if snd run then
          @run_task working task s1 = (s2, Ok tt) /\
          _storage s2 = Some (task_storage task) /\
          delivered s2 = delivered s0 ++ emission (initial no_selection) (task_storage task)
        else
          @run_task working task s1 = (s2, Raise TaskFailure) /\
          _storage s2 = Some r0 /\
          delivered s2 = delivered s0.
Proof.
  exact (@reset_with_task_swaps_on_success working (initial no_selection)).
Defined.

(** C3, as the specification words it, fails on the module that has no
    canonical model yet: the read of [self.storage] inside [reset_with_task]
    creates the model and delivers [storage_changed], whatever the task does
    later. *)
Lemma reset_with_task_counterexample :
  ~ @reset_is_atomic failing_reset (initial no_selection).
Proof.
  intros Hatomic.
  destruct (@reset_with_task failing_reset (initial no_selection)) as [s1 [task|e]] eqn:Hreset;
    vm_compute in Hreset; [|discriminate].
  injection Hreset as <- <-.
  destruct (Hatomic _ _ ltac:(vm_compute; reflexivity)) as [[Hcanonical _] _].
  vm_compute in Hcanonical. discriminate.
Qed.

Lemma apply_partitioning_witness :
  let out := @apply_partitioning working {| scratch := Some 1 |} partitioned in
  exists r',
    snd out = Ok tt /\
    objects partitioned !! r' = None /\
    _storage (fst out) = Some r' /\
    objects (fst out) = <[r' := objects partitioned !!! 1]> (objects partitioned) /\
    delivered (fst out) = delivered partitioned ++ emission partitioned r'.
Proof.
  apply (@apply_partitioning_validates_then_promotes working
           {| scratch := Some 1 |} partitioned); reflexivity.
Defined.

(** The first reset of a new module, evaluated: the canonical model is
    created at address 0 and delivered to the ten callbacks by
    [reset_with_task] itself; the failing run of the task changes neither. *)
Example first_reset_delivers_before_the_task_runs :
  let '(s1, t) := @reset_with_task failing_reset (initial no_selection) in
  _storage s1 = Some 0 /\
  delivered s1 = map (fun sub => (sub, 0)) connected /\
  match t with
  | Ok task =>
      let '(s2, r) := @run_task failing_reset task s1 in
      r = Raise TaskFailure /\ _storage s2 = Some 0 /\ delivered s2 = delivered s1
  | Raise _ => False
  end.
Proof. vm_compute. repeat split; reflexivity. Qed.

(** [apply_partitioning], evaluated on a module whose scratch model (at
    address 1) is valid, and on one whose scratch model (at address 0) is
    not. *)
Example apply_partitioning_examples :
  let s := fst (@reset_with_task working running) in
  let s := fst (@run_task working {| task_storage := 1; succeeded_signal := [] |} s) in
  (let out := @apply_partitioning working {| scratch := Some 1 |} s in
   snd out = Ok tt /\ _storage (fst out) = Some 2 /\
   delivered (fst out) = map (fun sub => (sub, 2)) connected) /\
  (let out := @apply_partitioning working {| scratch := Some 0 |} s in
   snd out = Raise InvalidStorageError /\ fst out = s) /\
  (let out := @apply_partitioning working {| scratch := None |} s in
   snd out = Raise UnavailableStorageError /\ fst out = s).
Proof. vm_compute. repeat split; reflexivity. Qed.

End StorageFacts.

(** ** initialization.py *)

Module NetworkFacts.
Import Network.

Lemma exec_then {W A B : Type} (h : Backend W) (p : Prog A) (f : A -> Prog B) (w : W) :
  exec h (then_ p f) w
  = let '(w1, t1, r1) := exec h p w in
    match r1 with
    | Ok a => let '(w2, t2, r2) := exec h (f a) w1 in (w2, t1 ++ t2, r2)
    | Raise e => (w1, t1, Raise e)
    end.
Proof.
  revert w. induction p as [a|e|X c k IH]; intros w; cbn.
  - by destruct (exec h (f a) w) as [[w2 t2] r2].
  - reflexivity.
  - destruct (h X c w) as [w1 x]. rewrite IH.
    destruct (exec h (k x) w1) as [[w2 t2] [a|e]]; [|reflexivity].
    by destruct (exec h (f a) w2) as [[w3 t3] r3].
Qed.

Lemma exec_call {W X : Type} (h : Backend W) (c : Call X) (w : W) :
  exec h (call c) w = (fst (h X c w), [entry c (snd (h X c w))], Ok (snd (h X c w))).
Proof. cbn. by destruct (h X c w). Qed.

Lemma guard_unavailable {R : Type} (conf : Conf) (v : R) (p : Prog R) :
  can_configure_network conf = false ->
  guard_by_system_configuration conf v p = Return v.
Proof. intros E. unfold guard_by_system_configuration. by rewrite E. Qed.

(** C2: when network configuration is disabled or the task holds no
    client, [run] of each of the four tasks is the program that returns the
    empty list at once: under every backend and in every world it makes no
    call, raises nothing, leaves the world as it is and returns [[]]. *)
Theorem guarded_tasks_return_empty_without_calls
  (conf : Conf) (types : list nat)
  (ak : ApplyKickstartTask) (ci : ConsolidateInitramfsConnectionsTask)
  (so : SetRealOnbootValuesFromKickstartTask) (dm : DumpMissingIfcfgFilesTask) :
  (unavailable conf (ak_nm_client ak) ->
   ApplyKickstartTask_run conf ak = Return [] /\
   forall W (h : Backend W) w,
     exec h (ApplyKickstartTask_run conf ak) w = (w, [], Ok [])) /\
  (unavailable conf (ci_nm_client ci) ->
   ConsolidateInitramfsConnectionsTask_run conf ci = Return [] /\
   forall W (h : Backend W) w,
     exec h (ConsolidateInitramfsConnectionsTask_run conf ci) w = (w, [], Ok [])) /\
  (unavailable conf (so_nm_client so) ->
   SetRealOnbootValuesFromKickstartTask_run conf so = Return [] /\
   forall W (h : Backend W) w,
     exec h (SetRealOnbootValuesFromKickstartTask_run conf so) w = (w, [], Ok [])) /\
  (unavailable conf (dm_nm_client dm) ->
   DumpMissingIfcfgFilesTask_run conf types dm = Return [] /\
   forall W (h : Backend W) w,
     exec h (DumpMissingIfcfgFilesTask_run conf types dm) w = (w, [], Ok [])).
Proof.
  assert (Hexec : forall (R : Type) (p : Prog (list R)), p = Return [] ->
            p = Return [] /\ forall W (h : Backend W) w, exec h p w = (w, [], Ok [])).
  { intros R p ->. split; reflexivity. }
  split; [|split; [|split]]; intros [Hoff|Hnone]; apply Hexec;
    try (by apply guard_unavailable);
    unfold ApplyKickstartTask_run, ConsolidateInitramfsConnectionsTask_run,
      SetRealOnbootValuesFromKickstartTask_run, DumpMissingIfcfgFilesTask_run,
      guard_by_system_configuration;
    rewrite Hnone; destruct (can_configure_network conf); cbn; try reflexivity.
  by destruct (nonnil (ak_network_data ak)).
Qed.

Lemma guarded_tasks_witness :
  let ak := {| ak_nm_client := Some NM_Client; ak_network_data := [bond0_vlan222];
               ak_supported_devices := []; ak_bootif := None;
               ak_ifname_option_values := [] |} in
  let ci := {| ci_nm_client := None |} in
  let so := {| so_nm_client := Some NM_Client; so_network_data := [bond0_vlan222];
               so_supported_devices := []; so_bootif := None;
               so_ifname_option_values := [] |} in
  let dm := {| dm_nm_client := None; dm_default_network_data := default_network_data;
               dm_ifname_option_values := [] |} in
  exec (one_device []) (ApplyKickstartTask_run disabled ak) tt = (tt, [], Ok []) /\
  exec (one_device []) (ConsolidateInitramfsConnectionsTask_run enabled ci) tt
  = (tt, [], Ok []) /\
  exec (one_device []) (SetRealOnbootValuesFromKickstartTask_run disabled so) tt
  = (tt, [], Ok []) /\
  exec (one_device []) (DumpMissingIfcfgFilesTask_run enabled [ethernet] dm) tt
  = (tt, [], Ok []).
Proof.
  intros ak ci so dm.
  destruct (guarded_tasks_return_empty_without_calls disabled [ethernet] ak ci so dm)
    as (Hak & _ & Hso & _).
  destruct (guarded_tasks_return_empty_without_calls enabled [ethernet] ak ci so dm)
    as (_ & Hci & _ & Hdm).
  split; [apply Hak; left; reflexivity|].
  split; [apply Hci; right; reflexivity|].
  split; [apply Hso; left; reflexivity|].
  apply Hdm; right; reflexivity.
Defined.

(** The guards, evaluated: a disabled configuration with a client and a
    directive, and an enabled one without a client. *)
Example guards_evaluated :
  let so := {| so_nm_client := Some NM_Client; so_network_data := [bond0_vlan222];
               so_supported_devices := []; so_bootif := None;
               so_ifname_option_values := [] |} in
  let ci := {| ci_nm_client := None |} in
  exec (one_device []) (SetRealOnbootValuesFromKickstartTask_run disabled so) tt
  = (tt, [], Ok []) /\
  exec (one_device []) (ConsolidateInitramfsConnectionsTask_run enabled ci) tt
  = (tt, [], Ok []).
Proof. split; reflexivity. Qed.

(** C6, as the specification words it, fails: [eth0] has two available
    connections, none of them subordinate and none bound to its interface
    name, and no ifcfg file; the task selects nothing and returns without
    the device. *)
Lemma consolidate_counterexample :
  ~ consolidates_every_eligible_device
      (one_device [unbound 1 "uuid-1" None; unbound 2 "uuid-2" None]) tt
      enabled {| ci_nm_client := Some NM_Client |}.
Proof.
  unfold consolidates_every_eligible_device. cbn. intros Hall.
  destruct (Hall eth0 [unbound 1 "uuid-1" None; unbound 2 "uuid-2" None])
    as (l & [= <-] & []); cbn; auto.
Qed.

Section Consolidation.
Context {W : Type} (h : Backend W).
Variable cons_of : Device -> list Connection.
Variable ifcfg_of : string -> option IfcfgFile.
Hypothesis Hcons : forall d, answers h (get_available_connections d) (cons_of d).
Hypothesis Hifcfg : forall i, answers h (get_ifcfg_file_of_device i) (ifcfg_of i).

(** One turn of the loop, for a device whose ifcfg file, if it has one and
    the loop takes the device up, comes from kickstart. *)
Lemma exec_consolidate (d : Device) (acc : list string) (w : W) :
  (forall f, eligible (cons_of d) = true -> ifcfg_of (get_iface d) = Some f ->
             is_from_kickstart f = true) ->
  exists w1 t1,
    exec h (consolidate d acc) w
    = (w1, t1, Ok (acc ++ if consolidated cons_of ifcfg_of d then [get_iface d] else [])) /\
    omap ensured t1
    = if consolidated cons_of ifcfg_of d then [ensure_of cons_of d] else [].
Proof.
  intros Hks. unfold consolidate, consolidated, eligible, ensure_of in *.
  cbn -[Nat.ltb any_master _select_persistent_connection_for_iface].
  destruct (h _ (get_available_connections d) w) as [w1 cons] eqn:E1.
  pose proof (Hcons d w) as Hc. rewrite E1 in Hc. cbn in Hc. subst cons.
  destruct (Nat.ltb (length (cons_of d)) 2);
    cbn -[any_master _select_persistent_connection_for_iface].
  { eexists _, _. by rewrite app_nil_r. }
  destruct (any_master (cons_of d)); cbn -[_select_persistent_connection_for_iface].
  { eexists _, _. by rewrite app_nil_r. }
  destruct (h _ (get_ifcfg_file_of_device (get_iface d)) w1) as [w2 file] eqn:E2.
  pose proof (Hifcfg (get_iface d) w1) as Hf. rewrite E2 in Hf. cbn in Hf. subst file.
  destruct (ifcfg_of (get_iface d)) as [f|] eqn:Ef;
    cbn -[_select_persistent_connection_for_iface].
  - rewrite (Hks f eq_refl eq_refl). cbn. eexists _, _. by rewrite app_nil_r.
  - destruct (_select_persistent_connection_for_iface (get_iface d) (cons_of d))
      as [con|]; cbn.
    + destruct (h _ (ensure_active_connection_for_device (get_uuid con) (get_iface d) true) w2)
        as [w3 b]. cbn. eexists _, _. split; reflexivity.
    + eexists _, _. by rewrite app_nil_r.
Qed.

Lemma exec_consolidate_loop (devices : list Device) :
  forall (acc : list string) (w : W),
    (forall d f, In d devices -> eligible (cons_of d) = true ->
                 ifcfg_of (get_iface d) = Some f -> is_from_kickstart f = true) ->
    exists w1 t1,
      exec h (for_each devices consolidate acc) w
      = (w1, t1, Ok (acc ++ map get_iface
                              (List.filter (consolidated cons_of ifcfg_of) devices))) /\
      omap ensured t1
      = map (ensure_of cons_of) (List.filter (consolidated cons_of ifcfg_of) devices).
Proof.
  induction devices as [|d rest IH]; intros acc w Hks.
  - exists w, []. cbn. by rewrite app_nil_r.
  - cbn [for_each]. rewrite exec_then.
    destruct (exec_consolidate d acc w) as (w1 & t1 & -> & Ht1).
    { intros f. apply Hks. by left. }
    destruct (IH (acc ++ if consolidated cons_of ifcfg_of d then [get_iface d] else []) w1)
      as (w2 & t2 & -> & Ht2).
    { intros d' f Hd'. apply Hks. by right. }
    exists w2, (t1 ++ t2). rewrite omap_app, Ht1, Ht2. cbn [List.filter].
    destruct (consolidated cons_of ifcfg_of d); cbn.
    + by rewrite <- app_assoc.
    + by rewrite app_nil_r.
Qed.

Lemma subordinate_spec (con : Connection) : subordinate con = truthy (get_master con).
Proof. unfold subordinate. by destruct (get_master con) as [[|c m]|]. Qed.

Lemma bound_to_spec (iface : string) (con : Connection) :
  bound_to iface con = bool_decide (bound iface con).
Proof.
  unfold bound_to. destruct (decide (bound iface con)) as [Hb|Hb].
  - rewrite bool_decide_eq_true_2 by done. unfold bound in Hb. rewrite Hb.
    apply String.eqb_refl.
  - rewrite bool_decide_eq_false_2 by done. unfold bound in Hb.
    destruct (get_interface_name con) as [name|]; [|done].
    destruct (String.eqb_spec name iface) as [->|Hne]; [by destruct Hb|done].
Qed.

Lemma select_first_bound (iface : string) (cons : list Connection) (con : Connection) :
  _select_persistent_connection_for_iface iface cons = Some con ->
  first_bound iface cons con.
Proof.
  unfold _select_persistent_connection_for_iface, first_bound.
  induction cons as [|c cons IH]; [done|]. cbn [List.find].
  destruct (bound_to iface c) eqn:Hc.
  - intros [= <-]. exists [], cons. split; [done|]. split; [|constructor].
    rewrite bound_to_spec in Hc. by apply bool_decide_eq_true_1 in Hc.
  - intros Hfind. destruct (IH Hfind) as (before & after & -> & Hb & Hall).
    exists (c :: before), after. split; [done|]. split; [done|].
    constructor; [|done]. rewrite bound_to_spec in Hc.
    by apply bool_decide_eq_false_1 in Hc.
Qed.

Lemma eligible_spec (cons : list Connection) :
  eligible cons
  = Nat.leb 2 (length cons) && forallb (fun con => negb (subordinate con)) cons.
Proof.
  unfold eligible, any_master. f_equal.
  - destruct (Nat.ltb_spec (length cons) 2), (Nat.leb_spec 2 (length cons)); cbn; lia.
  - induction cons as [|c cons IH]; [done|]. cbn [existsb forallb].
    rewrite negb_orb, IH. by rewrite subordinate_spec.
Qed.

Lemma consolidated_spec (d : Device) :
  consolidated cons_of ifcfg_of d = spec_consolidated cons_of ifcfg_of d.
Proof.
  unfold consolidated, spec_consolidated. rewrite eligible_spec. f_equal; [f_equal|].
  - by destruct (ifcfg_of (get_iface d)).
  - unfold _select_persistent_connection_for_iface.
    induction (cons_of d) as [|c cons IH]; [done|]. cbn [List.find existsb].
    rewrite <- bound_to_spec. by destruct (bound_to (get_iface d) c).
Qed.

(** C6, as the code has it, for a backend that answers the two queries of
    the loop the same way throughout the run, and when no device with two
    connections or more, none of them subordinate, has an ifcfg file that
    kickstart did not make: the returned list holds, in the order of the
    devices, the names of the devices that have two available connections or
    more, none subordinate, no ifcfg file, and a connection bound to the
    interface name; for each of them, and for no other device, the first
    connection of the device that is bound to its name is ensured to be the
    active one, with [only_replace=True].  A device with fewer than two
    connections, with a subordinate connection, with an ifcfg file from
    kickstart, or without a connection bound to its name is skipped. *)
Theorem consolidate_keeps_the_connection_bound_to_the_interface
  (w : W) (conf : Conf) (task : ConsolidateInitramfsConnectionsTask) (devices : list Device) :
  can_configure_network conf = true ->
  is_Some (ci_nm_client task) ->
  snd (h _ get_devices w) = devices ->
  (forall d f, In d devices ->
     2 <= length (cons_of d) -> Forall (fun con => subordinate con = false) (cons_of d) ->
     ifcfg_of (get_iface d) = Some f -> is_from_kickstart f = true) ->
  let '(_, t, r) := exec h (ConsolidateInitramfsConnectionsTask_run conf task) w in
  r = Ok (map get_iface (List.filter (spec_consolidated cons_of ifcfg_of) devices)) /\
  Forall2 (fun d call =>
             exists con, first_bound (get_iface d) (cons_of d) con /\
                         call = (get_uuid con, get_iface d, true))
    (List.filter (spec_consolidated cons_of ifcfg_of) devices) (omap ensured t).
Proof.
  intros Hon [client Hclient] Hdevices Hks.
  unfold ConsolidateInitramfsConnectionsTask_run, guard_by_system_configuration.
  rewrite Hon, Hclient. cbn [negb is_Some_bool]. rewrite exec_then, exec_call.
  rewrite Hdevices.
  destruct (exec_consolidate_loop devices [] (fst (h _ get_devices w)))
    as (w1 & t1 & -> & Ht1).
  { intros d f Hd Hel. apply (Hks d f Hd).
    - rewrite eligible_spec in Hel. apply andb_prop in Hel as [Hlen _].
      by apply Nat.leb_le.
    - rewrite eligible_spec in Hel. apply andb_prop in Hel as [_ Hall].
      apply List.Forall_forall. intros con Hcon.
      rewrite forallb_forall in Hall. specialize (Hall con Hcon).
      by apply negb_true_iff. }
  rewrite (filter_ext _ _ consolidated_spec) in Ht1 |- *.
  cbn. split; [reflexivity|]. change (omap ensured ([] ++ t1)) with (omap ensured t1).
  rewrite Ht1. clear Ht1 Hdevices Hks.
  induction devices as [|d rest IH]; [constructor|]. cbn [List.filter].
  destruct (spec_consolidated cons_of ifcfg_of d) eqn:Hd; [|exact IH].
  cbn [map]. constructor; [|exact IH].
  rewrite <- consolidated_spec in Hd. unfold consolidated in Hd.
  apply andb_prop in Hd as [_ Hsel]. unfold ensure_of.
  destruct (_select_persistent_connection_for_iface (get_iface d) (cons_of d))
    as [con|] eqn:Hfind; [|done].
  exists con. split; [by apply select_first_bound|done].
Qed.

End Consolidation.

Lemma consolidate_witness :
  let cons_of := fun d => snd (three_devices _ (get_available_connections d) tt) in
  let devices := snd (three_devices _ get_devices tt) in
  let '(_, t, r) := exec three_devices
                      (ConsolidateInitramfsConnectionsTask_run enabled
                         {| ci_nm_client := Some NM_Client |}) tt in
  r = Ok (map get_iface (List.filter (spec_consolidated cons_of (fun _ => None)) devices)) /\
  Forall2 (fun d call =>
             exists con, first_bound (get_iface d) (cons_of d) con /\
                         call = (get_uuid con, get_iface d, true))
    (List.filter (spec_consolidated cons_of (fun _ => None)) devices) (omap ensured t).
Proof.
  assert (Hcons : forall d, answers three_devices (get_available_connections d)
                              (snd (three_devices _ (get_available_connections d) tt))).
  { intros d []. reflexivity. }
  assert (Hifcfg : forall i, answers three_devices (get_ifcfg_file_of_device i) None).
  { intros i []. reflexivity. }
  assert (Hclient : is_Some (Some NM_Client)) by (by exists NM_Client).
  exact (consolidate_keeps_the_connection_bound_to_the_interface three_devices
           _ (fun _ => None) Hcons Hifcfg tt enabled {| ci_nm_client := Some NM_Client |}
           _ eq_refl Hclient eq_refl
           ltac:(intros d f _ _ _ E; discriminate E)).
Defined.

(** The run of the witness, evaluated: of the three devices only [eth0] is
    consolidated, with its second connection, the first that is bound to
    it. *)
Example consolidate_scenario :
  let '(_, t, r) := exec three_devices
                      (ConsolidateInitramfsConnectionsTask_run enabled
                         {| ci_nm_client := Some NM_Client |}) tt in
  r = Ok ["eth0"] /\ omap ensured t = [("uuid-2", "eth0", true)].
Proof. split; reflexivity. Qed.

Section RealOnboot.
Context {W : Type} (h : Backend W).

Lemma attempted_app_l (nd : NetworkData) (d : option string) (t1 t2 : list Entry) :
  attempted nd d t1 -> attempted nd d (t1 ++ t2).
Proof.
  unfold attempted. destruct (onboot nd); intros [x Hx]; exists x;
    apply in_or_app; by left.
Qed.

Lemma attempted_app_r (nd : NetworkData) (d : option string) (t1 t2 : list Entry) :
  attempted nd d t2 -> attempted nd d (t1 ++ t2).
Proof.
  unfold attempted. destruct (onboot nd); intros [x Hx]; exists x;
    apply in_or_app; by right.
Qed.

(** One turn of the loop over [devices_to_update]: the update is attempted,
    and the name is appended unless the update of the ifcfg file failed. *)
Lemma exec_update_onboot (nd : NetworkData) (devname : option string)
  (acc : list (option string)) (w : W) :
  exists w1 t1 ext,
    exec h (update_onboot nd devname acc) w = (w1, t1, Ok (acc ++ ext)) /\
    attempted nd devname t1 /\
    (updates_succeed h -> ext = [devname]).
Proof.
  unfold update_onboot, update_ifcfg_onboot, attempted.
  destruct (onboot nd) eqn:Hon; cbn -[Z.eqb Z.ltb].
  - destruct (h _ (find_ifcfg_uuid_of_device devname) w) as [w1 found].
    destruct (h _ (update_onboot_value (str_or found "") true) w1) as [w2 ok] eqn:E.
    destruct ok; cbn.
    + eexists _, _, [devname]. split; [reflexivity|]. split; [|done].
      exists found. by left.
    + eexists _, _, []. rewrite app_nil_r. split; [reflexivity|]. split.
      * exists found. by left.
      * intros Hok. specialize (Hok w1 (str_or found "") true). rewrite E in Hok.
        discriminate Hok.
  - destruct (h _ (update_iface_setting_values devname false) w) as [w1 n].
    destruct (Z.eqb n 1); cbn -[Z.ltb].
    { eexists _, _, [devname]. split; [reflexivity|]. split; [|done]. exists n. by left. }
    destruct (Z.ltb 1 n); cbn.
    2:{ eexists _, _, [devname]. split; [reflexivity|]. split; [|done]. exists n. by left. }
    destruct (h _ (find_ifcfg_uuid_of_device devname) w1) as [w2 found].
    destruct (h _ (update_onboot_value (str_or found "") false) w2) as [w3 ok] eqn:E.
    destruct ok; cbn.
    + eexists _, _, [devname]. split; [reflexivity|]. split; [|done]. exists n. by left.
    + eexists _, _, []. rewrite app_nil_r. split; [reflexivity|]. split.
      * exists n. by left.
      * intros Hok. specialize (Hok w2 (str_or found "") false). rewrite E in Hok.
        discriminate Hok.
Qed.

Lemma exec_update_onboot_loop (nd : NetworkData) (devices : list (option string)) :
  forall (acc : list (option string)) (w : W),
    exists w1 t1 ext,
      exec h (for_each devices (update_onboot nd) acc) w = (w1, t1, Ok (acc ++ ext)) /\
      (forall d, In d devices -> attempted nd d t1) /\
      (updates_succeed h -> ext = devices).
Proof.
  induction devices as [|d rest IH]; intros acc w.
  - exists w, [], []. cbn. rewrite app_nil_r. split; [reflexivity|]. split; [|done].
    intros d [].
  - cbn [for_each]. rewrite exec_then.
    destruct (exec_update_onboot nd d acc w) as (w1 & t1 & ext1 & -> & Hat1 & Hext1).
    destruct (IH (acc ++ ext1) w1) as (w2 & t2 & ext2 & -> & Hat2 & Hext2).
    exists w2, (t1 ++ t2), (ext1 ++ ext2). rewrite <- app_assoc.
    split; [reflexivity|]. split.
    + intros d' [<-|Hd'].
      * by apply attempted_app_l.
      * by apply attempted_app_r, Hat2.
    + intros Hok. by rewrite (Hext1 Hok), (Hext2 Hok).
Qed.

(** The slaves part only appends to the list. *)
Lemma exec_update_slaves (nd : NetworkData) (master : option string)
  (acc : list (option string)) (w : W) :
  exists w1 t1 ext, exec h (update_slaves nd master acc) w = (w1, t1, Ok (acc ++ ext)).
Proof.
  unfold update_slaves.
  destruct (nonempty (bondslaves nd) || nonnil (teamslaves nd) || nonempty (bridgeslaves nd)).
  2:{ exists w, [], []. cbn. by rewrite app_nil_r. }
  cbn. destruct (h _ (get_device_by_iface master) w) as [w1 [dev|]]; cbn.
  - destruct (h _ (get_available_connections dev) w1) as [w2 cons].
    destruct cons as [|con [|con' cons]]; cbn;
      destruct (h _ (update_slaves_onboot_value master (onboot nd) _) w2) as [w3 slaves];
      by eexists _, _, slaves.
  - destruct (h _ (update_slaves_onboot_value master (onboot nd) None) w1) as [w3 slaves].
    by eexists _, _, slaves.
Qed.

(** One directive: the device name is looked up, the update is attempted
    for every device to update, and the names are appended. *)
Lemma exec_set_real_onboot (task : SetRealOnbootValuesFromKickstartTask)
  (nd : NetworkData) (acc : list (option string)) (w : W) :
  exists w1 t1 device_name ext,
    exec h (set_real_onboot task nd acc) w = (w1, t1, Ok (acc ++ ext)) /\
    In (entry (get_device_name_from_network_data nd (so_supported_devices task)
                 (so_bootif task)) device_name) t1 /\
    (forall d, In d (fst (devices_to_update nd device_name)) -> attempted nd d t1) /\
    (updates_succeed h ->
     forall d, In d (fst (devices_to_update nd device_name)) -> In d ext).
Proof.
  unfold set_real_onboot. rewrite exec_then, exec_call.
  set (c := get_device_name_from_network_data nd (so_supported_devices task) (so_bootif task)).
  set (device_name := snd (h _ c w)). set (w0 := fst (h _ c w)).
  destruct (devices_to_update nd device_name) as [devices master] eqn:Hdev.
  rewrite exec_then.
  destruct (exec_update_onboot_loop nd devices acc w0) as (w1 & t1 & ext1 & -> & Hat & Hext).
  destruct (exec_update_slaves nd master (acc ++ ext1) w1) as (w2 & t2 & ext2 & ->).
  exists w2, ([entry c device_name] ++ t1 ++ t2), device_name, (ext1 ++ ext2).
  rewrite <- app_assoc. split; [reflexivity|]. split; [by left|]. cbn [fst]. split.
  - intros d Hd. rewrite Hdev in Hd. by apply attempted_app_r, attempted_app_l, Hat.
  - intros Hok d Hd. rewrite Hdev in Hd. apply in_or_app. left. by rewrite (Hext Hok).
Qed.

Lemma exec_set_real_onboot_loop (task : SetRealOnbootValuesFromKickstartTask)
  (nds : list NetworkData) :
  forall (acc : list (option string)) (w : W),
    exists w1 t1 ext,
      exec h (for_each nds (set_real_onboot task) acc) w = (w1, t1, Ok (acc ++ ext)) /\
      forall nd, In nd nds ->
        exists device_name,
          In (entry (get_device_name_from_network_data nd (so_supported_devices task)
                       (so_bootif task)) device_name) t1 /\
          (forall d, In d (fst (devices_to_update nd device_name)) -> attempted nd d t1) /\
          (updates_succeed h ->
           forall d, In d (fst (devices_to_update nd device_name)) -> In d ext).
Proof.
  induction nds as [|nd0 rest IH]; intros acc w.
  - exists w, [], []. cbn. rewrite app_nil_r. split; [reflexivity|]. intros nd [].
  - cbn [for_each]. rewrite exec_then.
    destruct (exec_set_real_onboot task nd0 acc w)
      as (w1 & t1 & dn0 & ext1 & -> & Hin0 & Hat0 & Hext0).
    destruct (IH (acc ++ ext1) w1) as (w2 & t2 & ext2 & -> & Hrest).
    exists w2, (t1 ++ t2), (ext1 ++ ext2). rewrite <- app_assoc.
    split; [reflexivity|]. intros nd [<-|Hnd].
    + exists dn0. split; [apply in_or_app; by left|]. split.
      * intros d Hd. by apply attempted_app_l, Hat0.
      * intros Hok d Hd. apply in_or_app. left. by apply Hext0.
    + destruct (Hrest nd Hnd) as (dn & Hin & Hat & Hext).
      exists dn. split; [apply in_or_app; by right|]. split.
      * intros d Hd. by apply attempted_app_r, Hat.
      * intros Hok d Hd. apply in_or_app. right. by apply Hext.
Qed.

Lemma str_or_empty (found : option string) : str_or found "" = default "" found.
Proof. by destruct found as [[|c u]|]. Qed.

(** One turn of the loop over [devices_to_update], call by call. *)
Lemma exec_update_onboot_spec (nd : NetworkData) (devname : option string)
  (acc : list (option string)) (w : W) :
  exists w1 calls (updated : bool),
    exec h (update_onboot nd devname acc) w
    = (w1, calls, Ok (acc ++ if updated then [devname] else [])) /\
    onboot_update nd devname calls updated.
Proof.
  unfold update_onboot, update_ifcfg_onboot, onboot_update.
  destruct (onboot nd) eqn:Hon; cbn -[Z.eqb Z.ltb].
  - destruct (h _ (find_ifcfg_uuid_of_device devname) w) as [w1 found].
    rewrite str_or_empty.
    destruct (h _ (update_onboot_value (default "" found) true) w1) as [w2 ok] eqn:E.
    exists w2. eexists. exists ok. split; [|by exists found].
    destruct ok; cbn; [reflexivity | by rewrite app_nil_r].
  - destruct (h _ (update_iface_setting_values devname false) w) as [w1 n].
    destruct (Z.ltb 1 n) eqn:Hlt.
    + assert (Hne : Z.eqb n 1 = false) by (apply Z.eqb_neq; apply Z.ltb_lt in Hlt; lia).
      rewrite Hne. cbn.
      destruct (h _ (find_ifcfg_uuid_of_device devname) w1) as [w2 found].
      rewrite str_or_empty.
      destruct (h _ (update_onboot_value (default "" found) false) w2) as [w3 ok] eqn:E.
      exists w3. eexists. exists ok. split.
      * destruct ok; cbn; [reflexivity | by rewrite app_nil_r].
      * exists n. rewrite Hlt. by exists found.
    + exists w1. eexists. exists true. split.
      * destruct (Z.eqb n 1); cbn; reflexivity.
      * exists n. by rewrite Hlt.
Qed.

(** A directive with a VLAN over a bond or a team: the VLAN device is
    looked up, then updated, then the master is updated. *)
Lemma exec_set_real_onboot_vlan (task : SetRealOnbootValuesFromKickstartTask)
  (nd : NetworkData) (acc : list (option string)) (w : W) :
  exists w1 t1 ext,
    exec h (set_real_onboot task nd acc) w = (w1, t1, Ok (acc ++ ext)) /\
    (vlan_over_bond_or_team nd = true ->
     exists device_name vlan_calls master_calls rest vlan_updated master_updated,
       t1 = entry (get_device_name_from_network_data nd (so_supported_devices task)
                     (so_bootif task)) device_name
            :: vlan_calls ++ master_calls ++ rest /\
       onboot_update nd device_name vlan_calls vlan_updated /\
       onboot_update nd (Some (device nd)) master_calls master_updated /\
       (vlan_updated = true -> In device_name ext) /\
       (master_updated = true -> In (Some (device nd)) ext)).
Proof.
  destruct (exec_set_real_onboot task nd acc w) as (w1 & t1 & dn0 & ext & Hrun & _).
  exists w1, t1, ext. split; [exact Hrun|]. intros Hvlan.
  revert Hrun. unfold set_real_onboot. rewrite exec_then, exec_call.
  set (c := get_device_name_from_network_data nd (so_supported_devices task) (so_bootif task)).
  set (device_name := snd (h _ c w)). set (w0 := fst (h _ c w)).
  unfold devices_to_update. rewrite Hvlan. cbn [app for_each].
  rewrite exec_then, exec_then.
  destruct (exec_update_onboot_spec nd device_name acc w0)
    as (wa & calls1 & u1 & -> & Hu1).
  rewrite exec_then.
  destruct (exec_update_onboot_spec nd (Some (device nd))
              (acc ++ if u1 then [device_name] else []) wa)
    as (wb & calls2 & u2 & -> & Hu2).
  cbn [exec]. rewrite app_nil_r.
  destruct (exec_update_slaves nd (Some (device nd))
              ((acc ++ (if u1 then [device_name] else []))
               ++ (if u2 then [Some (device nd)] else [])) wb)
    as (wc & t3 & ext3 & ->).
  intros [= <- <- Hext].
  exists device_name, calls1, calls2, t3, u1, u2.
  split; [cbn; by rewrite <- ?app_assoc|]. split; [exact Hu1|]. split; [exact Hu2|].
  rewrite <- !app_assoc in Hext. apply app_inv_head in Hext. subst ext.
  split; intros ->; rewrite !in_app_iff; cbn; tauto.
Qed.

Lemma exec_set_real_onboot_loop_vlan (task : SetRealOnbootValuesFromKickstartTask)
  (nds : list NetworkData) :
  forall (acc : list (option string)) (w : W),
    exists w1 t1 ext,
      exec h (for_each nds (set_real_onboot task) acc) w = (w1, t1, Ok (acc ++ ext)) /\
      forall nd, In nd nds -> vlan_over_bond_or_team nd = true ->
        exists device_name before vlan_calls master_calls after vlan_updated master_updated,
          t1 = before
               ++ entry (get_device_name_from_network_data nd (so_supported_devices task)
                           (so_bootif task)) device_name
               :: vlan_calls ++ master_calls ++ after /\
          onboot_update nd device_name vlan_calls vlan_updated /\
          onboot_update nd (Some (device nd)) master_calls master_updated /\
          (vlan_updated = true -> In device_name ext) /\
          (master_updated = true -> In (Some (device nd)) ext).
Proof.
  induction nds as [|nd0 rest IH]; intros acc w.
  - exists w, [], []. cbn. rewrite app_nil_r. split; [reflexivity|]. intros nd [].
  - cbn [for_each]. rewrite exec_then.
    destruct (exec_set_real_onboot_vlan task nd0 acc w) as (w1 & t1 & ext1 & -> & H0).
    destruct (IH (acc ++ ext1) w1) as (w2 & t2 & ext2 & -> & Hrest).
    exists w2, (t1 ++ t2), (ext1 ++ ext2). rewrite <- app_assoc.
    split; [reflexivity|]. intros nd [<-|Hnd] Hvlan.
    + destruct (H0 Hvlan) as (dn & c1 & c2 & rest0 & u1 & u2 & -> & Hu1 & Hu2 & Hi1 & Hi2).
      exists dn, [], c1, c2, (rest0 ++ t2), u1, u2.
      split; [cbn; by rewrite <- !app_assoc|].
      split; [exact Hu1|]. split; [exact Hu2|].
      split; intros Hu; apply in_or_app; left; auto.
    + destruct (Hrest nd Hnd Hvlan)
        as (dn & before & c1 & c2 & after & u1 & u2 & -> & Hu1 & Hu2 & Hi1 & Hi2).
      exists dn, (t1 ++ before), c1, c2, after, u1, u2.
      split; [by rewrite <- app_assoc|].
      split; [exact Hu1|]. split; [exact Hu2|].
      split; intros Hu; apply in_or_app; right; auto.
Qed.

(** C8: for a directive of the task's data that sets [vlanid] together
    with [bondslaves] or [teamslaves], two devices are updated: the run looks
    up the device of the directive (the VLAN device), then makes the calls that
    update the onboot value of that device, then the calls that update the
    onboot value of the master named by the directive's [device] field.  The
    run returns a list; it holds the name of each of the two devices whose
    update succeeded. *)
Theorem vlan_over_bond_updates_both_devices
  (w : W) (conf : Conf) (task : SetRealOnbootValuesFromKickstartTask) (nd : NetworkData) :
  can_configure_network conf = true ->
  is_Some (so_nm_client task) ->
  In nd (so_network_data task) ->
  vlanid nd <> "" ->
  bondslaves nd <> "" \/ teamslaves nd <> [] ->
  let '(_, t, r) := exec h (SetRealOnbootValuesFromKickstartTask_run conf task) w in
  exists device_name before vlan_calls master_calls after vlan_updated master_updated l,
    t = before
        ++ entry (get_device_name_from_network_data nd (so_supported_devices task)
                    (so_bootif task)) device_name
        :: vlan_calls ++ master_calls ++ after /\
    onboot_update nd device_name vlan_calls vlan_updated /\
    onboot_update nd (Some (device nd)) master_calls master_updated /\
    r = Ok l /\
    (vlan_updated = true -> In device_name l) /\
    (master_updated = true -> In (Some (device nd)) l).
Proof.
  intros Hon [client Hclient] Hnd Hvlanid Hslaves.
  assert (Hvlan : vlan_over_bond_or_team nd = true).
  { unfold vlan_over_bond_or_team.
    destruct (vlanid nd); [done|]. cbn [nonempty andb].
    destruct Hslaves as [Hb|Ht].
    - by destruct (bondslaves nd).
    - destruct (teamslaves nd); [done|]. by rewrite orb_true_r. }
  unfold SetRealOnbootValuesFromKickstartTask_run, guard_by_system_configuration.
  rewrite Hon, Hclient. cbn [negb is_Some_bool].
  destruct (so_network_data task) as [|nd0 nds] eqn:Hdata; [destruct Hnd|].
  cbn [nonnil negb]. rewrite <- Hdata in *.
  destruct (exec_set_real_onboot_loop_vlan task (so_network_data task) [] w)
    as (w1 & t1 & ext & -> & Hall).
  destruct (Hall nd Hnd Hvlan)
    as (dn & before & c1 & c2 & after & u1 & u2 & -> & Hu1 & Hu2 & Hi1 & Hi2).
  exists dn, before, c1, c2, after, u1, u2, ext.
  repeat (split; [done|]). done.
Qed.

End RealOnboot.

Lemma vlan_over_bond_witness :
  let task := {| so_nm_client := Some NM_Client; so_network_data := [bond0_vlan222];
                 so_supported_devices := ["ens9"; "ens10"]; so_bootif := None;
                 so_ifname_option_values := [] |} in
  let '(_, t, r) := exec (one_device [])
                      (SetRealOnbootValuesFromKickstartTask_run enabled task) tt in
  exists device_name before vlan_calls master_calls after vlan_updated master_updated l,
    t = before
        ++ entry (get_device_name_from_network_data bond0_vlan222
                    (so_supported_devices task) (so_bootif task)) device_name
        :: vlan_calls ++ master_calls ++ after /\
    onboot_update bond0_vlan222 device_name vlan_calls vlan_updated /\
    onboot_update bond0_vlan222 (Some (device bond0_vlan222)) master_calls master_updated /\
    r = Ok l /\
    (vlan_updated = true -> In device_name l) /\
    (master_updated = true -> In (Some (device bond0_vlan222)) l).
Proof.
  assert (Hclient : is_Some (Some NM_Client)) by (by exists NM_Client).
  assert (Hvlanid : vlanid bond0_vlan222 <> "") by discriminate.
  assert (Hslaves : bondslaves bond0_vlan222 <> "" \/ teamslaves bond0_vlan222 <> [])
    by (left; discriminate).
  exact (vlan_over_bond_updates_both_devices (one_device []) tt enabled
           {| so_nm_client := Some NM_Client; so_network_data := [bond0_vlan222];
              so_supported_devices := ["ens9"; "ens10"]; so_bootif := None;
              so_ifname_option_values := [] |}
           bond0_vlan222 eq_refl Hclient (or_introl eq_refl) Hvlanid Hslaves).
Defined.

(** The scenario of the specification, evaluated: the VLAN device and
    [bond0] are both returned. *)
Example vlan_over_bond_scenario :
  let task := {| so_nm_client := Some NM_Client; so_network_data := [bond0_vlan222];
                 so_supported_devices := ["ens9"; "ens10"]; so_bootif := None;
                 so_ifname_option_values := [] |} in
  snd (exec (one_device []) (SetRealOnbootValuesFromKickstartTask_run enabled task) tt)
  = Ok [Some "bond0.222"; Some "bond0"] /\
  updates_succeed (one_device []).
Proof. split; [reflexivity|]. intros [] u b. reflexivity. Qed.

(** The path the statement above leaves out, evaluated: with an ifcfg file
    that kickstart did not make, [con_for_iface] is the uuid string of the
    file, and [con_for_iface.get_uuid()] raises before any connection is
    ensured. *)
Example consolidate_with_initramfs_ifcfg_raises :
  let cons := [unbound 1 "uuid-1" None; unbound 2 "uuid-2" None] in
  let '(_, t, r) := exec (with_initramfs_ifcfg cons)
                      (ConsolidateInitramfsConnectionsTask_run enabled
                         {| ci_nm_client := Some NM_Client |}) tt in
  r = Raise AttributeError /\ omap ensured t = [].
Proof. cbn. split; reflexivity. Qed.

(** C7 at the failing input: [eth0] is a supported wired device without an
    ifcfg file and with two available connections, one of them subordinate to
    [bond0].  The run adds no connection and commits none, and still returns
    the device. *)
Lemma dump_missing_returns_slave_with_nothing_dumped :
  let cons := [unbound 1 "uuid-1" (Some "bond0"); unbound 2 "uuid-2" None] in
  let task := {| dm_nm_client := Some NM_Client;
                 dm_default_network_data := default_network_data;
                 dm_ifname_option_values := [] |} in
  let '(_, t, r) := exec (one_device cons)
                      (DumpMissingIfcfgFilesTask_run enabled [ethernet] task) tt in
  r = Ok ["eth0"] /\ omap persisted t = [].
Proof. cbn. split; reflexivity. Qed.

(** The sibling path: with the subordinate connection alone the device is
    skipped; with one connection of its own, or none, a record is written and
    the device returned. *)
Example dump_missing_siblings :
  let task := {| dm_nm_client := Some NM_Client;
                 dm_default_network_data := default_network_data;
                 dm_ifname_option_values := [] |} in
  let run cons := exec (one_device cons)
                    (DumpMissingIfcfgFilesTask_run enabled [ethernet] task) tt in
  (let '(_, t, r) := run [unbound 1 "uuid-1" (Some "bond0")] in
   r = Ok [] /\ omap persisted t = []) /\
  (let '(_, t, r) := run [unbound 2 "uuid-2" None] in
   r = Ok ["eth0"] /\ omap persisted t = [Some "eth0"]) /\
  (let '(_, t, r) := run [] in
   r = Ok ["eth0"] /\ omap persisted t = [Some "eth0"]).
Proof. cbn. repeat split; reflexivity. Qed.

End NetworkFacts.

(** * Further properties *)

(** ** manual.py: kickstart processing and repeated gathering *)

Module ManualMore.
Import Blivet Manual ManualFacts.

(** The loop of [process_kickstart] creates one object per mount point:
    the new references are distinct, were not in the store, and hold the
    fields of the mount points in order. *)
Lemma process_mount_points_fresh (l : list MountData) :
  forall (acc : list Ref) (s : State),
    (forall r, r ∈ acc -> is_Some (heap s !! r)) ->
    NoDup acc ->
    exists s' new,
      process_mount_points l acc s = (s', Ok (acc ++ new)) /\
      (forall r, r ∈ new -> heap s !! r = None) /\
      NoDup (acc ++ new) /\
      map (deref s') new = map request_of_mount_data l /\
      frame s s'.
Proof.
  induction l as [|m rest IH]; intros acc s Hacc Hnd.
  - exists s, []. cbn. rewrite app_nil_r. repeat split; auto using frame_refl.
    intros r Hr. by apply elem_of_nil in Hr.
  - cbn [process_mount_points]. unfold bind at 1.
    destruct (alloc_spec (request_of_mount_data m) s) as (s1 & r & -> & Hnone & Hheap & Hfr1).
    assert (Hgrow : forall q, is_Some (heap s !! q) -> is_Some (heap s1 !! q)).
    { intros q [v Hv]. exists v. destruct Hfr1 as (_ & _ & _ & _ & _ & Hsub).
      by apply (lookup_weaken _ _ _ _ Hv Hsub). }
    destruct (IH (acc ++ [r]) s1) as (s' & new & Hrun & Hfresh & Hnd' & Hmap & Hfr).
    { intros q [Hq|Hq%list_elem_of_singleton]%elem_of_app.
      - by apply Hgrow, Hacc.
      - subst q. rewrite Hheap, lookup_insert_eq. by eexists. }
    { apply NoDup_app. split; [done|]. split; [|apply NoDup_singleton].
      intros q Hq ->%list_elem_of_singleton. destruct (Hacc r Hq) as [v Hv]. congruence. }
    exists s', (r :: new). rewrite <- app_assoc in Hrun, Hnd'. cbn in Hrun, Hnd'.
    split; [exact Hrun|]. split; [|split; [exact Hnd'|split; [|by eapply frame_trans]]].
    + intros q [->|Hq]%elem_of_cons; [exact Hnone|].
      destruct (heap s !! q) as [v|] eqn:Hv; [|done].
      destruct (Hgrow q) as [v' Hv']; [by eexists|].
      rewrite (Hfresh q Hq) in Hv'. discriminate.
    + cbn [map]. f_equal; [|exact Hmap].
      apply frame_deref with (r := r) in Hfr.
      * rewrite Hfr. unfold deref. by rewrite Hheap, lookup_total_insert_eq.
      * rewrite Hheap, lookup_insert_eq. by eexists.
Qed.

(** [process_kickstart] always returns; it leaves the enabled flag equal to
    [data.mount.seen] and a list of new, pairwise distinct request objects, one
    per mount point and in their order (none when [mount] was not seen); it
    emits [requests_changed] and then [enabled_changed], once each, whatever
    the module held before; the objects of the store keep their contents. *)
Theorem process_kickstart_replaces_the_requests (data : KickstartData) (s : State) :
  exists s',
    process_kickstart data s = (s', Ok tt) /\
    _enabled s' = seen (mount data) /\
    contents s'
    = (if seen (mount data) then map request_of_mount_data (mount_points (mount data))
       else []) /\
    NoDup (_requests s') /\
    (forall r, r ∈ _requests s' -> heap s !! r = None) /\
    emitted s' = emitted s ++ [requests_changed; enabled_changed] /\
    (forall r v, heap s !! r = Some v -> heap s' !! r = Some v).
Proof.
  unfold process_kickstart. destruct (seen (mount data)); cbn [negb].
  - destruct (process_mount_points_fresh (mount_points (mount data)) [] s)
      as (s1 & new & Hrun & Hfresh & Hnd & Hmap & Hfr).
    { intros r Hr. by apply elem_of_nil in Hr. }
    { constructor. }
    cbn [app] in Hrun, Hnd. unfold bind. rewrite Hrun. cbn.
    eexists. split; [reflexivity|]. cbn.
    destruct Hfr as (_ & _ & _ & _ & Hem & Hsub). rewrite Hem, <- app_assoc.
    repeat split; try done.
    intros r v Hv. by apply (lookup_weaken _ _ _ _ Hv Hsub).
  - cbn. eexists. split; [reflexivity|]. cbn. rewrite <- app_assoc.
    repeat split; try done.
    + constructor.
    + intros r Hr. by apply elem_of_nil in Hr.
Qed.

(** [setup_kickstart] after [process_kickstart] gives back the mount points
    that were processed, in the same order and field by field, in whatever
    handler it is given; it leaves a handler alone when [mount] was not seen.
    The [seen] flag of the handler is never written. *)
Theorem setup_kickstart_regenerates_the_mount_points
  (data handler : KickstartData) (s0 : State) :
  setup_kickstart (fst (process_kickstart data s0)) handler
  = if seen (mount data) then
      {| mount := {| seen := seen (mount handler);
                     mount_points := mount_points (mount data) |} |}
    else handler.
Proof.
  destruct (process_kickstart_spec data s0) as [Hen Hc]. cbv zeta in Hen, Hc.
  unfold setup_kickstart. rewrite Hen.
  destruct (seen (mount data)); cbn [negb]; [|reflexivity].
  f_equal. f_equal. unfold contents in Hc.
  rewrite <- (map_map (deref _) mount_data_of_request), Hc, map_map.
  rewrite <- (map_id (mount_points (mount data))) at 2.
  apply map_ext. intros m. apply mount_data_of_request_of_mount_data.
Qed.

Section Again.
Context `{SetOrder}.

Lemma resolves_to_resolved_id (s : State) (tree : DeviceTree) (r : Ref) (d : Device) :
  resolves_to s tree r d <-> resolved_id s tree r = Some (dev_id d).
Proof.
  unfold resolves_to, resolved_id, device_is.
  destruct (resolve_device tree (device_spec (deref s r))) as [x|]; cbn.
  - rewrite Nat.eqb_eq. split; congruence.
  - split; discriminate.
Qed.

(** The loop, when each device has its request in the pool and no two
    requests of the pool resolve alike: it takes exactly those requests and
    creates nothing. *)
Lemma gather_loop_again (st : Storage) (devices : list Device) :
  NoDup (map dev_id devices) ->
  forall (refs : list Ref) (avail : gset nat) (acc : list Ref) (s : State),
    _storage s = Some st ->
    Forall2 (fun d r => r ∈ avail /\
                        resolved_id s (devicetree st) r = Some (dev_id d)) devices refs ->
    (forall q1 q2, q1 ∈ avail -> q2 ∈ avail ->
       resolved_id s (devicetree st) q1 = resolved_id s (devicetree st) q2 -> q1 = q2) ->
    gather_loop devices avail acc s = (s, Ok (acc ++ refs)).
Proof.
  induction devices as [|d rest IH]; intros Hnd refs avail acc s Hst Hall Hinj.
  - apply Forall2_nil_inv_l in Hall as ->. cbn. by rewrite app_nil_r.
  - apply Forall2_cons_inv_l in Hall as (r & refs' & [Hr Hk] & Hall & ->).
    cbn [map] in Hnd. apply NoDup_cons in Hnd as [Hd Hnd].
    cbn [gather_loop]. unfold bind at 1. rewrite (find_request_spec _ _ _ _ Hst).
    destruct (find_in s (devicetree st) d (set_iter avail)) as [q|] eqn:Hfind.
    + apply find_in_Some in Hfind as [Hq Hres]. apply elem_of_set_iter in Hq.
      apply resolves_to_resolved_id in Hres.
      assert (q = r) as -> by (apply Hinj; [done|done|congruence]).
      rewrite (IH Hnd refs' (avail ∖ {[r]}) (acc ++ [r]) s Hst).
      * by rewrite <- app_assoc.
      * eapply Forall2_impl; [apply Forall2_elem_of_l, Hall|].
        intros d' r' [Hd' [Hr' Hk']]. split; [|done].
        apply elem_of_difference. split; [done|].
        intros ->%elem_of_singleton. apply Hd.
        apply list_elem_of_fmap. exists d'. split; [congruence|done].
      * intros q1 q2 Hq1 Hq2. apply Hinj; set_solver.
    + exfalso. apply (find_in_None _ _ _ _ Hfind r).
      * by apply elem_of_set_iter.
      * by apply resolves_to_resolved_id.
Qed.

Lemma NoDup_fmap_elem_inj {A B : Type} (f : A -> B) (l : list A) (x y : A) :
  NoDup (map f l) -> x ∈ l -> y ∈ l -> f x = f y -> x = y.
Proof.
  induction l as [|a l IH]; cbn [map]; intros Hnd Hx Hy Hf.
  - by apply elem_of_nil in Hx.
  - apply NoDup_cons in Hnd as [Ha Hnd].
    apply elem_of_cons in Hx as [->|Hx]; apply elem_of_cons in Hy as [->|Hy].
    + reflexivity.
    + exfalso. apply Ha. rewrite Hf. apply list_elem_of_fmap. by exists y.
    + exfalso. apply Ha. rewrite <- Hf. apply list_elem_of_fmap. by exists x.
    + by apply IH.
Qed.

(** Gathering is stable: once the gathered requests are stored with
    [set_requests], a second [gather_requests] returns the same request
    objects in the same order, creates none and changes nothing.  (The storage
    model has distinct leaves, and its resolver finds each leaf under its
    path, which is the [device_spec] of a synthesized request.) *)
Theorem gather_requests_is_stable_once_stored (s : State) (st : Storage) :
  _storage s = Some st ->
  (forall r, r ∈ _requests s -> is_Some (heap s !! r)) ->
  NoDup (map dev_id (leaves (devicetree st))) ->
  paths_resolve (devicetree st) ->
  exists s1 refs,
    gather_requests s = (s1, Ok refs) /\
    let s2 := fst (set_requests refs s1) in
    gather_requests s2 = (s2, Ok refs).
Proof.
  intros Hst Halloc Hnd Hpaths.
  assert (Hndu : NoDup (map dev_id (usable_devices s st))).
  { apply (sublist_NoDup _ (map dev_id (leaves (devicetree st)))); [exact Hnd|].
    apply (fmap_sublist dev_id), sublist_filter. }
  destruct (gather_loop_spec st (usable_devices s st) Hndu
              (list_to_set (_requests s)) [] s Hst)
    as (s1 & refs & Hrun & Hall & _ & Hfr).
  { intros r Hr. apply Halloc. by apply elem_of_list_to_set in Hr. }
  { intros r Hr. by apply elem_of_nil in Hr. }
  { constructor. }
  cbn [app] in Hrun.
  exists s1, refs. split.
  { unfold gather_requests, bind at 1, gets. unfold bind at 1.
    by rewrite (iterate_usable_devices_spec _ _ Hst). }
  cbv zeta. set (s2 := fst (set_requests refs s1)).
  assert (Hst2 : _storage s2 = Some st).
  { destruct Hfr as (_ & _ & _ & Hs & _). cbn. congruence. }
  assert (Hdev : usable_devices s2 st = usable_devices s st).
  { unfold usable_devices. destruct Hfr as (_ & _ & Hsel & _). cbn. by rewrite Hsel. }
  assert (Hk : Forall2 (fun d r => resolved_id s1 (devicetree st) r = Some (dev_id d))
                 (usable_devices s st) refs).
  { eapply Forall2_impl; [apply Forall2_elem_of_l, Hall|].
    intros d r [Hd Hdr].
    eapply request_for_resolved; [|exact Hdr]. apply Hpaths.
    unfold usable_devices in Hd. by apply list_elem_of_filter in Hd as [_ Hd]. }
  assert (Hmap : map (resolved_id s1 (devicetree st)) refs
                 = map Some (map dev_id (usable_devices s st))).
  { clear -Hk. induction Hk as [|d r l k Hdr _ IH]; [done|]. cbn. by rewrite Hdr, IH. }
  assert (Hsame : forall r, resolved_id s2 (devicetree st) r
                            = resolved_id s1 (devicetree st) r) by reflexivity.
  unfold gather_requests, bind at 1, gets. unfold bind at 1.
  rewrite (iterate_usable_devices_spec _ _ Hst2), Hdev.
  change (_requests s2) with refs.
  rewrite (gather_loop_again st (usable_devices s st) Hndu refs (list_to_set refs) [] s2 Hst2).
  - reflexivity.
  - eapply Forall2_impl; [apply Forall2_flip, Forall2_elem_of_l, Forall2_flip, Hk|].
    intros d r [Hr Hdr]. split; [by apply elem_of_list_to_set|by rewrite Hsame].
  - intros q1 q2 Hq1%elem_of_list_to_set Hq2%elem_of_list_to_set. rewrite !Hsame.
    apply (NoDup_fmap_elem_inj _ refs); [|done|done].
    rewrite Hmap. by apply (NoDup_fmap_2 Some).
Qed.

End Again.

Lemma gather_requests_is_stable_witness :
  exists s1 refs,
    gather_requests scenario = (s1, Ok refs) /\
    let s2 := fst (set_requests refs s1) in
    gather_requests s2 = (s2, Ok refs).
Proof.
  apply (gather_requests_is_stable_once_stored scenario scenario_storage).
  - reflexivity.
  - intros r Hr. apply list_elem_of_In in Hr. cbn in Hr.
    destruct Hr as [<-|[<-|[]]]; eexists; vm_compute; reflexivity.
  - apply (bool_decide_unpack _). vm_compute. exact I.
  - intros d Hd. apply list_elem_of_In in Hd. cbn in Hd.
    destruct Hd as [<-|[<-|[<-|[]]]]; reflexivity.
Defined.

End ManualMore.

(** ** storage.py: the subscribers follow the canonical model *)

Module StorageMore.
Import Blivet StorageModule StorageViews StorageFacts.

Lemma last_all_same {A : Type} (l : list A) (r : A) :
  l <> [] -> (forall x, x ∈ l -> x = r) -> last l = Some r.
Proof.
  destruct l as [|x l _] using rev_ind; [done|]. intros _ Hall.
  rewrite last_snoc. f_equal. apply Hall. set_solver.
Qed.

(** After an emission with [r], every connected callback holds [r]. *)
Lemma view_emit (r : Ref) (s : State) (sub : Subscriber) :
  sub ∈ storage_changed s -> view (emit_storage_changed r s) sub = Some r.
Proof.
  intros Hsub. unfold view, emit_storage_changed. cbn [delivered storage_changed].
  rewrite omap_app, last_app.
  rewrite (last_all_same _ r); [done| |].
  - intros Hnil. apply (f_equal (fun l => r ∈ l)) in Hnil.
    assert (Hin : r ∈ omap (fun d : Subscriber * Ref =>
                              if decide (d.1 = sub) then Some d.2 else None)
                    (map (fun sub0 => (sub0, r)) (storage_changed s))).
    { apply list_elem_of_omap. exists (sub, r). split.
      - apply list_elem_of_fmap. by exists sub.
      - cbn. by rewrite decide_True. }
    rewrite Hnil in Hin. by apply elem_of_nil in Hin.
  - intros x (d & Hd & Hx)%list_elem_of_omap.
    apply list_elem_of_fmap in Hd as (sub0 & -> & _). cbn in Hx.
    destruct (decide (sub0 = sub)); congruence.
Qed.

Lemma in_sync_set_storage (r : Ref) (s : State) : in_sync (fst (set_storage r s)).
Proof. intros sub Hsub. cbn in *. by rewrite view_emit. Qed.

(** A change of the store alone is not seen by [in_sync]. *)
Lemma in_sync_with_objects (o : gmap nat Storage) (s : State) :
  in_sync s -> in_sync (with_objects o s).
Proof. intros Hs sub Hsub. exact (Hs sub Hsub). Qed.

Section WithCollaborators.
Context `{Collaborators}.

Lemma in_sync_storage (s : State) : in_sync s -> in_sync (fst (storage s)).
Proof.
  intros Hs. destruct (_storage s) as [r|] eqn:E.
  - by rewrite (storage_read_existing s r E).
  - unfold storage, bind, gets. rewrite E. cbn.
    intros sub Hsub. apply (view_emit _ (with_storage _ (with_objects _ s))). exact Hsub.
Qed.

Lemma in_sync_reset_with_task (s : State) : in_sync s -> in_sync (fst (reset_with_task s)).
Proof.
  intros Hs. apply in_sync_storage in Hs.
  unfold reset_with_task, bind at 1.
  destruct (storage s) as [s0 [[r|]|e]]; cbn in *; try exact Hs.
Qed.

Lemma in_sync_run_task (task : Task) (s : State) :
  succeeded_signal task = [call_set_storage (task_storage task)] ->
  in_sync s -> in_sync (fst (run_task task s)).
Proof.
  intros Hsig Hs. unfold run_task, bind at 1, gets. cbn.
  destruct (StorageResetTask_run (objects s !!! task_storage task)) as [after []].
  - rewrite Hsig. cbn. intros sub Hsub. apply view_emit. exact Hsub.
  - cbn. intros sub Hsub. exact (Hs sub Hsub).
Qed.

(** The subscribers follow the canonical model: if every connected
    callback holds the canonical model, it still does after a read of the
    [storage] property, after [set_storage], after [apply_partitioning]
    (accepted or refused), after [reset_with_task], and after a run of the
    task it returned, succeeded or failed. *)
Theorem subscribers_follow_the_canonical_model (s : State) :
  in_sync s ->
  in_sync (fst (storage s)) /\
  (forall r, in_sync (fst (set_storage r s))) /\
  (forall module, in_sync (fst (apply_partitioning module s))) /\
  in_sync (fst (reset_with_task s)) /\
  (forall s1 task, reset_with_task s = (s1, Ok task) -> in_sync (fst (run_task task s1))).
Proof.
  intros Hs. split; [by apply in_sync_storage|].
  split; [intros r; apply in_sync_set_storage|].
  split.
  { intros module. rewrite apply_partitioning_unfold.
    destruct (scratch module) as [r|]; [|exact Hs].
    destruct (StorageValidateTask_valid (objects s !!! r)); [|exact Hs].
    cbv zeta. cbn [fst]. intros sub Hsub. apply view_emit. exact Hsub. }
  split; [by apply in_sync_reset_with_task|].
  intros s1 task Hreset.
  pose proof (in_sync_reset_with_task s Hs) as Hs1. rewrite Hreset in Hs1. cbn in Hs1.
  apply in_sync_run_task; [|exact Hs1].
  revert Hreset. unfold reset_with_task, bind at 1.
  destruct (storage s) as [s0 [[r|]|e]]; cbn; [|discriminate|discriminate].
  by intros [= <- <-].
Qed.

End WithCollaborators.

Lemma subscribers_follow_witness :
  in_sync (fst (@storage working (initial no_selection))) /\
  (forall r, in_sync (fst (set_storage r (initial no_selection)))) /\
  (forall module, in_sync (fst (@apply_partitioning working module (initial no_selection)))) /\
  in_sync (fst (@reset_with_task working (initial no_selection))) /\
  (forall s1 task, @reset_with_task working (initial no_selection) = (s1, Ok task) ->
                   in_sync (fst (@run_task working task s1))).
Proof.
  apply (@subscribers_follow_the_canonical_model working (initial no_selection)).
  intros sub Hsub. reflexivity.
Defined.

End StorageMore.

(** ** initialization.py: what the tasks do under any backend *)

Module NetworkMore.
Import Network NetworkTraces NetworkFacts.

Section AnyBackend.
Context {W : Type} (h : Backend W).

(** One turn of the consolidation loop, whatever the backend answers: the
    device is skipped without an ensure call, or ensured once (with
    [only_replace=True]) and appended, or the turn raises. *)
Lemma exec_consolidate_any (d : Device) (acc : list string) (w : W) :
  exists w1 t1 r1,
    exec h (consolidate d acc) w = (w1, t1, r1) /\
    forall acc', r1 = Ok acc' ->
      (acc' = acc /\ omap ensured_iface t1 = []) \/
      (acc' = acc ++ [get_iface d] /\ omap ensured_iface t1 = [(get_iface d, true)]).
Proof.
  unfold consolidate, ensure_and_record.
  cbn -[Nat.ltb any_master _select_persistent_connection_for_iface].
  destruct (h _ (get_available_connections d) w) as [w1 cons].
  destruct (Nat.ltb (length cons) 2);
    cbn -[any_master _select_persistent_connection_for_iface].
  { eexists _, _, _. split; [reflexivity|]. intros acc' [= <-]. by left. }
  destruct (any_master cons); cbn -[_select_persistent_connection_for_iface].
  { eexists _, _, _. split; [reflexivity|]. intros acc' [= <-]. by left. }
  destruct (h _ (get_ifcfg_file_of_device (get_iface d)) w1) as [w2 [file|]];
    cbn -[_select_persistent_connection_for_iface].
  - destruct (is_from_kickstart file); cbn.
    + eexists _, _, _. split; [reflexivity|]. intros acc' [= <-]. by left.
    + eexists _, _, _. split; [reflexivity|]. intros acc' [=].
  - destruct (_select_persistent_connection_for_iface (get_iface d) cons) as [con|]; cbn.
    + destruct (h _ (ensure_active_connection_for_device (get_uuid con) (get_iface d) true) w2)
        as [w3 b]. cbn.
      eexists _, _, _. split; [reflexivity|]. intros acc' [= <-]. by right.
    + eexists _, _, _. split; [reflexivity|]. intros acc' [= <-]. by left.
Qed.

Lemma exec_consolidate_loop_any (devices : list Device) :
  forall (acc : list string) (w : W),
    exists w1 t1 r1,
      exec h (for_each devices consolidate acc) w = (w1, t1, r1) /\
      forall l, r1 = Ok l ->
        exists ext,
          l = acc ++ ext /\
          omap ensured_iface t1 = map (fun i => (i, true)) ext /\
          ext `sublist_of` map get_iface devices.
Proof.
  induction devices as [|d rest IH]; intros acc w.
  - exists w, [], (Ok acc). split; [reflexivity|]. intros l [= <-].
    exists []. by rewrite app_nil_r.
  - cbn [for_each]. rewrite exec_then.
    destruct (exec_consolidate_any d acc w) as (w1 & t1 & r1 & -> & H1).
    destruct r1 as [acc1|e].
    2:{ eexists _, _, _. split; [reflexivity|]. intros l [=]. }
    destruct (IH acc1 w1) as (w2 & t2 & r2 & -> & H2).
    eexists _, _, _. split; [reflexivity|]. intros l ->.
    destruct (H2 l eq_refl) as (ext2 & -> & Hens2 & Hsub2).
    rewrite omap_app, Hens2.
    destruct (H1 acc1 eq_refl) as [[-> ->]|[-> ->]].
    + exists ext2. split; [reflexivity|]. split; [reflexivity|].
      cbn [map]. by apply sublist_cons.
    + exists (get_iface d :: ext2). rewrite <- app_assoc. split; [reflexivity|].
      split; [reflexivity|]. cbn [map]. by apply sublist_skip.
Qed.

(** Under any backend, a consolidation that returns has made exactly one
    ensure call per returned device, in the order of the list and with
    [only_replace=True], and no other ensure call; the returned names are
    names of the devices that [get_devices] listed, in that order. *)
Theorem consolidate_ensures_exactly_what_it_returns
  (w : W) (conf : Conf) (task : ConsolidateInitramfsConnectionsTask) :
  let '(_, t, r) := exec h (ConsolidateInitramfsConnectionsTask_run conf task) w in
  forall l, r = Ok l ->
    omap ensured_iface t = map (fun i => (i, true)) l /\
    l `sublist_of` map get_iface (snd (h _ get_devices w)).
Proof.
  unfold ConsolidateInitramfsConnectionsTask_run, guard_by_system_configuration.
  destruct (can_configure_network conf); cbn [negb].
  2:{ cbn. intros l [= <-]. split; [reflexivity|apply sublist_nil_l]. }
  destruct (ci_nm_client task); cbn [negb is_Some_bool].
  2:{ cbn. intros l [= <-]. split; [reflexivity|apply sublist_nil_l]. }
  rewrite exec_then, exec_call.
  destruct (exec_consolidate_loop_any (snd (h _ get_devices w)) [] (fst (h _ get_devices w)))
    as (w1 & t1 & r1 & -> & H1).
  intros l ->. destruct (H1 l eq_refl) as (ext & -> & Hens & Hsub).
  cbn. split; [exact Hens|exact Hsub].
Qed.

(** One directive of [ApplyKickstartTask.run], whatever the backend
    answers: the turn returns, appends at most the name that was found for the
    directive, makes no call for a wireless directive, and activates nothing
    for a directive without [--activate]. *)
Lemma exec_apply_kickstart_to (task : ApplyKickstartTask) (nd : NetworkData)
  (acc : list string) (w : W) :
  exists w1 t1 ext,
    exec h (apply_kickstart_to task nd acc) w = (w1, t1, Ok (acc ++ ext)) /\
    (wireless nd = true -> t1 = [] /\ ext = []) /\
    (ext = [] \/
     exists name,
       ext = [name] /\ wireless nd = false /\ name <> "" /\
       In (entry (get_device_name_from_network_data nd (ak_supported_devices task)
                    (ak_bootif task)) (Some name)) t1) /\
    (activate nd = false -> Forall (fun e => activates e = false) t1).
Proof.
  unfold apply_kickstart_to, wireless.
  destruct (nonempty (essid nd)) eqn:Hessid.
  { exists w, [], []. cbn. rewrite app_nil_r. repeat split; auto. }
  cbn -[truthy].
  destruct (h _ (get_device_name_from_network_data nd (ak_supported_devices task)
                   (ak_bootif task)) w) as [w1 found].
  destruct (truthy found) eqn:Hfound; cbn -[truthy].
  2:{ eexists _, _, []. rewrite app_nil_r. split; [reflexivity|].
      split; [discriminate|]. split; [by left|]. intros _. repeat constructor. }
  destruct found as [name|]; [|discriminate]. cbn.
  assert (Hname : name <> "") by (intros ->; discriminate).
  destruct (h _ (get_ifcfg_file_of_device name) w1) as [w2 [file|]]; cbn.
  - destruct (is_from_kickstart file); cbn.
    + destruct (activate nd) eqn:Hact; cbn.
      * destruct (h _ (ensure_active_connection_for_device (uuid file) name false) w2)
          as [w3 []]; cbn.
        -- eexists _, _, [name]. split; [reflexivity|]. split; [discriminate|].
           split; [|discriminate]. right. exists name. split; [reflexivity|]. split; [reflexivity|]. split; [exact Hname|]. by left.
        -- eexists _, _, []. rewrite app_nil_r. split; [reflexivity|].
           split; [discriminate|]. split; [by left|discriminate].
      * eexists _, _, []. rewrite app_nil_r. split; [reflexivity|].
        split; [discriminate|]. split; [by left|]. intros _. repeat constructor.
    + destruct (h _ (get_connection_by_uuid (uuid file)) w2) as [w3 connection].
      destruct (h _ (update_connection_from_ksdata connection nd name) w3) as [w4 []].
      destruct (activate nd) eqn:Hact; cbn.
      * destruct (h _ (get_device_by_iface (Some name)) w4) as [w5 device].
        destruct (h _ (activate_connection_async connection device) w5) as [w6 []]. cbn.
        eexists _, _, [name]. split; [reflexivity|]. split; [discriminate|].
        split; [|discriminate]. right. exists name. split; [reflexivity|]. split; [reflexivity|]. split; [exact Hname|]. by left.
      * eexists _, _, [name]. split; [reflexivity|]. split; [discriminate|].
        split; [right; exists name; split; [reflexivity|]; split; [reflexivity|]; split; [exact Hname|]; by left|].
        intros _. repeat constructor.
  - destruct (h _ (add_connection_from_ksdata nd name (activate nd)
                     (ak_ifname_option_values task)) w2) as [w3 []]. cbn.
    eexists _, _, [name]. split; [reflexivity|]. split; [discriminate|].
    split; [right; exists name; split; [reflexivity|]; split; [reflexivity|]; split; [exact Hname|]; by left|].
    intros Hact. repeat constructor. cbn. exact Hact.
Qed.

Lemma exec_apply_kickstart_loop (task : ApplyKickstartTask) (nds : list NetworkData) :
  forall (acc : list string) (w : W),
    exists w1 t1 ext,
      exec h (for_each nds (apply_kickstart_to task) acc) w = (w1, t1, Ok (acc ++ ext)) /\
      length ext <= length (List.filter (fun nd => negb (wireless nd)) nds) /\
      (forall name, In name ext ->
         name <> "" /\
         exists nd, In nd nds /\ wireless nd = false /\
           In (entry (get_device_name_from_network_data nd (ak_supported_devices task)
                        (ak_bootif task)) (Some name)) t1) /\
      ((forall nd, In nd nds -> wireless nd = true) -> t1 = []) /\
      ((forall nd, In nd nds -> activate nd = false) ->
       Forall (fun e => activates e = false) t1).
Proof.
  induction nds as [|nd rest IH]; intros acc w.
  - exists w, [], []. cbn. rewrite app_nil_r. split; [reflexivity|].
    split; [lia|]. split; [intros name []|]. split; [done|by constructor].
  - cbn [for_each]. rewrite exec_then.
    destruct (exec_apply_kickstart_to task nd acc w)
      as (w1 & t1 & ext1 & -> & Hw1 & Hext1 & Hact1).
    destruct (IH (acc ++ ext1) w1) as (w2 & t2 & ext2 & -> & Hlen2 & Hfrom2 & Hw2 & Hact2).
    exists w2, (t1 ++ t2), (ext1 ++ ext2). rewrite <- app_assoc.
    split; [reflexivity|]. split; [|split; [|split]].
    + rewrite length_app. cbn [List.filter].
      destruct Hext1 as [->|(name & -> & Hnw & _)].
      * cbn. destruct (negb (wireless nd)); cbn; lia.
      * rewrite Hnw. cbn. lia.
    + intros name [Hin|Hin]%in_app_or.
      * destruct Hext1 as [->|(name1 & -> & Hnw & Hne & Hentry)]; [destruct Hin|].
        destruct Hin as [<-|[]]. split; [exact Hne|].
        exists nd. split; [by left|]. split; [exact Hnw|]. apply in_or_app. by left.
      * destruct (Hfrom2 name Hin) as (Hne & nd2 & Hnd2 & Hnw & Hentry).
        split; [exact Hne|]. exists nd2. split; [by right|]. split; [exact Hnw|].
        apply in_or_app. by right.
    + intros Hall. destruct (Hw1 (Hall nd (or_introl eq_refl))) as [-> _].
      rewrite Hw2; [reflexivity|]. intros nd' Hnd'. apply Hall. by right.
    + intros Hall. apply Forall_app. split.
      * apply Hact1, Hall. by left.
      * apply Hact2. intros nd' Hnd'. apply Hall. by right.
Qed.

(** Under any backend, [ApplyKickstartTask.run] returns; it returns at most
    one name per directive that is not wireless, each name is not empty and is
    the one [get_device_name_from_network_data] found for such a directive of
    the data; data made of wireless directives only causes no call at all. *)
Theorem apply_kickstart_returns_the_names_it_found
  (w : W) (conf : Conf) (task : ApplyKickstartTask) :
  let '(_, t, r) := exec h (ApplyKickstartTask_run conf task) w in
  exists l,
    r = Ok l /\
    length l <= length (List.filter (fun nd => negb (wireless nd)) (ak_network_data task)) /\
    (forall name, In name l ->
       name <> "" /\
       exists nd, In nd (ak_network_data task) /\ wireless nd = false /\
         In (entry (get_device_name_from_network_data nd (ak_supported_devices task)
                      (ak_bootif task)) (Some name)) t) /\
    ((forall nd, In nd (ak_network_data task) -> wireless nd = true) -> t = []).
Proof.
  unfold ApplyKickstartTask_run, guard_by_system_configuration.
  assert (Hempty : let '(_, t, r) := exec h (Return (@nil string)) w in
            exists l, r = Ok l /\
              length l <= length (List.filter (fun nd => negb (wireless nd))
                                    (ak_network_data task)) /\
              (forall name, In name l ->
                 name <> "" /\
                 exists nd, In nd (ak_network_data task) /\ wireless nd = false /\
                   In (entry (get_device_name_from_network_data nd
                                (ak_supported_devices task) (ak_bootif task)) (Some name)) []) /\
              ((forall nd, In nd (ak_network_data task) -> wireless nd = true) ->
               @nil Entry = [])).
  { cbn. exists []. split; [reflexivity|]. split; [cbn; lia|]. split; [intros name []|done]. }
  destruct (can_configure_network conf); cbn [negb]; [|exact Hempty].
  destruct (nonnil (ak_network_data task)); cbn [negb]; [|exact Hempty].
  destruct (is_Some_bool (ak_nm_client task)); cbn [negb]; [|exact Hempty].
  destruct (exec_apply_kickstart_loop task (ak_network_data task) [] w)
    as (w1 & t1 & ext & -> & Hlen & Hfrom & Hw & _).
  exists ext. auto.
Qed.

(** Under any backend, kickstart data without [--activate] activates
    nothing: the run makes no [ensure_active_connection_for_device] and no
    [activate_connection_async] call, and adds connections only with
    [activate=False]. *)
Theorem apply_kickstart_without_activate_activates_nothing
  (w : W) (conf : Conf) (task : ApplyKickstartTask) :
  (forall nd, In nd (ak_network_data task) -> activate nd = false) ->
  let '(_, t, _) := exec h (ApplyKickstartTask_run conf task) w in
  Forall (fun e => activates e = false) t.
Proof.
  intros Hall. unfold ApplyKickstartTask_run, guard_by_system_configuration.
  destruct (can_configure_network conf); cbn [negb]; [|by constructor].
  destruct (nonnil (ak_network_data task)); cbn [negb]; [|by constructor].
  destruct (is_Some_bool (ak_nm_client task)); cbn [negb]; [|by constructor].
  destruct (exec_apply_kickstart_loop task (ak_network_data task) [] w)
    as (w1 & t1 & ext & -> & _ & _ & _ & Hact).
  by apply Hact.
Qed.

(** *** DumpMissingIfcfgFilesTask *)

Lemma recorded_in_incl (task : DumpMissingIfcfgFilesTask) (l l' : list string) (e : Entry) :
  incl l l' -> recorded_in task l e -> recorded_in task l' e.
Proof.
  intros Hincl. unfold recorded_in. destruct (entry_call e); try done.
  - intros [Hid Hin]. split; [exact Hid|]. by apply Hincl.
  - intros (Hnd & Hact & Hval & Hin). repeat split; try done. by apply Hincl.
Qed.

(** Update, commit, record: when it returns, the connection it committed
    carries the interface name as [id] and as [interface-name]. *)
Lemma exec_dump_connection (task : DumpMissingIfcfgFilesTask) (con : Connection)
  (iface : string) (acc : list string) (w : W) :
  exists w1 t1 r1,
    exec h (dump_connection task con iface acc) w = (w1, t1, r1) /\
    forall acc', r1 = Ok acc' ->
      acc' = acc ++ [iface] /\ Forall (recorded_in task [iface]) t1.
Proof.
  unfold dump_connection, _update_connection. cbn -[truthy].
  destruct (get_setting_wired con) as [mac|]; cbn -[truthy].
  2:{ eexists _, _, _. split; [reflexivity|]. intros acc' [=]. }
  destruct (h _ (bound_hwaddr_of_device iface (dm_ifname_option_values task)) w)
    as [w1 bound_mac].
  destruct (truthy bound_mac); cbn;
    match goal with
    | |- context [h _ (commit_changes ?c) w1] =>
        destruct (h _ (commit_changes c) w1) as [w2 []]
    end; cbn;
    (eexists _, _, _; split; [reflexivity|]; intros acc' [= <-];
     split; [reflexivity|]; repeat constructor).
Qed.

(** The selection asks for the active connection and nothing else. *)
Lemma exec_select (d : Device) (cons : list Connection) (w : W) :
  exists w1 ac selected,
    exec h (_select_persistent_connection_for_device d cons) w
    = (w1, [entry (get_active_connection d) ac], Ok selected).
Proof.
  unfold _select_persistent_connection_for_device. cbn.
  destruct (h _ (get_active_connection d) w) as [w1 [ac|]]; cbn.
  - destruct (bound_to (get_iface d) (get_connection ac)
              && con_in (get_connection ac) cons); by eexists _, _, _.
  - by eexists _, _, _.
Qed.

(** One turn of the loop of [DumpMissingIfcfgFilesTask.run], whatever the
    backend answers. *)
Lemma exec_dump_missing (types : list nat) (task : DumpMissingIfcfgFilesTask)
  (d : Device) (acc : list string) (w : W) :
  exists w1 t1 r1,
    exec h (dump_missing types task d acc) w = (w1, t1, r1) /\
    forall acc', r1 = Ok acc' ->
      exists ext,
        acc' = acc ++ ext /\
        (ext = [] \/
         ext = [get_iface d] /\ existsb (Nat.eqb (get_device_type d)) types = true) /\
        Forall (recorded_in task ext) t1.
Proof.
  unfold dump_missing.
  destruct (existsb (Nat.eqb (get_device_type d)) types) eqn:Htype; cbn [negb].
  2:{ exists w, [], (Ok acc). split; [reflexivity|]. intros acc' [= <-].
      exists []. rewrite app_nil_r. repeat split; auto. }
  cbn -[Nat.ltb Nat.eqb any_master dump_connection _select_persistent_connection_for_device].
  destruct (h _ (get_ifcfg_file_of_device (get_iface d)) w) as [w1 [file|]];
    cbn -[Nat.ltb Nat.eqb any_master dump_connection _select_persistent_connection_for_device].
  { eexists _, _, _. split; [reflexivity|]. intros acc' [= <-].
    exists []. rewrite app_nil_r. split; [reflexivity|]. split; [by left|].
    repeat constructor. }
  destruct (h _ (get_available_connections d) w1) as [w2 cons].
  destruct (Nat.eqb (length cons) 0) eqn:H0;
    cbn -[Nat.ltb Nat.eqb any_master dump_connection _select_persistent_connection_for_device].
  { destruct (h _ (add_connection_from_ksdata (dm_default_network_data task) (get_iface d)
                     false (dm_ifname_option_values task)) w2) as [w3 []]. cbn.
    eexists _, _, _. split; [reflexivity|]. intros acc' [= <-].
    exists [get_iface d]. split; [reflexivity|]. split; [by right|].
    repeat constructor. }
  destruct (Nat.eqb (length cons) 1) eqn:H1;
    cbn -[Nat.ltb any_master dump_connection _select_persistent_connection_for_device].
  { destruct (any_master cons);
      cbn -[dump_connection _select_persistent_connection_for_device].
    { eexists _, _, _. split; [reflexivity|]. intros acc' [= <-].
      exists []. rewrite app_nil_r. split; [reflexivity|]. split; [by left|].
      repeat constructor. }
    destruct cons as [|con cons']; [discriminate H0|].
    destruct (exec_dump_connection task con (get_iface d) acc w2)
      as (w3 & t3 & r3 & -> & H3).
    eexists _, _, _. split; [reflexivity|]. intros acc' ->.
    destruct (H3 acc' eq_refl) as [-> Hrec].
    exists [get_iface d]. split; [reflexivity|]. split; [by right|].
    repeat constructor. exact Hrec. }
  destruct (Nat.ltb 1 (length cons));
    cbn -[any_master dump_connection _select_persistent_connection_for_device].
  2:{ eexists _, _, _. split; [reflexivity|]. intros acc' [= <-].
      exists [get_iface d]. split; [reflexivity|]. split; [by right|].
      repeat constructor. }
  destruct (any_master cons);
    cbn -[dump_connection _select_persistent_connection_for_device].
  2:{ rewrite exec_then.
      destruct (exec_select d cons w2) as (w3 & ac & selected & ->).
      destruct selected as [con|].
      - destruct (exec_dump_connection task con (get_iface d) acc w3)
          as (w4 & t4 & r4 & -> & H4).
        destruct r4 as [acc4|e].
        + eexists _, _, _. split; [reflexivity|]. intros acc' [= <-].
          destruct (H4 acc4 eq_refl) as [-> Hrec].
          exists [get_iface d]. split; [reflexivity|]. split; [by right|].
          repeat constructor. exact Hrec.
        + eexists _, _, _. split; [reflexivity|]. intros acc' [=].
      - cbn. eexists _, _, _. split; [reflexivity|]. intros acc' [= <-].
        exists []. rewrite app_nil_r. split; [reflexivity|]. split; [by left|].
        repeat constructor. }
  eexists _, _, _. split; [reflexivity|]. intros acc' [= <-].
  exists [get_iface d]. split; [reflexivity|]. split; [by right|].
  repeat constructor.
Qed.

Lemma exec_dump_missing_loop (types : list nat) (task : DumpMissingIfcfgFilesTask)
  (devices : list Device) :
  forall (acc : list string) (w : W),
    exists w1 t1 r1,
      exec h (for_each devices (dump_missing types task) acc) w = (w1, t1, r1) /\
      forall l, r1 = Ok l ->
        exists ext,
          l = acc ++ ext /\
          Forall (recorded_in task ext) t1 /\
          ext `sublist_of`
            map get_iface
              (List.filter (fun d => existsb (Nat.eqb (get_device_type d)) types) devices).
Proof.
  induction devices as [|d rest IH]; intros acc w.
  - exists w, [], (Ok acc). split; [reflexivity|]. intros l [= <-].
    exists []. rewrite app_nil_r. repeat split; constructor.
  - cbn [for_each]. rewrite exec_then.
    destruct (exec_dump_missing types task d acc w) as (w1 & t1 & r1 & -> & H1).
    destruct r1 as [acc1|e].
    2:{ eexists _, _, _. split; [reflexivity|]. intros l [=]. }
    destruct (H1 acc1 eq_refl) as (ext1 & -> & Hext1 & Hrec1).
    destruct (IH (acc ++ ext1) w1) as (w2 & t2 & r2 & -> & H2).
    eexists _, _, _. split; [reflexivity|]. intros l ->.
    destruct (H2 l eq_refl) as (ext2 & -> & Hrec2 & Hsub2).
    exists (ext1 ++ ext2). rewrite <- app_assoc. split; [reflexivity|]. split.
    + apply Forall_app. split.
      * eapply Forall_impl; [exact Hrec1|]. intros e. apply recorded_in_incl.
        intros x Hx. apply in_or_app. by left.
      * eapply Forall_impl; [exact Hrec2|]. intros e. apply recorded_in_incl.
        intros x Hx. apply in_or_app. by right.
    + cbn [List.filter]. destruct Hext1 as [->|[-> Htype]].
      * cbn [app]. destruct (existsb _ types); [|exact Hsub2].
        cbn [map]. by apply sublist_cons.
      * rewrite Htype. cbn. by apply sublist_skip.
Qed.

(** Under any backend, when [DumpMissingIfcfgFilesTask.run] returns, every
    persistent record it wrote is for a returned device: a connection it added
    is the default one, added with [activate=False] under the device's name,
    and a connection it committed has its [id] and its [interface-name] set to
    the device's name.  The returned names are names of devices of a supported
    wired type that [get_devices] listed, in that order. *)
Theorem dump_missing_records_only_returned_devices
  (w : W) (conf : Conf) (types : list nat) (task : DumpMissingIfcfgFilesTask) :
  let '(_, t, r) := exec h (DumpMissingIfcfgFilesTask_run conf types task) w in
  forall l, r = Ok l ->
    Forall (recorded_in task l) t /\
    l `sublist_of`
      map get_iface
        (List.filter (fun d => existsb (Nat.eqb (get_device_type d)) types)
           (snd (h _ get_devices w))).
Proof.
  unfold DumpMissingIfcfgFilesTask_run, guard_by_system_configuration.
  destruct (can_configure_network conf); cbn [negb].
  2:{ cbn. intros l [= <-]. split; [constructor|apply sublist_nil_l]. }
  destruct (dm_nm_client task); cbn [negb is_Some_bool].
  2:{ cbn. intros l [= <-]. split; [constructor|apply sublist_nil_l]. }
  rewrite exec_then, exec_call.
  destruct (exec_dump_missing_loop types task (snd (h _ get_devices w)) []
              (fst (h _ get_devices w))) as (w1 & t1 & r1 & -> & H1).
  intros l ->. destruct (H1 l eq_refl) as (ext & -> & Hrec & Hsub).
  cbn [app]. split; [|exact Hsub]. constructor; [exact I|exact Hrec].
Qed.

(** *** SetRealOnbootValuesFromKickstartTask *)

(** One device to update: no slaves are reported, and with [onboot] set the
    connection settings are not written. *)
Lemma exec_update_onboot_calls (nd : NetworkData) (devname : option string)
  (acc : list (option string)) (w : W) :
  exists w1 t1 ext,
    exec h (update_onboot nd devname acc) w = (w1, t1, Ok (acc ++ ext)) /\
    Forall (fun e => reported_slaves e = []) t1 /\
    (onboot nd = true -> Forall (fun e => sets_autoconnect e = false) t1).
Proof.
  unfold update_onboot, update_ifcfg_onboot.
  destruct (onboot nd) eqn:Hon; cbn -[Z.eqb Z.ltb].
  - destruct (h _ (find_ifcfg_uuid_of_device devname) w) as [w1 found].
    destruct (h _ (update_onboot_value (str_or found "") true) w1) as [w2 []]; cbn.
    + eexists _, _, [devname]. split; [reflexivity|]. split; [|intros _]; repeat constructor.
    + eexists _, _, []. rewrite app_nil_r. split; [reflexivity|].
      split; [|intros _]; repeat constructor.
  - destruct (h _ (update_iface_setting_values devname false) w) as [w1 n].
    destruct (Z.eqb n 1); cbn -[Z.ltb].
    { eexists _, _, [devname]. split; [reflexivity|]. split; [|discriminate].
      repeat constructor. }
    destruct (Z.ltb 1 n); cbn.
    2:{ eexists _, _, [devname]. split; [reflexivity|]. split; [|discriminate].
        repeat constructor. }
    destruct (h _ (find_ifcfg_uuid_of_device devname) w1) as [w2 found].
    destruct (h _ (update_onboot_value (str_or found "") false) w2) as [w3 []]; cbn.
    + eexists _, _, [devname]. split; [reflexivity|]. split; [|discriminate].
      repeat constructor.
    + eexists _, _, []. rewrite app_nil_r. split; [reflexivity|]. split; [|discriminate].
      repeat constructor.
Qed.

Lemma exec_update_onboot_loop_calls (nd : NetworkData) (devices : list (option string)) :
  forall (acc : list (option string)) (w : W),
    exists w1 t1 ext,
      exec h (for_each devices (update_onboot nd) acc) w = (w1, t1, Ok (acc ++ ext)) /\
      Forall (fun e => reported_slaves e = []) t1 /\
      (onboot nd = true -> Forall (fun e => sets_autoconnect e = false) t1).
Proof.
  induction devices as [|d rest IH]; intros acc w.
  - exists w, [], []. cbn. rewrite app_nil_r. split; [reflexivity|].
    split; [|intros _]; constructor.
  - cbn [for_each]. rewrite exec_then.
    destruct (exec_update_onboot_calls nd d acc w) as (w1 & t1 & ext1 & -> & Hs1 & Ha1).
    destruct (IH (acc ++ ext1) w1) as (w2 & t2 & ext2 & -> & Hs2 & Ha2).
    exists w2, (t1 ++ t2), (ext1 ++ ext2). rewrite <- app_assoc.
    split; [reflexivity|]. split.
    + by apply Forall_app.
    + intros Hon. apply Forall_app. split; auto.
Qed.

(** The slaves part: what [update_slaves_onboot_value] reports is appended;
    the connection settings are not written. *)
Lemma exec_update_slaves_calls (nd : NetworkData) (master : option string)
  (acc : list (option string)) (w : W) :
  exists w1 t1 ext,
    exec h (update_slaves nd master acc) w = (w1, t1, Ok (acc ++ ext)) /\
    Forall (fun e => incl (reported_slaves e) ext) t1 /\
    Forall (fun e => sets_autoconnect e = false) t1.
Proof.
  unfold update_slaves.
  destruct (nonempty (bondslaves nd) || nonnil (teamslaves nd) || nonempty (bridgeslaves nd)).
  2:{ exists w, [], []. cbn. rewrite app_nil_r. repeat split; constructor. }
  cbn. destruct (h _ (get_device_by_iface master) w) as [w1 [dev|]]; cbn.
  - destruct (h _ (get_available_connections dev) w1) as [w2 cons].
    destruct cons as [|con [|con' cons]]; cbn;
      destruct (h _ (update_slaves_onboot_value master (onboot nd) _) w2) as [w3 slaves];
      (eexists _, _, slaves; split; [reflexivity|]; split; repeat constructor;
       try (intros x []); try apply incl_refl).
  - destruct (h _ (update_slaves_onboot_value master (onboot nd) None) w1) as [w3 slaves].
    eexists _, _, slaves. split; [reflexivity|]. split; repeat constructor;
      try (intros x []); try apply incl_refl.
Qed.

Lemma exec_set_real_onboot_calls (task : SetRealOnbootValuesFromKickstartTask)
  (nd : NetworkData) (acc : list (option string)) (w : W) :
  exists w1 t1 ext,
    exec h (set_real_onboot task nd acc) w = (w1, t1, Ok (acc ++ ext)) /\
    Forall (fun e => incl (reported_slaves e) ext) t1 /\
    (onboot nd = true -> Forall (fun e => sets_autoconnect e = false) t1).
Proof.
  unfold set_real_onboot. rewrite exec_then, exec_call.
  set (c := get_device_name_from_network_data nd (so_supported_devices task) (so_bootif task)).
  destruct (devices_to_update nd (snd (h _ c w))) as [devices master].
  rewrite exec_then.
  destruct (exec_update_onboot_loop_calls nd devices acc (fst (h _ c w)))
    as (w1 & t1 & ext1 & -> & Hs1 & Ha1).
  destruct (exec_update_slaves_calls nd master (acc ++ ext1) w1)
    as (w2 & t2 & ext2 & -> & Hs2 & Ha2).
  exists w2, ([entry c (snd (h _ c w))] ++ t1 ++ t2), (ext1 ++ ext2).
  rewrite <- app_assoc. split; [reflexivity|]. split.
  - apply Forall_app. split; [repeat constructor; intros x []|].
    apply Forall_app. split.
    + eapply Forall_impl; [exact Hs1|]. intros e ->. intros x [].
    + eapply Forall_impl; [exact Hs2|]. intros e He x Hx. apply in_or_app. right. by apply He.
  - intros Hon. apply Forall_app. split; [repeat constructor|].
    apply Forall_app. split; auto.
Qed.

Lemma exec_set_real_onboot_loop_calls (task : SetRealOnbootValuesFromKickstartTask)
  (nds : list NetworkData) :
  forall (acc : list (option string)) (w : W),
    exists w1 t1 ext,
      exec h (for_each nds (set_real_onboot task) acc) w = (w1, t1, Ok (acc ++ ext)) /\
      Forall (fun e => incl (reported_slaves e) ext) t1 /\
      ((forall nd, In nd nds -> onboot nd = true) ->
       Forall (fun e => sets_autoconnect e = false) t1).
Proof.
  induction nds as [|nd rest IH]; intros acc w.
  - exists w, [], []. cbn. rewrite app_nil_r. split; [reflexivity|].
    split; [|intros _]; constructor.
  - cbn [for_each]. rewrite exec_then.
    destruct (exec_set_real_onboot_calls task nd acc w) as (w1 & t1 & ext1 & -> & Hs1 & Ha1).
    destruct (IH (acc ++ ext1) w1) as (w2 & t2 & ext2 & -> & Hs2 & Ha2).
    exists w2, (t1 ++ t2), (ext1 ++ ext2). rewrite <- app_assoc.
    split; [reflexivity|]. split.
    + apply Forall_app. split.
      * eapply Forall_impl; [exact Hs1|]. intros e He x Hx. apply in_or_app. left. by apply He.
      * eapply Forall_impl; [exact Hs2|]. intros e He x Hx. apply in_or_app. right. by apply He.
    + intros Hon. apply Forall_app. split.
      * apply Ha1, Hon. by left.
      * apply Ha2. intros nd' Hnd'. apply Hon. by right.
Qed.

(** Under any backend, [SetRealOnbootValuesFromKickstartTask.run] returns,
    and every slave that an [update_slaves_onboot_value] call reported is in
    the returned list. *)
Theorem set_real_onboot_returns_the_reported_slaves
  (w : W) (conf : Conf) (task : SetRealOnbootValuesFromKickstartTask) :
  let '(_, t, r) := exec h (SetRealOnbootValuesFromKickstartTask_run conf task) w in
  exists l, r = Ok l /\ Forall (fun e => incl (reported_slaves e) l) t.
Proof.
  unfold SetRealOnbootValuesFromKickstartTask_run, guard_by_system_configuration.
  destruct (can_configure_network conf); cbn [negb]; [|by exists []].
  destruct (is_Some_bool (so_nm_client task)); cbn [negb]; [|by exists []].
  destruct (nonnil (so_network_data task)); cbn [negb]; [|by exists []].
  destruct (exec_set_real_onboot_loop_calls task (so_network_data task) [] w)
    as (w1 & t1 & ext & -> & Hs & _).
  by exists ext.
Qed.

(** Under any backend, directives that all turn [onboot] on are applied
    through the ifcfg files only: the run never writes the [autoconnect]
    setting of a connection (which would activate the device). *)
Theorem set_real_onboot_yes_never_writes_autoconnect
  (w : W) (conf : Conf) (task : SetRealOnbootValuesFromKickstartTask) :
  (forall nd, In nd (so_network_data task) -> onboot nd = true) ->
  let '(_, t, _) := exec h (SetRealOnbootValuesFromKickstartTask_run conf task) w in
  Forall (fun e => sets_autoconnect e = false) t.
Proof.
  intros Hon.
  unfold SetRealOnbootValuesFromKickstartTask_run, guard_by_system_configuration.
  destruct (can_configure_network conf); cbn [negb]; [|by constructor].
  destruct (is_Some_bool (so_nm_client task)); cbn [negb]; [|by constructor].
  destruct (nonnil (so_network_data task)); cbn [negb]; [|by constructor].
  destruct (exec_set_real_onboot_loop_calls task (so_network_data task) [] w)
    as (w1 & t1 & ext & -> & _ & Ha).
  by apply Ha.
Qed.

End AnyBackend.

Lemma consolidate_ensures_witness :
  let task := {| ci_nm_client := Some NM_Client |} in
  let '(_, t, r) := exec three_devices (ConsolidateInitramfsConnectionsTask_run enabled task) tt in
  r = Ok ["eth0"] /\
  omap ensured_iface t = map (fun i => (i, true)) ["eth0"] /\
  ["eth0"] `sublist_of` map get_iface (snd (three_devices _ get_devices tt)).
Proof.
  split; [reflexivity|].
  exact (consolidate_ensures_exactly_what_it_returns three_devices tt enabled
           {| ci_nm_client := Some NM_Client |} ["eth0"] eq_refl).
Defined.

Lemma dump_missing_records_witness :
  let task := {| dm_nm_client := Some NM_Client;
                 dm_default_network_data := default_network_data;
                 dm_ifname_option_values := [] |} in
  let '(_, t, r) := exec (one_device [unbound 2 "uuid-2" None])
                      (DumpMissingIfcfgFilesTask_run enabled [ethernet] task) tt in
  r = Ok ["eth0"] /\
  Forall (recorded_in task ["eth0"]) t /\
  ["eth0"] `sublist_of` map get_iface
     (List.filter (fun d => existsb (Nat.eqb (get_device_type d)) [ethernet])
        (snd (one_device [unbound 2 "uuid-2" None] _ get_devices tt))).
Proof.
  split; [reflexivity|].
  exact (dump_missing_records_only_returned_devices (one_device [unbound 2 "uuid-2" None])
           tt enabled [ethernet]
           {| dm_nm_client := Some NM_Client;
              dm_default_network_data := default_network_data;
              dm_ifname_option_values := [] |} ["eth0"] eq_refl).
Defined.

Lemma apply_kickstart_without_activate_witness :
  let task := {| ak_nm_client := Some NM_Client; ak_network_data := [bond0_vlan222];
                 ak_supported_devices := ["ens9"; "ens10"]; ak_bootif := None;
                 ak_ifname_option_values := [] |} in
  (forall nd, In nd (ak_network_data task) -> activate nd = false) /\
  (let '(_, t, _) := exec (one_device []) (ApplyKickstartTask_run enabled task) tt in
   t <> [] /\ Forall (fun e => activates e = false) t).
Proof.
  assert (Hall : forall nd, In nd [bond0_vlan222] -> activate nd = false)
    by (intros nd [<-|[]]; reflexivity).
  split; [exact Hall|].
  split; [discriminate|].
  exact (apply_kickstart_without_activate_activates_nothing (one_device []) tt enabled
           {| ak_nm_client := Some NM_Client; ak_network_data := [bond0_vlan222];
              ak_supported_devices := ["ens9"; "ens10"]; ak_bootif := None;
              ak_ifname_option_values := [] |} Hall).
Defined.

Lemma set_real_onboot_yes_witness :
  let task := {| so_nm_client := Some NM_Client; so_network_data := [bond0_vlan222];
                 so_supported_devices := ["ens9"; "ens10"]; so_bootif := None;
                 so_ifname_option_values := [] |} in
  (forall nd, In nd (so_network_data task) -> onboot nd = true) /\
  (let '(_, t, _) := exec (one_device [])
                       (SetRealOnbootValuesFromKickstartTask_run enabled task) tt in
   t <> [] /\ Forall (fun e => sets_autoconnect e = false) t).
Proof.
  assert (Hon : forall nd, In nd [bond0_vlan222] -> onboot nd = true)
    by (intros nd [<-|[]]; reflexivity).
  split; [exact Hon|].
  split; [discriminate|].
  exact (set_real_onboot_yes_never_writes_autoconnect (one_device []) tt enabled
           {| so_nm_client := Some NM_Client; so_network_data := [bond0_vlan222];
              so_supported_devices := ["ens9"; "ens10"]; so_bootif := None;
              so_ifname_option_values := [] |} Hon).
Defined.

End NetworkMore.

(** ** The addons *)

Module AddonsFacts.
Import Addons.

Lemma string_app_nil_r (s : string) : (s ++ "")%string = s.
Proof.
  induction s as [|c s IH]; [done|].
  change (String c (s ++ "") = String c s). by rewrite IH.
Qed.

Lemma string_app_assoc (a b c : string) :
  ((a ++ b) ++ c)%string = (a ++ b ++ c)%string.
Proof.
  induction a as [|x a IH]; [done|].
  change (String x ((a ++ b) ++ c) = String x (a ++ b ++ c)). by rewrite IH.
Qed.

Lemma concat_nosep_cons (x : string) (xs : list string) :
  String.concat "" (x :: xs) = (x ++ String.concat "" xs)%string.
Proof. destruct xs; [symmetry; apply string_app_nil_r | reflexivity]. Qed.

Lemma handle_header_spec (lineno : nat) (args : list string) (a : AddonData) :
  AddonData_handle_header lineno args a =
  {| name := name a; content := content a;
     header_args := (header_args a ++ String.concat " " args)%string |}.
Proof.
  destruct args; [|done]. cbn. rewrite string_app_nil_r. by destruct a.
Qed.

Section Objects.
Context `{AddonClasses}.

(** On an [AddonData] the lines of a section are appended to [content]. *)
Lemma lines_on_plain (lines : list string) (a : AddonData) :
  lines_on_addon lines (plain a)
  = (plain {| name := name a; content := (content a ++ String.concat "" lines)%string;
              header_args := header_args a |}, Ok tt).
Proof.
  revert a; induction lines as [|l lines IH]; intros a.
  - cbn. rewrite string_app_nil_r. by destruct a.
  - cbn [lines_on_addon]. unfold bind. cbn [handle_line]. rewrite IH.
    rewrite concat_nosep_cons. cbn. by rewrite string_app_assoc.
Qed.

(** On an [AddonData] the methods of a section never raise. *)
Lemma section_on_plain (lineno : nat) (args lines : list string) (a : AddonData) :
  section_on_addon lineno args lines (plain a)
  = (plain {| name := name a; content := (content a ++ String.concat "" lines)%string;
              header_args := (header_args a ++ String.concat " " (skipn 2 args))%string |},
     Ok tt).
Proof.
  unfold section_on_addon, bind. cbn [handle_header].
  rewrite lines_on_plain, handle_header_spec. reflexivity.
Qed.

Lemma lookup_store_key_eq (k : string) (v : Addon) (d : list (string * Addon)) :
  lookup_key k (store_key k v d) = Some v.
Proof.
  unfold lookup_key. induction d as [|[k0 v0] d IH]; cbn.
  - by rewrite String.eqb_refl.
  - destruct (String.eqb k0 k) eqn:E; cbn; rewrite E; [done | exact IH].
Qed.

Lemma lookup_store_key_ne (k k' : string) (v : Addon) (d : list (string * Addon)) :
  k' <> k -> lookup_key k' (store_key k v d) = lookup_key k' d.
Proof.
  intros Hne. unfold lookup_key. induction d as [|[k0 v0] d IH]; cbn.
  - destruct (String.eqb_spec k k'); [congruence | done].
  - destruct (String.eqb_spec k0 k) as [->|Hk]; cbn.
    + destruct (String.eqb_spec k k'); [congruence | done].
    + destruct (String.eqb k0 k'); [done | exact IH].
Qed.

Lemma store_key_twice (k : string) (v1 v2 : Addon) (d : list (string * Addon)) :
  store_key k v2 (store_key k v1 d) = store_key k v2 d.
Proof.
  induction d as [|[k0 v0] d IH]; cbn.
  - by rewrite String.eqb_refl.
  - destruct (String.eqb k0 k) eqn:E; cbn; rewrite E; [done | by rewrite IH].
Qed.

Lemma store_key_keys (k : string) (v : Addon) (d : list (string * Addon)) :
  is_Some (lookup_key k d) -> map fst (store_key k v d) = map fst d.
Proof.
  unfold lookup_key. induction d as [|[k0 v0] d IH]; cbn.
  - by intros [? ?].
  - destruct (String.eqb k0 k) eqn:E; cbn; [done|].
    intros Hs. by rewrite IH.
Qed.

Lemma without_placeholders_store_new (k : string) (v : Addon)
  (d : list (string * Addon)) :
  lookup_key k d = None -> addon_name v = PLACEHOLDER_NAME ->
  without_placeholders (store_key k v d) = without_placeholders d.
Proof.
  intros Hnone Hname. unfold lookup_key in Hnone. unfold without_placeholders.
  induction d as [|[k0 v0] d IH]; cbn in *.
  - by rewrite Hname.
  - destruct (String.eqb k0 k) eqn:E; cbn in *; [done|].
    by rewrite IH.
Qed.

Lemma lookup_key_None (k : string) (d : list (string * Addon)) :
  lookup_key k d = None <-> ~ In k (map fst d).
Proof.
  unfold lookup_key. induction d as [|[k0 v0] d IH]; cbn.
  - tauto.
  - destruct (String.eqb_spec k0 k) as [->|Hne]; cbn.
    + split; [done|]. intros Hn. destruct Hn. by left.
    + rewrite IH. tauto.
Qed.

Lemma store_key_new (k : string) (v : Addon) (d : list (string * Addon)) :
  lookup_key k d = None -> store_key k v d = d ++ [(k, v)].
Proof.
  unfold lookup_key. induction d as [|[k0 v0] d IH]; cbn; [done|].
  destruct (String.eqb k0 k); cbn; [done|]. intros Hn. by rewrite IH.
Qed.

Lemma setup_loop_spec (d acc : list (string * Addon)) :
  NoDup (map fst (acc ++ d)) ->
  fold_left (fun d kv =>
               if negb (String.eqb (addon_name (snd kv)) PLACEHOLDER_NAME)
               then store_key (fst kv) (snd kv) d
               else d) d acc
  = acc ++ without_placeholders d.
Proof.
  unfold without_placeholders.
  revert acc; induction d as [|[k v] d IH]; intros acc Hnd.
  - cbn. by rewrite app_nil_r.
  - cbn [fold_left List.filter fst snd].
    rewrite map_app in Hnd. cbn [map fst] in Hnd.
    destruct (negb (String.eqb (addon_name v) PLACEHOLDER_NAME)).
    + rewrite store_key_new.
      * rewrite IH; [by rewrite <- app_assoc|].
        by rewrite <- app_assoc, map_app.
      * apply lookup_key_None. intros Hin.
        apply NoDup_app in Hnd as (_ & Hdis & _).
        apply (Hdis k); [by apply list_elem_of_In | by left].
    + apply IH. rewrite map_app.
      apply NoDup_app in Hnd as (Ha & Hdis & Hd).
      apply NoDup_app. split; [done|]. split.
      * intros x Hx Hx'. apply (Hdis x Hx). by right.
      * by apply NoDup_cons in Hd as [_ Hd].
Qed.

Lemma setup_dict_spec (d : list (string * Addon)) :
  is_dict d -> setup_dict d = without_placeholders d.
Proof. intros Hd. unfold setup_dict. by rewrite setup_loop_spec. Qed.

Lemma is_dict_store_key (k : string) (v : Addon) (d : list (string * Addon)) :
  is_dict d -> is_dict (store_key k v d).
Proof.
  unfold is_dict. intros Hd.
  destruct (lookup_key k d) as [a|] eqn:Hl.
  - rewrite store_key_keys; [done | by rewrite Hl].
  - rewrite store_key_new, map_app by done. apply NoDup_app.
    split; [done|]. split; [|apply NoDup_singleton].
    intros x Hx Hx'. apply list_elem_of_In in Hx' as [<-|[]].
    apply lookup_key_None in Hl. apply Hl. by apply list_elem_of_In.
Qed.

Section Registry.
Variable kind_of : string -> AttrKind.

Lemma getattr_stored (k : string) (v : Addon) (d : list (string * Addon)) :
  kind_of k <> data_descriptor ->
  getattr kind_of (store_key k v d) k = Ok (an_addon v).
Proof.
  intros Hk. unfold getattr. rewrite lookup_store_key_eq. by destruct (kind_of k).
Qed.

Lemma getattr_raises (d : list (string * Addon)) (id : string) (e : Exc) :
  getattr kind_of d id = Raise e ->
  e = AttributeError /\ kind_of id = no_class_attribute /\ lookup_key id d = None.
Proof.
  unfold getattr. destruct (kind_of id), (lookup_key id d); try done.
  by intros [= <-].
Qed.

Lemma getattr_addon (d : list (string * Addon)) (id : string) (a : Addon) :
  getattr kind_of d id = Ok (an_addon a) ->
  kind_of id <> data_descriptor /\ lookup_key id d = Some a.
Proof.
  unfold getattr. destruct (kind_of id), (lookup_key id d); try done;
    by intros [= <-].
Qed.

(** A method call on the addon that [getattr] finds: the object is changed
    in place, and the call raises what the method raises. *)
Lemma on_addon_found (key : string) (method : M Addon unit) (a : Addon)
  (d : list (string * Addon)) (s : AddonSection) :
  handler s = Some d -> getattr kind_of d key = Ok (an_addon a) ->
  on_addon kind_of key method s
  = (set_addons (store_key key (fst (method a)) d) s, snd (method a)).
Proof.
  intros Hh Hg. unfold on_addon, bind, handler_addons. rewrite Hh, Hg.
  by destruct (method a).
Qed.

Lemma on_addon_fails (key : string) (method : M Addon unit) (s : AddonSection) :
  (forall d a, handler s = Some d -> getattr kind_of d key <> Ok (an_addon a)) ->
  on_addon kind_of key method s = (s, Raise AttributeError).
Proof.
  intros Hno. unfold on_addon, bind, handler_addons.
  destruct (handler s) as [d|] eqn:Hh; [|done].
  specialize (Hno d). unfold getattr in *.
  destruct (kind_of key), (lookup_key key d); try done; by destruct (Hno a).
Qed.

(** [handleHeader] on a section that has a handler, by what [getattr] finds
    under the id. *)
Lemma handleHeader_spec (lineno : nat) (args : list string) (id : string)
  (d : list (string * Addon)) (s : AddonSection) :
  nth_error args 1 = Some id -> handler s = Some d ->
  handleHeader kind_of lineno args s
  = match getattr kind_of d id with
    | Ok (an_addon a) =>
        ({| handler := Some (store_key id (fst (handle_header lineno (skipn 2 args) a)) d);
            addon_id := Some id |},
         snd (handle_header lineno (skipn 2 args) a))
    | Ok not_an_addon => (set_addon_id id s, Raise AttributeError)
    | Raise _ =>
        if nonempty id then
          ({| handler :=
                Some (store_key id
                        (plain (AddonData_handle_header lineno (skipn 2 args)
                                  (AddonData_init PLACEHOLDER_NAME))) d);
              addon_id := Some id |}, Ok tt)
        else (set_addon_id id s, Raise AttributeError)
    end.
Proof.
  intros Hid Hh. unfold handleHeader. rewrite Hid.
  unfold bind at 1. cbn [modify].
  assert (Hs : handler (set_addon_id id s) = Some d) by done.
  destruct (getattr kind_of d id) as [[a|]|e] eqn:Hg.
  - unfold bind at 1.
    assert (Hfirst :
      (if nonempty id then
         bind handler_addons
           (fun d => if negb (hasattr kind_of d id)
                     then modify (set_addons
                            (store_key id (plain (AddonData_init PLACEHOLDER_NAME)) d))
                     else ret tt)
       else ret tt) (set_addon_id id s) = (set_addon_id id s, Ok tt)).
    { destruct (nonempty id); [|done].
      unfold bind, handler_addons. rewrite Hs. unfold hasattr. by rewrite Hg. }
    rewrite Hfirst. by rewrite (on_addon_found _ _ a d).
  - unfold bind at 1.
    assert (Hfirst :
      (if nonempty id then
         bind handler_addons
           (fun d => if negb (hasattr kind_of d id)
                     then modify (set_addons
                            (store_key id (plain (AddonData_init PLACEHOLDER_NAME)) d))
                     else ret tt)
       else ret tt) (set_addon_id id s) = (set_addon_id id s, Ok tt)).
    { destruct (nonempty id); [|done].
      unfold bind, handler_addons. rewrite Hs. unfold hasattr. by rewrite Hg. }
    rewrite Hfirst. apply on_addon_fails.
    intros d0 a. rewrite Hs. intros [= <-]. by rewrite Hg.
  - destruct (getattr_raises _ _ _ Hg) as (-> & Hk & Hl).
    destruct (nonempty id) eqn:Hne.
    + unfold bind at 1. unfold bind at 1. unfold handler_addons at 1. rewrite Hs.
      unfold hasattr. rewrite Hg. cbn [negb modify].
      rewrite (on_addon_found _ _ (plain (AddonData_init PLACEHOLDER_NAME))
                 (store_key id (plain (AddonData_init PLACEHOLDER_NAME)) d));
        [|done|by apply getattr_stored; rewrite Hk].
      cbn [handle_header fst snd]. by rewrite store_key_twice.
    + unfold bind at 1. cbn [ret].
      apply on_addon_fails. intros d0 a. rewrite Hs. intros [= <-]. by rewrite Hg.
Qed.

(** The section when its addon is stored under its id. *)
Lemma on_addon_stored (id : string) (method : M Addon unit) (a : Addon)
  (d : list (string * Addon)) :
  kind_of id <> data_descriptor ->
  on_addon kind_of id method {| handler := Some (store_key id a d); addon_id := Some id |}
  = ({| handler := Some (store_key id (fst (method a)) d); addon_id := Some id |},
     snd (method a)).
Proof.
  intros Hk.
  rewrite (on_addon_found _ _ a (store_key id a d)); [|done|by apply getattr_stored].
  by rewrite store_key_twice.
Qed.

Lemma handleLine_stored (id line : string) (a : Addon) (d : list (string * Addon)) :
  kind_of id <> data_descriptor -> nonempty id = true ->
  handleLine kind_of line {| handler := Some (store_key id a d); addon_id := Some id |}
  = ({| handler := Some (store_key id (fst (handle_line line a)) d); addon_id := Some id |},
     snd (handle_line line a)).
Proof.
  intros Hk Hid. destruct id as [|c id]; [discriminate|].
  unfold handleLine, bind, gets. cbn [handler addon_id is_Some_bool negb truthy default].
  by apply on_addon_stored.
Qed.

Lemma handleLines_stored (id : string) (lines : list string) (a : Addon)
  (d : list (string * Addon)) :
  kind_of id <> data_descriptor -> nonempty id = true ->
  handleLines kind_of lines {| handler := Some (store_key id a d); addon_id := Some id |}
  = ({| handler := Some (store_key id (fst (lines_on_addon lines a)) d);
        addon_id := Some id |},
     snd (lines_on_addon lines a)).
Proof.
  intros Hk Hid. revert a; induction lines as [|l lines IH]; intros a; [done|].
  cbn [handleLines lines_on_addon]. unfold bind.
  rewrite handleLine_stored by done.
  destruct (handle_line l a) as [a1 [[]|e]]; cbn [fst snd]; [apply IH | done].
Qed.

Lemma finalize_stored (id : string) (a : Addon) (d : list (string * Addon)) :
  kind_of id <> data_descriptor ->
  finalize kind_of {| handler := Some (store_key id a d); addon_id := Some id |}
  = ({| handler := Some (store_key id (fst (addon_finalize a)) d); addon_id := Some id |},
     snd (addon_finalize a)).
Proof.
  intros Hk. unfold finalize, bind, handler_addons, gets. cbn [handler addon_id].
  by apply on_addon_stored.
Qed.

Lemma handleHeader_stored (lineno : nat) (args : list string) (id : string)
  (d : list (string * Addon)) (s : AddonSection) :
  handler s = Some d -> nth_error args 1 = Some id -> nonempty id = true ->
  kind_of id <> data_descriptor ->
  (lookup_key id d = None -> kind_of id = no_class_attribute) ->
  let a := default (plain (AddonData_init PLACEHOLDER_NAME)) (lookup_key id d) in
  handleHeader kind_of lineno args s
  = ({| handler := Some (store_key id (fst (handle_header lineno (skipn 2 args) a)) d);
        addon_id := Some id |},
     snd (handle_header lineno (skipn 2 args) a)).
Proof.
  intros Hh Hid Hne Hk Hkind a. rewrite (handleHeader_spec lineno args id d s Hid Hh).
  subst a. destruct (lookup_key id d) as [a0|] eqn:Hl; cbn [default].
  - assert (Hg : getattr kind_of d id = Ok (an_addon a0))
      by (unfold getattr; rewrite Hl; by destruct (kind_of id)).
    by rewrite Hg.
  - assert (Hg : getattr kind_of d id = Raise AttributeError)
      by (unfold getattr; rewrite Hl, (Hkind eq_refl); done).
    by rewrite Hg, Hne.
Qed.

(** A section on a registry that knows the addon, or does not and cannot
    mistake the id for an attribute of the class: the methods of the addon
    run on the object, and the result is stored under the id. *)
Lemma handle_section_stored (lineno : nat) (args lines : list string) (id : string)
  (d : list (string * Addon)) (s : AddonSection) :
  handler s = Some d -> nth_error args 1 = Some id -> nonempty id = true ->
  kind_of id <> data_descriptor ->
  (lookup_key id d = None -> kind_of id = no_class_attribute) ->
  let a := default (plain (AddonData_init PLACEHOLDER_NAME)) (lookup_key id d) in
  handle_section kind_of lineno args lines s
  = ({| handler := Some (store_key id (fst (section_on_addon lineno args lines a)) d);
        addon_id := Some id |},
     snd (section_on_addon lineno args lines a)).
Proof.
  intros Hh Hid Hne Hk Hkind a. unfold handle_section, section_on_addon, bind.
  rewrite (handleHeader_stored lineno args id d s Hh Hid Hne Hk Hkind). fold a.
  destruct (handle_header lineno (skipn 2 args) a) as [a1 [[]|e]]; cbn [fst snd]; [|done].
  rewrite handleLines_stored by done.
  destruct (lines_on_addon lines a1) as [a2 [[]|e]]; cbn [fst snd]; [|done].
  by apply finalize_stored.
Qed.

(** A section for an addon that the registry does not know (and whose id is
    no attribute of the registry's class) never fails: the header makes a
    placeholder under the id, an [AddonData], which collects the arguments of
    the header, joined by spaces, and the lines of the body, in order; the
    other addons are as before; and [AddonRegistry.setup] on the resulting
    registry gives the registry and makes the calls it would have given and
    made without the section. *)
Theorem unknown_addon_section_is_dropped_by_setup
  (lineno : nat) (args lines : list string) (id : string) (d : list (string * Addon))
  (s : AddonSection) :
  handler s = Some d -> is_dict d ->
  nth_error args 1 = Some id -> nonempty id = true ->
  kind_of id = no_class_attribute -> lookup_key id d = None ->
  let '(s', r) := handle_section kind_of lineno args lines s in
  r = Ok tt /\ addon_id s' = Some id /\
  exists d', handler s' = Some d' /\ is_dict d' /\
    lookup_key id d'
    = Some (plain {| name := PLACEHOLDER_NAME; content := String.concat "" lines;
                     header_args := String.concat " " (skipn 2 args) |}) /\
    (forall k, k <> id -> lookup_key k d' = lookup_key k d) /\
    AddonRegistry_setup d' = AddonRegistry_setup d.
Proof.
  intros Hh Hd Hid Hne Hk Hl.
  rewrite (handle_section_stored lineno args lines id d s Hh Hid Hne);
    [|by rewrite Hk|done].
  rewrite Hl. cbn [default from_option Datatypes.id]. rewrite section_on_plain. cbn [fst snd].
  split; [done|]. split; [done|]. eexists. split; [done|].
  split; [by apply is_dict_store_key|].
  rewrite lookup_store_key_eq.
  split; [done|]. split.
  - intros k Hne'. by apply lookup_store_key_ne.
  - unfold AddonRegistry_setup.
    rewrite (setup_dict_spec (store_key _ _ d)) by (by apply is_dict_store_key).
    rewrite (setup_dict_spec d) by done.
    by rewrite without_placeholders_store_new.
Qed.

(** A section for a registered addon is the addon's own business: the
    header, the lines and the end of the section call the methods of the
    object, in this order and up to the first that raises, and the section
    raises what that method raised.  The registry keeps its keys and their
    order, the other addons are as before, and the addon of the section is as
    its methods left it.  An [AddonData] that is registered never raises: the
    arguments of the header are appended to its [header_args] and the lines
    to its [content]. *)
Theorem registered_addon_collects_its_section
  (lineno : nat) (args lines : list string) (id : string) (a : Addon)
  (d : list (string * Addon)) (s : AddonSection) :
  handler s = Some d -> nth_error args 1 = Some id -> nonempty id = true ->
  kind_of id <> data_descriptor -> lookup_key id d = Some a ->
  let '(s', r) := handle_section kind_of lineno args lines s in
  let '(a', r') := section_on_addon lineno args lines a in
  r = r' /\ addon_id s' = Some id /\
  (exists d', handler s' = Some d' /\
     map fst d' = map fst d /\
     lookup_key id d' = Some a' /\
     (forall k, k <> id -> lookup_key k d' = lookup_key k d)) /\
  (forall x, a = plain x ->
     r = Ok tt /\
     a' = plain {| name := name x;
                   content := (content x ++ String.concat "" lines)%string;
                   header_args :=
                     (header_args x ++ String.concat " " (skipn 2 args))%string |}).
Proof.
  intros Hh Hid Hne Hk Hl.
  rewrite (handle_section_stored lineno args lines id d s Hh Hid Hne Hk)
    by (by rewrite Hl).
  rewrite Hl. cbn [default from_option Datatypes.id].
  destruct (section_on_addon lineno args lines a) as [a' r'] eqn:Hrun. cbn [fst snd].
  split; [done|]. split; [done|]. split.
  - eexists. split; [done|]. rewrite lookup_store_key_eq.
    split; [|split; [done|]].
    + apply store_key_keys. by rewrite Hl.
    + intros k Hne'. by apply lookup_store_key_ne.
  - intros x ->. rewrite section_on_plain in Hrun. by injection Hrun as <- <-.
Qed.

(** Until [setup] removes it, the registry prints the section of an unknown
    addon after the sections it printed before, with the arguments of the
    header and the lines of the body, and with the name of the placeholder
    where the id of the section was. *)
Theorem unknown_addon_section_prints_as_placeholder
  (lineno : nat) (args lines : list string) (id : string) (d : list (string * Addon))
  (s : AddonSection) :
  handler s = Some d -> nth_error args 1 = Some id -> nonempty id = true ->
  kind_of id = no_class_attribute -> lookup_key id d = None ->
  let '(s', _) := handle_section kind_of lineno args lines s in
  exists d', handler s' = Some d' /\
    AddonRegistry_str d'
    = (AddonRegistry_str d ++ "%addon " ++ PLACEHOLDER_NAME ++ " "
       ++ String.concat " " (skipn 2 args) ++ nl
       ++ String.concat "" lines ++ "%end" ++ nl)%string.
Proof.
  intros Hh Hid Hne Hk Hl.
  rewrite (handle_section_stored lineno args lines id d s Hh Hid Hne);
    [|by rewrite Hk|done].
  rewrite Hl. cbn [default from_option Datatypes.id]. rewrite section_on_plain. cbn [fst snd].
  eexists. split; [done|].
  rewrite store_key_new by done.
  unfold AddonRegistry_str. rewrite fold_left_app. reflexivity.
Qed.

(** [handleHeader] succeeds exactly when the header names an id
    ([args[1]]), the section has a handler, and the id either names an addon
    of the registry whose own [handle_header] returns, or is a nonempty name
    the registry has no attribute for (a placeholder is made).  When it
    raises, either the registry is as before, or the id names a registered
    addon whose own [handle_header] raised: then the header raises the same,
    and the registry holds that addon as the method left it and is otherwise
    as before.  No placeholder is left behind by a header that raises. *)
Theorem handleHeader_fails_without_a_change_of_the_registry
  (lineno : nat) (args : list string) (s : AddonSection) :
  let '(s', r) := handleHeader kind_of lineno args s in
  (r = Ok tt <->
   exists id d, nth_error args 1 = Some id /\ handler s = Some d /\
     ((exists a, getattr kind_of d id = Ok (an_addon a) /\
                 snd (handle_header lineno (skipn 2 args) a) = Ok tt) \/
      (nonempty id = true /\ getattr kind_of d id = Raise AttributeError))) /\
  (r <> Ok tt ->
   handler s' = handler s \/
   exists id d a,
     nth_error args 1 = Some id /\ handler s = Some d /\ lookup_key id d = Some a /\
     r = snd (handle_header lineno (skipn 2 args) a) /\
     handler s' = Some (store_key id (fst (handle_header lineno (skipn 2 args) a)) d) /\
     map fst (store_key id (fst (handle_header lineno (skipn 2 args) a)) d) = map fst d).
Proof.
  destruct (nth_error args 1) as [id|] eqn:Hid; cycle 1.
  { unfold handleHeader. rewrite Hid. cbn. split; [|by left]. split; [done|].
    by intros (? & ? & ? & _). }
  destruct (handler s) as [d|] eqn:Hh; cycle 1.
  { assert (Hrun : exists s', handleHeader kind_of lineno args s = (s', Raise AttributeError)
                              /\ handler s' = None).
    { unfold handleHeader. rewrite Hid. unfold bind at 1. cbn [modify].
      assert (Hon : on_addon kind_of id (handle_header lineno (skipn 2 args))
                      (set_addon_id id s) = (set_addon_id id s, Raise AttributeError)).
      { apply on_addon_fails. intros d a. cbn. by rewrite Hh. }
      destruct (nonempty id).
      - unfold bind, handler_addons. cbn. rewrite Hh. by eexists.
      - unfold bind at 1. cbn [ret]. rewrite Hon. by eexists. }
    destruct Hrun as (s' & -> & Hs'). split; [|intros _; left; congruence].
    split; [done|]. by intros (? & ? & ? & ? & _). }
  assert (Hrhs : forall P : Prop,
            (P <-> ((exists a, getattr kind_of d id = Ok (an_addon a) /\
                               snd (handle_header lineno (skipn 2 args) a) = Ok tt) \/
                    (nonempty id = true /\ getattr kind_of d id = Raise AttributeError))) ->
            (P <-> exists id0 d0, Some id = Some id0 /\ Some d = Some d0 /\
               ((exists a, getattr kind_of d0 id0 = Ok (an_addon a) /\
                           snd (handle_header lineno (skipn 2 args) a) = Ok tt) \/
                (nonempty id0 = true /\ getattr kind_of d0 id0 = Raise AttributeError)))).
  { intros P ->. split.
    - intros Hp. by exists id, d.
    - by intros (? & ? & [= <-] & [= <-] & Hp). }
  rewrite (handleHeader_spec lineno args id d s Hid Hh).
  destruct (getattr kind_of d id) as [[a|]|e] eqn:Hg.
  - destruct (getattr_addon _ _ _ Hg) as [Hk Hl]. split.
    + apply Hrhs. split.
      * intros Hr. left. by exists a.
      * intros [(a0 & [= <-] & Hr)|[_ [=]]]. exact Hr.
    + intros Hr. right. exists id, d, a. cbn [handler].
      repeat (split; [done|]). apply store_key_keys. by rewrite Hl.
  - split; [|intros _; left; cbn; by rewrite Hh].
    apply Hrhs. split; [done|]. by intros [(a0 & [=] & _)|[_ [=]]].
  - destruct (getattr_raises _ _ _ Hg) as (-> & Hk & Hl).
    destruct (nonempty id) eqn:Hne.
    + split; [|done]. apply Hrhs. split; [intros _; by right | done].
    + split; [|intros _; left; cbn; by rewrite Hh].
      apply Hrhs. split; [done|]. by intros [(a0 & [=] & _)|[[=] _]].
Qed.

End Registry.

(** *** The registry *)

Lemma without_placeholders_idem (d : list (string * Addon)) :
  without_placeholders (without_placeholders d) = without_placeholders d.
Proof.
  unfold without_placeholders. induction d as [|kv d IH]; [done|]. cbn.
  destruct (negb (String.eqb (addon_name (snd kv)) PLACEHOLDER_NAME)) eqn:E; [|done].
  cbn. by rewrite E, IH.
Qed.

Lemma without_placeholders_sublist (d : list (string * Addon)) :
  without_placeholders d `sublist_of` d.
Proof.
  unfold without_placeholders. induction d as [|kv d IH]; [done|]. cbn.
  destruct (negb (String.eqb (addon_name (snd kv)) PLACEHOLDER_NAME));
    by constructor.
Qed.

Lemma without_placeholders_In (d : list (string * Addon)) (kv : string * Addon) :
  In kv (without_placeholders d) <-> In kv d /\ addon_name (snd kv) <> PLACEHOLDER_NAME.
Proof.
  unfold without_placeholders. rewrite filter_In.
  destruct (String.eqb_spec (addon_name (snd kv)) PLACEHOLDER_NAME); cbn;
    intuition congruence.
Qed.

(** After [AddonRegistry.setup] on a dict the registry is a dict that holds
    the addons that are no placeholders, all of them and in their order; a
    second [setup] keeps the registry and makes the same calls; and neither
    [setup] nor a following [execute] calls a placeholder. *)
Theorem setup_leaves_no_placeholder (d : list (string * Addon)) :
  is_dict d ->
  let '(d', calls) := AddonRegistry_setup d in
  is_dict d' /\
  Forall (fun kv => addon_name (snd kv) <> PLACEHOLDER_NAME) d' /\
  d' `sublist_of` d /\
  (forall kv, In kv d -> addon_name (snd kv) <> PLACEHOLDER_NAME -> In kv d') /\
  AddonRegistry_setup d' = (d', calls) /\
  Forall (fun c => c <> addon_setup PLACEHOLDER_NAME /\ c <> addon_execute PLACEHOLDER_NAME)
         (calls ++ AddonRegistry_execute d').
Proof.
  intros Hd.
  assert (Hd' : is_dict (without_placeholders d)).
  { unfold is_dict. apply (sublist_NoDup _ (map fst d)); [exact Hd|].
    apply (fmap_sublist fst), without_placeholders_sublist. }
  unfold AddonRegistry_setup, AddonRegistry_execute. cbv zeta.
  rewrite (setup_dict_spec d Hd), (setup_dict_spec _ Hd'), without_placeholders_idem.
  split; [exact Hd'|].
  split; [|split; [|split; [|split]]].
  - apply List.Forall_forall. intros kv Hkv.
    by apply without_placeholders_In in Hkv as [_ Hkv].
  - apply without_placeholders_sublist.
  - intros kv H1 H2. by apply without_placeholders_In.
  - done.
  - apply Forall_app. split; apply List.Forall_forall; intros c Hc;
      apply in_flat_map in Hc as (kv & Hkv & Hc);
      apply without_placeholders_In in Hkv as [_ Hkv].
    + destruct (has_setup (snd kv)); [|done].
      destruct Hc as [<-|[<-|[]]]; split; congruence.
    + destruct (has_execute (snd kv)); [|done].
      destruct Hc as [<-|[<-|[]]]; split; congruence.
Qed.

End Objects.

Lemma unknown_addon_section_witness :
  let '(s', r) := @handle_section strict registry_kind 7 hello_args ["text"] one_addon in
  r = Ok tt /\ addon_id s' = Some "org_fedora_hello_world" /\
  exists d', handler s' = Some d' /\ is_dict d' /\
    lookup_key "org_fedora_hello_world" d'
    = Some (@plain strict
              {| name := PLACEHOLDER_NAME; content := String.concat "" ["text"];
                 header_args := String.concat " " (skipn 2 hello_args) |}) /\
    (forall k, k <> "org_fedora_hello_world" ->
               lookup_key k d' = lookup_key k [("com_redhat_kdump", kdump)]) /\
    AddonRegistry_setup d' = AddonRegistry_setup [("com_redhat_kdump", kdump)].
Proof.
  assert (Hd : is_dict [("com_redhat_kdump", kdump)]) by apply NoDup_singleton.
  exact (@unknown_addon_section_is_dropped_by_setup strict registry_kind 7 hello_args
           ["text"] "org_fedora_hello_world" [("com_redhat_kdump", kdump)] one_addon
           eq_refl Hd eq_refl eq_refl eq_refl eq_refl).
Defined.

Lemma unknown_addon_section_prints_witness :
  let '(s', _) := @handle_section strict registry_kind 7 hello_args ["text"] one_addon in
  exists d', handler s' = Some d' /\
    AddonRegistry_str d'
    = (AddonRegistry_str [("com_redhat_kdump", kdump)]
       ++ "%addon " ++ PLACEHOLDER_NAME ++ " "
       ++ String.concat " " (skipn 2 hello_args) ++ nl
       ++ String.concat "" ["text"] ++ "%end" ++ nl)%string.
Proof.
  exact (@unknown_addon_section_prints_as_placeholder strict registry_kind 7 hello_args
           ["text"] "org_fedora_hello_world" [("com_redhat_kdump", kdump)] one_addon
           eq_refl eq_refl eq_refl eq_refl eq_refl).
Defined.

(** A section for the addon of the class [Strict], with an empty line in
    its body: the line raises, the lines before it were taken, the end of the
    section is not reached, and [kdump] is as before. *)
Lemma registered_addon_section_witness :
  let '(s', r) := @handle_section strict registry_kind 7 strict_args ["a"; ""; "b"]
                    two_addons in
  let '(a', r') := @section_on_addon strict 7 strict_args ["a"; ""; "b"] strict_addon in
  r = r' /\ addon_id s' = Some "org_fedora_strict" /\
  (exists d', handler s' = Some d' /\
     map fst d' = ["com_redhat_kdump"; "org_fedora_strict"] /\
     lookup_key "org_fedora_strict" d' = Some a' /\
     (forall k, k <> "org_fedora_strict" ->
        lookup_key k d'
        = lookup_key k [("com_redhat_kdump", kdump); ("org_fedora_strict", strict_addon)])) /\
  (forall x, strict_addon = plain x ->
     r = Ok tt /\
     a' = plain {| name := name x;
                   content := (content x ++ String.concat "" ["a"; ""; "b"])%string;
                   header_args :=
                     (header_args x ++ String.concat " " (skipn 2 strict_args))%string |}).
Proof.
  assert (Hk : registry_kind "org_fedora_strict" <> data_descriptor) by discriminate.
  exact (@registered_addon_collects_its_section strict registry_kind 7 strict_args
           ["a"; ""; "b"] "org_fedora_strict" strict_addon
           [("com_redhat_kdump", kdump); ("org_fedora_strict", strict_addon)] two_addons
           eq_refl eq_refl eq_refl Hk eq_refl).
Defined.

(** The section of the witness, evaluated: it raises at the empty line,
    with the option of the header and the first line taken. *)
Example strict_section_raises :
  let '(s', r) := @handle_section strict registry_kind 7 strict_args ["a"; ""; "b"]
                    two_addons in
  r = Raise TypeError /\
  handler s'
  = Some [("com_redhat_kdump", kdump);
          ("org_fedora_strict",
           @custom strict {| strict_options := ["--fast"]; strict_lines := ["a"] |})].
Proof. split; reflexivity. Qed.

Lemma setup_leaves_no_placeholder_witness :
  let d := [("com_redhat_kdump", kdump);
            ("org_fedora_hello_world", @plain strict (AddonData_init PLACEHOLDER_NAME))] in
  is_dict d /\
  (let '(d', calls) := AddonRegistry_setup d in
   is_dict d' /\
   Forall (fun kv => addon_name (snd kv) <> PLACEHOLDER_NAME) d' /\
   d' `sublist_of` d /\
   (forall kv, In kv d -> addon_name (snd kv) <> PLACEHOLDER_NAME -> In kv d') /\
   AddonRegistry_setup d' = (d', calls) /\
   Forall (fun c => c <> addon_setup PLACEHOLDER_NAME /\ c <> addon_execute PLACEHOLDER_NAME)
          (calls ++ AddonRegistry_execute d')).
Proof.
  assert (Hd : is_dict [("com_redhat_kdump", kdump);
                        ("org_fedora_hello_world",
                         @plain strict (AddonData_init PLACEHOLDER_NAME))]).
  { apply (bool_decide_unpack _). vm_compute. exact I. }
  split; [exact Hd|].
  exact (@setup_leaves_no_placeholder strict _ Hd).
Defined.

(** *** collect_addon_paths *)

Lemma merge_empty_r (m : ModulePaths) :
  merge m {| spokes := []; ks := []; categories := [] |} = m.
Proof. destruct m. unfold merge. cbn. by rewrite !app_nil_r. Qed.

Lemma merge_assoc (a b c : ModulePaths) : merge (merge a b) c = merge a (merge b c).
Proof. unfold merge. cbn. by rewrite <- !app_assoc. Qed.

Section Collect.
Variable fs : FileSystem.
Variable ui_subdir : string.

Lemma collect_directories_spec (path : string) (directories : list string)
  (module_paths : ModulePaths) :
  fold_left (fun module_paths addon_id =>
               collect_addon fs ui_subdir path addon_id module_paths)
            directories module_paths
  = merge module_paths (scanned {| listdir := fun _ => Some directories; isdir := isdir fs |}
                          ui_subdir [path]).
Proof.
  revert module_paths. induction directories as [|a directories IH]; intros m.
  - symmetry. apply merge_empty_r.
  - cbn [fold_left]. rewrite IH.
    unfold collect_addon, scanned, entries_of, merge. cbn -[path_join].
    rewrite !app_nil_r.
    destruct (isdir fs (path_join path [a; "ks"])),
             (isdir fs (path_join path [a; ui_subdir; "spokes"])),
             (isdir fs (path_join path [a; "categories"]));
      cbn -[path_join]; by rewrite <- ?app_assoc.
Qed.

Lemma collect_from_spec (toplevel_addon_paths : list string) (module_paths : ModulePaths) :
  collect_from fs ui_subdir toplevel_addon_paths module_paths
  = merge module_paths (scanned fs ui_subdir toplevel_addon_paths).
Proof.
  unfold collect_from. revert module_paths.
  induction toplevel_addon_paths as [|path l IH]; intros m.
  - symmetry. apply merge_empty_r.
  - cbn [fold_left]. rewrite IH, collect_directories_spec, merge_assoc.
    f_equal. unfold merge, scanned, entries_of. cbn -[path_join].
    by rewrite !app_nil_r.
Qed.

Lemma In_entries_of (l : list string) (fmt : string -> string) (sub : list string)
  (e : string * string) :
  In e (entries_of fs fmt sub l) <-> found_in fs l fmt sub e.
Proof.
  unfold entries_of, found_in. rewrite in_flat_map. split.
  - intros (path & Hp & He). apply in_flat_map in He as (a & Ha & He).
    destruct (listdir fs path) as [dirs|] eqn:Hl; [|done].
    destruct (isdir fs (path_join path (a :: sub))) eqn:Hd; [|done].
    destruct He as [<-|[]]. by exists path, dirs, a.
  - intros (path & dirs & a & Hp & Hl & Ha & Hd & ->).
    exists path. split; [done|]. apply in_flat_map. exists a. rewrite Hl.
    split; [done|]. cbv zeta. rewrite Hd. by left.
Qed.

(** The three lists that [collect_addon_paths] fills in one loop are three
    scans that do not depend on each other: each holds, in the order of the
    paths and of their listings, one entry for every addon whose subdirectory
    for that key exists; a path that cannot be listed adds nothing. *)
Theorem collect_addon_paths_scans_each_key_on_its_own (toplevel_addon_paths : list string) :
  collect_addon_paths fs toplevel_addon_paths ui_subdir
  = scanned fs ui_subdir toplevel_addon_paths.
Proof. unfold collect_addon_paths. by rewrite collect_from_spec. Qed.

(** An entry is under a key of the result exactly when one of the paths has
    a listing that names the addon and the addon's subdirectory for the key is
    a directory; so every registered directory is a directory. *)
Theorem collect_addon_paths_registers_the_directories_found
  (toplevel_addon_paths : list string) :
  let module_paths := collect_addon_paths fs toplevel_addon_paths ui_subdir in
  (forall e, In e (ks module_paths) <->
     found_in fs toplevel_addon_paths (fun addon_id => addon_id ++ ".ks.%s")%string ["ks"] e) /\
  (forall e, In e (spokes module_paths) <->
     found_in fs toplevel_addon_paths
       (fun addon_id => addon_id ++ "." ++ ui_subdir ++ ".spokes.%s")%string
       [ui_subdir; "spokes"] e) /\
  (forall e, In e (categories module_paths) <->
     found_in fs toplevel_addon_paths (fun addon_id => addon_id ++ ".categories.%s")%string
       ["categories"] e) /\
  Forall (fun dir => isdir fs dir = true) (registered module_paths).
Proof.
  cbv zeta. unfold collect_addon_paths. rewrite collect_from_spec.
  unfold registered. cbn [merge scanned spokes ks categories app].
  split; [|split; [|split]]; try (intros e; apply In_entries_of).
  rewrite !Forall_app. split; [|split]; apply List.Forall_forall; intros dir Hd;
    apply in_map_iff in Hd as ([fmt dir'] & <- & He);
    apply In_entries_of in He as (? & ? & ? & _ & _ & _ & Hdir & [= -> ->]); exact Hdir.
Qed.

End Collect.

End AddonsFacts.
